(** * SherlockStatistics: the statistics API, embedded and verified

    The development follows [statistics_api/models.py],
    [statistics_api/serializer.py] and [statistics_api/views.py].  The
    views are request handlers over two shared stores, the relational
    database and the cache; both are threaded explicitly through every
    handler.  A request is handled at one instant [now] of the clock.

    The handlers are written against Django, Django REST framework
    (DRF) and the Python runtime.  The parts of those that the handlers
    exercise (field coercion, the list serializer, [decimal.Decimal],
    the cache client) are modelled in the modules [Py], [PyDecimal],
    [datetime], [cache] and [drf]; the modules [models], [serializer]
    and [views] embed the repository's own code. *)

From Stdlib Require Import ZArith String Ascii List Bool Lia.
From Stdlib Require Import DecimalString DecimalNat Sorted.
From Stdlib Require DecimalZ.
From stdpp Require Import base gmap strings list.

Open Scope Z_scope.

(** ** The Python runtime *)

Module Py.

(** [str(n)] for a Python [int]. *)
Definition str_int (z : Z) : string := NilZero.string_of_int (Z.to_int z).

(** [str(n)] for a non-negative [int], such as [len(...)]. *)
Definition str_nat (n : nat) : string := NilEmpty.string_of_uint (Nat.to_uint n).

(** Characters that [str.strip()] removes and that the regular
    expression class [\s] matches; the model covers the ASCII ones. *)
Definition is_space (c : ascii) : bool :=
  let n := nat_of_ascii c in
  (((9 <=? n) && (n <=? 13)) || ((28 <=? n) && (n <=? 32)))%nat.

Fixpoint lstrip (l : list ascii) : list ascii :=
  match l with
  | c :: l' => if is_space c then lstrip l' else l
  | [] => []
  end.

Definition rstrip (l : list ascii) : list ascii := rev (lstrip (rev l)).

(** [s.strip()] *)
Definition strip (s : string) : string :=
  string_of_list_ascii (rstrip (lstrip (list_ascii_of_string s))).

Definition digit_of (c : ascii) : option Z :=
  let n := nat_of_ascii c in
  if ((48 <=? n) && (n <=? 57))%nat then Some (Z.of_nat (n - 48)) else None.

(** The digit part of an integer literal: decimal digits, single
    underscores allowed between two digits. *)
Fixpoint int_digits (acc : Z) (after_digit : bool) (l : list ascii) : option Z :=
  match l with
  | [] => if after_digit then Some acc else None
  | c :: l' =>
      match digit_of c with
      | Some d => int_digits (acc * 10 + d) true l'
      | None =>
          if Ascii.eqb c "_" && after_digit then int_digits acc false l' else None
      end
  end.

(** [int(s)] for a string: surrounding whitespace, an optional sign,
    then the digits; [None] stands for [ValueError]. *)
Definition int_of_str (s : string) : option Z :=
  match list_ascii_of_string (strip s) with
  | "+"%char :: l => int_digits 0 false l
  | "-"%char :: l => Z.opp <$> int_digits 0 false l
  | l => int_digits 0 false l
  end.

(** Truth value of a string: [bool(s)]. *)
Definition truthy_str (s : string) : bool := negb (String.eqb s EmptyString).

End Py.

(** ** Request data

    A request body parsed by DRF's JSON parser.  A JSON number with a
    fraction or an exponent becomes a Python [float]; the handlers only
    ever pass it through [str], so a float is represented by the text
    [str] prints for it (["9.9"], ["5.0"], ["1e+16"]). *)

#[warnings="-register-all"]
Inductive json : Type :=
| JNull
| JBool (b : bool)
| JInt (z : Z)
| JFloat (repr : string)
| JStr (s : string)
| JList (l : list json)
| JDict (d : list (string * json)).

(** [data.get(name, empty)] on a parsed JSON object. *)
Fixpoint dict_get (name : string) (d : list (string * json)) : option json :=
  match d with
  | [] => None
  | (k, v) :: d' => if String.eqb k name then Some v else dict_get name d'
  end.

(** ** [decimal.Decimal] *)

Module PyDecimal.

(** A [Decimal] as [as_tuple()] shows it: sign, coefficient and
    exponent, the value being [(-1)^sign * coefficient * 10^exponent].
    The digit tuple is the decimal writing of the coefficient. *)
Inductive t : Type :=
| Finite (sign : bool) (coefficient : N) (exponent : Z)
| Infinity (sign : bool)
| NaN.

Fixpoint ndigits_fuel (fuel : nat) (n : N) : nat :=
  match fuel with
  | O => 1
  | S fuel' => if (n <? 10)%N then 1%nat else S (ndigits_fuel fuel' (n / 10)%N)
  end.

(** [len(digittuple)]: the number of decimal digits of the
    coefficient, 1 for zero. *)
Definition ndigits (n : N) : nat := ndigits_fuel (N.size_nat n) n.

Definition lower (c : ascii) : ascii :=
  let n := nat_of_ascii c in
  if ((65 <=? n) && (n <=? 90))%nat then ascii_of_nat (n + 32) else c.

Fixpoint take_digits (l : list ascii) : list ascii * list ascii :=
  match l with
  | c :: l' =>
      match Py.digit_of c with
      | Some _ => let '(ds, r) := take_digits l' in (c :: ds, r)
      | None => ([], l)
      end
  | [] => ([], [])
  end.

Definition digits_value (ds : list ascii) : N :=
  fold_left (fun acc c => (acc * 10 + Z.to_N (default 0%Z (Py.digit_of c)))%N) ds 0%N.

(** The exponent part [(E[-+]?\d+)?] followed by the end of the text. *)
Definition parse_exponent (l : list ascii) : option Z :=
  match l with
  | [] => Some 0
  | e :: r =>
      if Ascii.eqb (lower e) "e" then
        let '(neg, r') :=
          match r with
          | "-"%char :: r' => (true, r')
          | "+"%char :: r' => (false, r')
          | _ => (false, r)
          end in
        match take_digits r' with
        | ((_ :: _) as ds, []) =>
            let v := Z.of_N (digits_value ds) in Some (if neg then - v else v)
        | _ => None
        end
      else None
  end.

Definition all_digits (l : list ascii) : bool :=
  forallb (fun c => bool_decide (is_Some (Py.digit_of c))) l.

Definition is_special_text (l : list ascii) : option t :=
  let w := string_of_list_ascii (map lower l) in
  if String.eqb w "inf" || String.eqb w "infinity" then Some (Infinity false)
  else match map lower l with
       | "n"%char :: "a"%char :: "n"%char :: d =>
           if all_digits d then Some NaN else None
       | "s"%char :: "n"%char :: "a"%char :: "n"%char :: d =>
           if all_digits d then Some NaN else None
       | _ => None
       end.

(** [Decimal(s)] for a string; [None] stands for [InvalidOperation].
    The text is stripped, underscores are dropped, then it is a sign
    followed by a number ([digits], [digits.digits], [.digits], with an
    optional exponent), an infinity or a NaN. *)
Definition of_str (s : string) : option t :=
  let l := filter (fun c => c <> "_"%char) (list_ascii_of_string (Py.strip s)) in
  let '(sg, l) :=
    match l with
    | "-"%char :: l' => (true, l')
    | "+"%char :: l' => (false, l')
    | _ => (false, l)
    end in
  match is_special_text l with
  | Some (Infinity _) => Some (Infinity sg)
  | Some d => Some d
  | None =>
      let '(ip, r1) := take_digits l in
      let '(fp, r2) :=
        match r1 with
        | "."%char :: r => take_digits r
        | _ => ([], r1)
        end in
      match ip, fp with
      | [], [] => None
      | _, _ =>
          e ← parse_exponent r2;
          Some (Finite sg (digits_value (ip ++ fp)) (e - Z.of_nat (length fp)))
      end
  end.

Definition Emax : Z := 999999.

(** [adjusted()]: the exponent of the most significant digit. *)
Definition adjusted (c : N) (e : Z) : Z := e + Z.of_nat (ndigits c) - 1.

(** [_rescale(exp, ROUND_HALF_EVEN)] for a non-zero finite value: pad
    with zeros, or drop digits and round to nearest, ties to even. *)
Definition rescale (c : N) (e target : Z) : N :=
  if target <=? e then (c * 10 ^ Z.to_N (e - target))%N
  else
    let p := (10 ^ Z.to_N (target - e))%N in
    let q := (c / p)%N in
    let r := (c mod p)%N in
    if (p <? 2 * r)%N || ((2 * r =? p)%N && N.odd q) then (q + 1)%N else q.

(** [d.quantize(Decimal(10) ** target, context=ctx)] with
    [ctx.prec = prec] and the default rounding; [None] stands for
    [InvalidOperation]. *)
Definition quantize (prec : Z) (target : Z) (d : t) : option t :=
  match d with
  | Finite sg c e =>
      if (c =? 0)%N then Some (Finite sg 0 target)
      else if Emax <? adjusted c e then None
      else if prec <? adjusted c e - target + 1 then None
      else
        let c' := rescale c e target in
        if Emax <? adjusted c' target then None
        else if prec <? Z.of_nat (ndigits c') then None
        else Some (Finite sg c' target)
  | _ => None
  end.

End PyDecimal.

(** ** [datetime.datetime]

    The value of [timezone.now()] and of a record's [timestamp]: a
    calendar date and a time of day (UTC; the sub-second part is left
    out). *)

Module datetime.

Record t : Type := mk {
  year : nat; month : nat; day : nat;
  hour : nat; minute : nat; second : nat
}.

Definition is_leap (y : nat) : bool :=
  ((y mod 4 =? 0) && (negb (y mod 100 =? 0) || (y mod 400 =? 0)))%nat.

Definition days_in_month (y m : nat) : nat :=
  match m with
  | 2 => if is_leap y then 29 else 28
  | 4 | 6 | 9 | 11 => 30
  | _ => 31
  end%nat.

(** The values a [datetime] object can hold. *)
Definition valid (d : t) : bool :=
  ((1 <=? year d) && (Z.of_nat (year d) <=? 9999)%Z &&
   (1 <=? month d) && (month d <=? 12) &&
   (1 <=? day d) && (day d <=? days_in_month (year d) (month d)) &&
   (hour d <? 24) && (minute d <? 60) && (second d <? 60))%nat.

Definition days_before_year (y : nat) : Z :=
  let y1 := Z.of_nat y - 1 in
  y1 * 365 + y1 / 4 - y1 / 100 + y1 / 400.

Fixpoint days_before_month (y m : nat) : Z :=
  match m with
  | O => 0
  | S O => 0
  | S m' => days_before_month y m' + Z.of_nat (days_in_month y m')
  end.

(** [d.toordinal()]: the day number, 1 for 0001-01-01. *)
Definition toordinal (d : t) : Z :=
  days_before_year (year d) + days_before_month (year d) (month d) + Z.of_nat (day d).

(** Seconds since the start of day 0: the scale on which datetimes
    are compared, [timedelta]s are added and cache entries expire. *)
Definition to_seconds (d : t) : Z :=
  toordinal d * 86400 + Z.of_nat (hour d) * 3600
  + Z.of_nat (minute d) * 60 + Z.of_nat (second d).

Definition digit_char (n : nat) : ascii := ascii_of_nat (48 + n).

(** A two-digit, zero-padded field of [strftime]. *)
Definition pad2 (n : nat) : string :=
  String (digit_char (n / 10)) (String (digit_char (n mod 10)) EmptyString).

(** [d.strftime("%Y%m%d%H")] *)
Definition strftime_YmdH (d : t) : string :=
  Py.str_nat (year d) +:+ pad2 (month d) +:+ pad2 (day d) +:+ pad2 (hour d).

(** Two instants lie in the same clock hour. *)
Definition same_hour (a b : t) : Prop :=
  year a = year b /\ month a = month b /\ day a = day b /\ hour a = hour b.

End datetime.

(** [timedelta(days=n)] in seconds. *)
Definition timedelta_days (n : Z) : Z := n * 86400.

(** ** The cache client

    Modelled from the spec: the cache backend behind
    [django.core.cache.cache] is chosen in the project settings, which
    are not among the sources.  It is a store from keys to values, each
    with the instant at which it expires, with the three operations the
    views call: [get], [set] with a timeout and [delete_pattern], which
    deletes every key matching a pattern. *)

Module cache.

Section WithValue.
Context {V : Type}.

Record entry : Type := mk_entry { value : V; expires : Z }.

(** [cache.get(key)] at instant [now]: [None] for a missing or an
    expired key. *)
Definition get (c : gmap string entry) (key : string) (now : Z) : option V :=
  match c !! key with
  | Some e => if now <? expires e then Some (value e) else None
  | None => None
  end.

(** [cache.set(key, v, timeout=timeout)] at instant [now]. *)
Definition set (c : gmap string entry) (key : string) (v : V) (timeout now : Z)
  : gmap string entry :=
  <[key := mk_entry v (now + timeout)]> c.

(** Glob matching of a key against a pattern: [*] matches any run of
    characters, [?] any one character, every other character itself
    (the patterns of this program use no character class or escape). *)
Fixpoint glob_match (p s : list ascii) {struct p} : bool :=
  match p with
  | [] => match s with [] => true | _ => false end
  | "*"%char :: p' =>
      (fix star (s : list ascii) : bool :=
         glob_match p' s || match s with [] => false | _ :: s' => star s' end) s
  | "?"%char :: p' =>
      match s with _ :: s' => glob_match p' s' | [] => false end
  | c :: p' =>
      match s with c' :: s' => Ascii.eqb c c' && glob_match p' s' | [] => false end
  end.

Definition matches (pattern key : string) : bool :=
  glob_match (list_ascii_of_string pattern) (list_ascii_of_string key).

(** [cache.delete_pattern(pattern)]: every key that matches goes. *)
Definition delete_pattern (c : gmap string entry) (pattern : string)
  : gmap string entry :=
  filter (fun kv : string * entry => matches pattern kv.1 = false) c.

End WithValue.

Arguments entry : clear implicits.

End cache.

(** ** Outcomes

    A Python call either returns or raises.  DRF's [ValidationError] is
    kept apart from the other exceptions: the serializers catch it and
    turn it into an error report, everything else travels up to the
    view. *)

Inductive exn : Type :=
| TypeError (msg : string)
| ValueError (msg : string)
| DoesNotExist (model : string)
| MultipleObjectsReturned (model : string)
| DjangoValidationError (msg : string)
| InvalidOperation.

Inductive result (E A : Type) : Type :=
| Ok (a : A)
| Raise (e : E).
Arguments Ok {E A} a.
Arguments Raise {E A} e.

(** One error of a [ValidationError]: a built-in error of the
    framework, named by its [code], or a message of the program. *)
Inductive ErrorDetail : Type :=
| Code (code : string)
| Message (text : string).

(** [exc.detail]: a list of errors, or errors by field name. *)
Inductive detail : Type :=
| DetailList (l : list ErrorDetail)
| DetailDict (d : list (string * list ErrorDetail)).

(** [bool(detail)] *)
Definition detail_truthy (d : detail) : bool :=
  match d with
  | DetailList l => negb (bool_decide (l = []))
  | DetailDict d => match d with [] => false | _ => true end
  end.

Definition NON_FIELD_ERRORS_KEY : string := "non_field_errors".

(** ** [statistics_api/models.py] *)

Module models.

(** Modelled from the spec: [users/models.py] is not among the
    sources.  A user has an id, a username and an email; [is_staff] is
    what the framework's [IsAdminUser] reads. *)
Record User : Type := {
  user_pk : Z;
  username : string;
  email : string;
  is_staff : bool
}.

(** [request.user]: a [User], or [AnonymousUser]. *)
Inductive request_user : Type :=
| Authenticated (u : User)
| AnonymousUser.

Definition is_authenticated (u : request_user) : bool :=
  match u with Authenticated _ => true | AnonymousUser => false end.

Record Feature : Type := {
  feature_pk : Z;
  name : string;
  description : string;
  feature_category : string;
  creation_date : datetime.t
}.

Record UserInteraction : Type := {
  interaction_pk : Z;
  user : Z;
  feature : Z;
  interaction_type : string;
  timestamp : datetime.t;
  duration : Z;
  additional_metadata : json
}.

Record UserFeedback : Type := {
  feedback_pk : Z;
  feedback_user : Z;
  category : string;
  rating : PyDecimal.t;
  feedback_text : option string;
  feedback_timestamp : datetime.t
}.

(** The tables, in insertion order, and the range the database
    backend gives an [IntegerField]
    ([connection.ops.integer_field_range]). *)
Record database : Type := {
  users : list User;
  features : list Feature;
  interactions : list UserInteraction;
  feedback : list UserFeedback;
  integer_field_range : Z * Z
}.

Definition next_pk {A} (pk : A -> Z) (rows : list A) : Z :=
  1 + fold_right Z.max 0 (map pk rows).

(** [Feature.objects.filter(name=n)] *)
Definition Feature_filter_name (db : database) (n : string) : list Feature :=
  filter (fun f => name f = n) (features db).

(** [Feature.objects.get(name=n)] *)
Definition Feature_get_name (db : database) (n : string) : result exn Feature :=
  match Feature_filter_name db n with
  | [f] => Ok f
  | [] => Raise (DoesNotExist "Feature")
  | _ => Raise (MultipleObjectsReturned "Feature")
  end.

(** [UserInteraction.objects.create(interaction_type=.., duration=..,
    additional_metadata=.., feature=f, user=u)] at instant [now]; the
    timestamp takes its default, [timezone.now].  Assigning
    [AnonymousUser] to the foreign key raises [ValueError]. *)
Definition UserInteraction_create (db : database) (now : datetime.t)
    (ty : string) (dur : Z) (meta : json) (f : Feature) (u : request_user)
  : result exn (database * UserInteraction) :=
  match u with
  | AnonymousUser => Raise (ValueError "UserInteraction.user must be a User instance")
  | Authenticated usr =>
      let row := {| interaction_pk := next_pk interaction_pk (interactions db);
                    user := user_pk usr;
                    feature := feature_pk f;
                    interaction_type := ty;
                    timestamp := now;
                    duration := dur;
                    additional_metadata := meta |} in
      Ok ({| users := users db; features := features db;
             interactions := interactions db ++ [row];
             feedback := feedback db;
             integer_field_range := integer_field_range db |}, row)
  end.

(** [UserFeedback.objects.create(category=.., rating=..,
    feedback_text=.., user=u)] at instant [now]. *)
Definition UserFeedback_create (db : database) (now : datetime.t)
    (cat : string) (r : PyDecimal.t) (text : option string) (u : request_user)
  : result exn (database * UserFeedback) :=
  match u with
  | AnonymousUser => Raise (ValueError "UserFeedback.user must be a User instance")
  | Authenticated usr =>
      let row := {| feedback_pk := next_pk feedback_pk (feedback db);
                    feedback_user := user_pk usr;
                    category := cat;
                    rating := r;
                    feedback_text := text;
                    feedback_timestamp := now |} in
      Ok ({| users := users db; features := features db;
             interactions := interactions db;
             feedback := feedback db ++ [row];
             integer_field_range := integer_field_range db |}, row)
  end.

End models.

(** ** Django REST framework: fields and serializer plumbing *)

Module drf.

(** What running one field gives: a validated value, nothing (the
    field is skipped), or errors. *)
Inductive field_result (A : Type) : Type :=
| Value (a : A)
| Skip
| Invalid (errors : list ErrorDetail).
Arguments Value {A} a.
Arguments Skip {A}.
Arguments Invalid {A} errors.

(** [Field.run_validation]: [data] is [field.get_value(...)], [None]
    when the key is absent; [null_value] is [Some] for a field with
    [allow_null]. *)
Definition run_validation {A} (required : bool) (null_value : option A)
    (to_internal_value : json -> result (list ErrorDetail) A)
    (data : option json) : field_result A :=
  match data with
  | None => if required then Invalid [Code "required"] else Skip
  | Some JNull =>
      match null_value with
      | Some v => Value v
      | None => Invalid [Code "null"]
      end
  | Some j =>
      match to_internal_value j with
      | Ok v => Value v
      | Raise e => Invalid e
      end
  end.

(** [str(data)] for a number or a string of the request.  Booleans,
    null, lists and objects have no entry: their text is neither a
    number nor a choice, and the string fields refuse them by type. *)
Definition scalar_str (j : json) : option string :=
  match j with
  | JStr s => Some s
  | JInt z => Some (Py.str_int z)
  | JFloat r => Some r
  | _ => None
  end.

(** [ChoiceField.to_internal_value]: the text of the input must be
    one of the choice keys. *)
Definition ChoiceField_to_internal_value (choices : list string) (data : json)
  : result (list ErrorDetail) string :=
  match scalar_str data with
  | Some s => if bool_decide (s ∈ choices) then Ok s else Raise [Code "invalid_choice"]
  | None => Raise [Code "invalid_choice"]
  end.

(** [CharField.run_validation] and [to_internal_value], with the
    defaults [allow_blank=False], [trim_whitespace=True] and the
    validator that prohibits null characters. *)
Definition has_null_character (s : string) : bool :=
  existsb (fun c => Ascii.eqb c "000"%char) (list_ascii_of_string s).

Definition CharField_to_internal_value (data : json) : result (list ErrorDetail) string :=
  match scalar_str data with
  | Some s =>
      let value := Py.strip s in
      if has_null_character value then Raise [Code "null_characters_not_allowed"]
      else Ok value
  | None => Raise [Code "invalid"]
  end.

Definition CharField_run_validation (required : bool) (data : option json)
  : field_result string :=
  match data with
  | Some (JStr s) =>
      if String.eqb (Py.strip s) EmptyString then Invalid [Code "blank"]
      else run_validation required None CharField_to_internal_value data
  | _ => run_validation required None CharField_to_internal_value data
  end.

(** [IntegerField.re_decimal.sub('', text)]: a trailing [.], zeros
    and whitespace are dropped. *)
Fixpoint drop_zeros (l : list ascii) : list ascii :=
  match l with
  | "0"%char :: l' => drop_zeros l'
  | _ => l
  end.

Definition re_decimal_sub (s : string) : string :=
  match drop_zeros (Py.lstrip (rev (list_ascii_of_string s))) with
  | "."%char :: r => string_of_list_ascii (rev r)
  | _ => s
  end.

Definition MAX_STRING_LENGTH : nat := 1000.

(** [IntegerField(min_value=lo, max_value=hi).to_internal_value]
    followed by the two range validators. *)
Definition IntegerField_to_internal_value (range : Z * Z) (data : json)
  : result (list ErrorDetail) Z :=
  match scalar_str data with
  | None => Raise [Code "invalid"]
  | Some s =>
      if (match data with JStr _ => true | _ => false end)
         && (MAX_STRING_LENGTH <? String.length s)%nat
      then Raise [Code "max_string_length"]
      else
        match Py.int_of_str (re_decimal_sub s) with
        | None => Raise [Code "invalid"]
        | Some n =>
            if range.2 <? n then Raise [Code "max_value"]
            else if n <? range.1 then Raise [Code "min_value"]
            else Ok n
        end
  end.

(** [JSONField.to_internal_value]: parsed JSON is accepted as it is. *)
Definition JSONField_to_internal_value (data : json) : result (list ErrorDetail) json :=
  Ok data.

(** [DecimalField.validate_precision] *)
Definition validate_precision (max_digits decimal_places : Z) (d : PyDecimal.t)
  : result (list ErrorDetail) PyDecimal.t :=
  match d with
  | PyDecimal.Finite _ c e =>
      let len := Z.of_nat (PyDecimal.ndigits c) in
      let '(total_digits, whole_digits, places) :=
        if 0 <=? e then (len + e, len + e, 0)
        else if Z.abs e <? len then (len, len - Z.abs e, Z.abs e)
        else (Z.abs e, 0, Z.abs e) in
      if max_digits <? total_digits then Raise [Code "max_digits"]
      else if decimal_places <? places then Raise [Code "max_decimal_places"]
      else if max_digits - decimal_places <? whole_digits then Raise [Code "max_whole_digits"]
      else Ok d
  | _ => Raise [Code "invalid"]
  end.

(** [DecimalField.quantize]: to [decimal_places] places, in a context
    of precision [max_digits]. *)
Definition quantize (max_digits decimal_places : Z) (d : PyDecimal.t)
  : result exn PyDecimal.t :=
  match PyDecimal.quantize max_digits (- decimal_places) d with
  | Some q => Ok q
  | None => Raise InvalidOperation
  end.

(** [DecimalField(max_digits, decimal_places).to_internal_value].
    The outer result is an exception that is not a validation error. *)
Definition DecimalField_to_internal_value (max_digits decimal_places : Z) (data : json)
  : result exn (result (list ErrorDetail) PyDecimal.t) :=
  match scalar_str data with
  | None => Ok (Raise [Code "invalid"])
  | Some s =>
      let text := Py.strip s in
      if (MAX_STRING_LENGTH <? String.length text)%nat
      then Ok (Raise [Code "max_string_length"])
      else
        match PyDecimal.of_str text with
        | Some (PyDecimal.Finite sg c e) =>
            match validate_precision max_digits decimal_places (PyDecimal.Finite sg c e) with
            | Ok v =>
                match quantize max_digits decimal_places v with
                | Ok q => Ok (Ok q)
                | Raise x => Raise x
                end
            | Raise errs => Ok (Raise errs)
            end
        | _ => Ok (Raise [Code "invalid"])
        end
  end.

(** The errors of one field, as the serializer files them under the
    field's name. *)
Definition field_errors {A} (field_name : string) (r : field_result A)
  : list (string * list ErrorDetail) :=
  match r with
  | Invalid e => [(field_name, e)]
  | _ => []
  end.

(** [as_serializer_error] on a [ValidationError] raised by
    [validate]: a list of errors goes under the non-field key. *)
Definition as_serializer_error (errs : list ErrorDetail) : detail :=
  DetailDict [(NON_FIELD_ERRORS_KEY, errs)].

(** *** [ListSerializer] *)

(** [serializer.errors] of a list serializer: one entry per item
    (empty for a valid item), or one report for the whole body. *)
Inductive list_errors : Type :=
| ItemErrors (items : list detail)
| BodyErrors (d : detail).

Definition list_errors_truthy (e : list_errors) : bool :=
  match e with
  | ItemErrors items => negb (bool_decide (items = []))
  | BodyErrors d => detail_truthy d
  end.

Section ListSerializer.
Context {A : Type}.
Variable run_child_validation : json -> result detail A.

(** The loop of [ListSerializer.to_internal_value]: the validated
    items and the error entries, in input order. *)
Fixpoint validate_items (items : list json) : list A * list detail :=
  match items with
  | [] => ([], [])
  | item :: rest =>
      let '(ret, errors) := validate_items rest in
      match run_child_validation item with
      | Ok validated => (validated :: ret, DetailDict [] :: errors)
      | Raise d => (ret, d :: errors)
      end
  end.

(** [ListSerializer.run_validation] on the request body
    ([allow_empty] has its default, [True]). *)
Definition list_run_validation (data : json) : result list_errors (list A) :=
  match data with
  | JNull => Raise (BodyErrors (DetailDict [(NON_FIELD_ERRORS_KEY, [Code "null"])]))
  | JList items =>
      let '(ret, errors) := validate_items items in
      if existsb detail_truthy errors then Raise (ItemErrors errors) else Ok ret
  | _ => Raise (BodyErrors (DetailDict [(NON_FIELD_ERRORS_KEY, [Code "not_a_list"])]))
  end.

(** The state [is_valid()] leaves on the serializer. *)
Record validated_state : Type := {
  validated_data : list A;
  errors : list_errors
}.

Definition list_validate (data : json) : validated_state :=
  match list_run_validation data with
  | Ok v => {| validated_data := v; errors := ItemErrors [] |}
  | Raise e => {| validated_data := []; errors := e |}
  end.

(** The value [is_valid()] returns: [not bool(self._errors)]. *)
Definition is_valid (st : validated_state) : bool :=
  negb (list_errors_truthy (errors st)).

End ListSerializer.

End drf.

(** ** [statistics_api/serializer.py] *)

Module serializer.

Import models drf.

Module UserInteractionCreateSerializer.

Definition choices : list string := ["click"; "hover"; "focus"; "scroll"].

(** The validated fields of one item.  [additional_metadata] is
    [None] when the key was absent from the input. *)
Record attrs : Type := {
  interaction_type : string;
  feature_name : string;
  duration : Z;
  additional_metadata : option json
}.

(** What [validate] hands back: the attributes, or (for an
    unauthenticated user) a [ValidationError] object, returned and
    not raised. *)
Inductive validated : Type :=
| Attrs (a : attrs)
| ReturnedError (e : ErrorDetail).

(** [Serializer.to_internal_value] over
    [fields = ["interaction_type", "feature_name", "duration",
    "additional_metadata"]]: each field is run on its key of the
    input object; the errors are gathered by field. *)
Definition to_internal_value (db : database) (data : json) : result detail attrs :=
  match data with
  | JDict d =>
      let r_type :=
        run_validation true None (ChoiceField_to_internal_value choices)
          (dict_get "interaction_type" d) in
      let r_name := CharField_run_validation true (dict_get "feature_name" d) in
      let r_duration :=
        run_validation true None
          (IntegerField_to_internal_value (integer_field_range db))
          (dict_get "duration" d) in
      let r_meta :=
        run_validation false (Some JNull) JSONField_to_internal_value
          (dict_get "additional_metadata" d) in
      let errors :=
        field_errors "interaction_type" r_type ++ field_errors "feature_name" r_name
        ++ field_errors "duration" r_duration
        ++ field_errors "additional_metadata" r_meta in
      match r_type, r_name, r_duration, r_meta with
      | Value ty, Value n, Value dur, Value m =>
          Ok {| interaction_type := ty; feature_name := n; duration := dur;
                additional_metadata := Some m |}
      | Value ty, Value n, Value dur, Skip =>
          Ok {| interaction_type := ty; feature_name := n; duration := dur;
                additional_metadata := None |}
      | _, _, _, _ => Raise (DetailDict errors)
      end
  | _ => Raise (DetailDict [(NON_FIELD_ERRORS_KEY, [Code "invalid"])])
  end.

(** [validate(self, attrs)], lines 33-42. *)
Definition validate (user : request_user) (db : database) (a : attrs)
  : result (list ErrorDetail) validated :=
  if negb (is_authenticated user) then
    Ok (ReturnedError (Message "User is not authenticated"))
  else if negb (bool_decide (Feature_filter_name db (feature_name a) <> [])) then
    Raise [Message "Feature does not exist"]
  else Ok (Attrs a).

(** [Serializer.run_validation] of the child serializer on one
    item. *)
Definition run_validation (user : request_user) (db : database) (data : json)
  : result detail validated :=
  match data with
  | JNull => Raise (DetailList [Code "null"])
  | _ =>
      match to_internal_value db data with
      | Raise d => Raise d
      | Ok a =>
          match validate user db a with
          | Ok v => Ok v
          | Raise errs => Raise (as_serializer_error errs)
          end
      end
  end.

(** [create(self, validated_data)], lines 44-52. *)
Definition create (user : request_user) (now : datetime.t) (db : database) (a : attrs)
  : result exn (database * UserInteraction) :=
  match Feature_get_name db (feature_name a) with
  | Raise e => Raise e
  | Ok f =>
      UserInteraction_create db now (interaction_type a) (duration a)
        (default JNull (additional_metadata a)) f user
  end.

(** [{**attrs, **kwargs}] in [save()]: only a mapping unpacks. *)
Definition as_mapping (v : validated) : result exn attrs :=
  match v with
  | Attrs a => Ok a
  | ReturnedError _ => Raise (TypeError "'ValidationError' object is not a mapping")
  end.

Fixpoint copy_all (vs : list validated) : result exn (list attrs) :=
  match vs with
  | [] => Ok []
  | v :: rest =>
      match as_mapping v with
      | Raise e => Raise e
      | Ok a =>
          match copy_all rest with
          | Raise e => Raise e
          | Ok l => Ok (a :: l)
          end
      end
  end.

(** [ListSerializer.create]: the child's [create] on each item in
    turn.  The database reached is returned also when an item
    raises: the rows created before it stay. *)
Fixpoint create_all (user : request_user) (now : datetime.t) (db : database)
    (l : list attrs) : database * result exn (list UserInteraction) :=
  match l with
  | [] => (db, Ok [])
  | a :: rest =>
      match create user now db a with
      | Raise e => (db, Raise e)
      | Ok (db', row) =>
          match create_all user now db' rest with
          | (db'', Ok rows) => (db'', Ok (row :: rows))
          | (db'', Raise e) => (db'', Raise e)
          end
      end
  end.

(** [serializer.save()] with [many=True]. *)
Definition save_many (user : request_user) (now : datetime.t) (db : database)
    (vs : list validated) : database * result exn (list UserInteraction) :=
  match copy_all vs with
  | Raise e => (db, Raise e)
  | Ok l => create_all user now db l
  end.

(** [serializer.is_valid()] then [serializer.save()] for a single
    item ([many=False]). *)
Definition save_one (user : request_user) (now : datetime.t) (db : database)
    (v : validated) : database * result exn UserInteraction :=
  match as_mapping v with
  | Raise e => (db, Raise e)
  | Ok a =>
      match create user now db a with
      | Raise e => (db, Raise e)
      | Ok (db', row) => (db', Ok row)
      end
  end.

(** The single create, as a view would run it:
    [serializer = UserInteractionCreateSerializer(data=data,
    context={'user': user})], then [is_valid()], then [save()].  A
    refusal by validation is [inl], any other exception [inr]. *)
Definition is_valid_and_save (user : request_user) (now : datetime.t) (db : database)
    (data : json) : database * result (detail + exn) UserInteraction :=
  match run_validation user db data with
  | Raise det => (db, Raise (inl det))
  | Ok v =>
      match save_one user now db v with
      | (db', Ok row) => (db', Ok row)
      | (db', Raise e) => (db', Raise (inr e))
      end
  end.

(** [to_representation]: the fields that are not write-only. *)
Record representation : Type := {
  repr_interaction_type : string;
  repr_duration : Z;
  repr_additional_metadata : json
}.

Definition to_representation (row : UserInteraction) : representation :=
  {| repr_interaction_type := models.interaction_type row;
     repr_duration := models.duration row;
     repr_additional_metadata := models.additional_metadata row |}.

End UserInteractionCreateSerializer.

Module UserFeedbackCreateSerializer.

Record attrs : Type := {
  category : string;
  rating : PyDecimal.t;
  feedback_text : option string
}.

(** [rating = serializers.DecimalField(max_digits=2, decimal_places=1)] *)
Definition max_digits : Z := 2.
Definition decimal_places : Z := 1.

(** [run_validation] of the serializer on the request body:
    [category], [rating], [feedback_text] in turn; [validate] is the
    default one. *)
Definition run_validation (data : json) : result exn (result detail attrs) :=
  match data with
  | JNull => Ok (Raise (DetailList [Code "null"]))
  | JDict d =>
      let r_category := CharField_run_validation true (dict_get "category" d) in
      let r_text := CharField_run_validation false (dict_get "feedback_text" d) in
      let rating_data := dict_get "rating" d in
      match
        match rating_data with
        | None => Ok (Invalid [Code "required"])
        | Some JNull => Ok (Invalid [Code "null"])
        | Some j =>
            match DecimalField_to_internal_value max_digits decimal_places j with
            | Raise x => Raise x
            | Ok (Ok v) => Ok (Value v)
            | Ok (Raise e) => Ok (Invalid e)
            end
        end
      with
      | Raise x => Raise x
      | Ok r_rating =>
          let errors :=
            field_errors "category" r_category ++ field_errors "rating" r_rating
            ++ field_errors "feedback_text" r_text in
          match r_category, r_rating, r_text with
          | Value c, Value r, Value t =>
              Ok (Ok {| category := c; rating := r; feedback_text := Some t |})
          | Value c, Value r, Skip =>
              Ok (Ok {| category := c; rating := r; feedback_text := None |})
          | _, _, _ => Ok (Raise (DetailDict errors))
          end
      end
  | _ => Ok (Raise (DetailDict [(NON_FIELD_ERRORS_KEY, [Code "invalid"])]))
  end.

(** [create(self, validated_data)], lines 71-74. *)
Definition create (user : request_user) (now : datetime.t) (db : database) (a : attrs)
  : result exn (database * UserFeedback) :=
  UserFeedback_create db now (category a) (rating a) (feedback_text a) user.

(** [serializer.data] of the created record. *)
Definition to_representation (row : UserFeedback) : attrs :=
  {| category := models.category row;
     rating := models.rating row;
     feedback_text := models.feedback_text row |}.

End UserFeedbackCreateSerializer.

End serializer.

(** ** [statistics_api/views.py] *)

Module views.

Import models drf serializer.

(** *** Responses and cached values *)

(** One group of a [values(k).annotate(...)] query: the key, the
    count of its rows and the sum of their durations.  [Avg('duration')]
    is the quotient of the two, which the database returns as a float. *)
Record group : Type := {
  key : string;
  count : nat;
  total_duration : Z
}.

(** [stats_data], the report of the statistics view: a dict with
    five keys.  The breakdown by type and the top users carry a key and
    a count, the feature statistics a count and an average as well. *)
Record stats_data : Type := {
  total_interactions : nat;
  interactions_last_30_days : nat;
  interaction_type_breakdown : list (string * nat);
  feature_interaction_stats : list group;
  top_10_active_users : list (string * nat)
}.

(** One category of the feedback summary: the count and the ratings
    ([Avg('rating')] is their mean). *)
Record feedback_group : Type := {
  summary_category : string;
  total_feedbacks : nat;
  ratings : list PyDecimal.t
}.

(** [analytics_data], the report of the feedback analytics view: a
    dict with two keys. *)
Record analytics_data : Type := {
  feedback_summary : list feedback_group;
  recent_feedback : list UserFeedback
}.

(** What a view puts in a [Response] or in the cache. *)
Inductive payload : Type :=
| Stats (s : stats_data)
| InteractionList (l : list UserInteractionCreateSerializer.representation)
| MessageDict (message : string)
| ListErrors (e : list_errors)
| Errors (d : detail)
| DetailMessage (detail_message : string)
| Text (s : string)
| FeedbackData (f : UserFeedbackCreateSerializer.attrs)
| Analytics (a : analytics_data).

(** [bool(value)], as the views test a cached value: a dict with keys
    and a non-empty list or string are true, an empty list is false. *)
Definition truthy (p : payload) : bool :=
  match p with
  | Stats _ => true
  | InteractionList l => negb (bool_decide (l = []))
  | MessageDict _ => true
  | ListErrors e => list_errors_truthy e
  | Errors d => detail_truthy d
  | DetailMessage _ => true
  | Text s => Py.truthy_str s
  | FeedbackData _ => true
  | Analytics _ => true
  end.

Record Response : Type := mk_response { data : payload; status : nat }.

Definition HTTP_200_OK : nat := 200.
Definition HTTP_201_CREATED : nat := 201.
Definition HTTP_400_BAD_REQUEST : nat := 400.
Definition HTTP_404_NOT_FOUND : nat := 404.
Definition HTTP_500_INTERNAL_SERVER_ERROR : nat := 500.

(** How the handling of a request ends: a response of the view, an
    exception nobody caught (the server's 500 page), or a refusal by
    the permission check (401 or 403). *)
Inductive outcome : Type :=
| Respond (r : Response)
| Uncaught (e : exn)
| PermissionDenied.

(** The state the handlers share. *)
Record world : Type := mk_world {
  db : database;
  store : gmap string (cache.entry payload)
}.

(** [if cached:] on the result of [cache.get]: the value when there
    is one and it is true. *)
Definition if_truthy (cached : option payload) : option payload :=
  match cached with
  | Some v => if truthy v then Some v else None
  | None => None
  end.

(** [permission_classes]: [IsAuthenticated] and [IsAdminUser]. *)
Definition IsAuthenticated (u : request_user) : bool := is_authenticated u.

Definition IsAdminUser (u : request_user) : bool :=
  match u with Authenticated usr => is_staff usr | AnonymousUser => false end.

(** [APIView.dispatch]: the permission check, then the handler. *)
Definition dispatch (permission : request_user -> bool) (u : request_user)
    (handler : world -> outcome * world) (w : world) : outcome * world :=
  if permission u then handler w else (PermissionDenied, w).

(** *** Aggregation queries *)

Fixpoint bump (k : string) (v : Z) (groups : list group) : list group :=
  match groups with
  | [] => [{| key := k; count := 1; total_duration := v |}]
  | g :: rest =>
      if String.eqb (key g) k
      then {| key := k; count := S (count g); total_duration := total_duration g + v |} :: rest
      else g :: bump k v rest
  end.

(** [rows.values(k).annotate(Count('id'), Avg('duration'))]: one
    group per key, in order of first appearance. *)
Definition group_by (rows : list (string * Z)) : list group :=
  fold_left (fun acc kv => bump kv.1 kv.2 acc) rows [].

Fixpoint insert_desc (g : group) (sorted : list group) : list group :=
  match sorted with
  | [] => [g]
  | h :: rest =>
      if (count h <? count g)%nat then g :: sorted else h :: insert_desc g rest
  end.

(** [.order_by('-interaction_count')]; groups with equal counts keep
    their order. *)
Definition order_by_count_desc (groups : list group) : list group :=
  fold_right insert_desc [] groups.

(** The joins [feature__name] and [user__username]. *)
Definition feature_name_of (d : database) (row : UserInteraction) : option string :=
  name <$> find (fun f => bool_decide (feature_pk f = feature row)) (features d).

Definition username_of (d : database) (row : UserInteraction) : option string :=
  username <$> find (fun u => bool_decide (user_pk u = user row)) (users d).

Definition counts (groups : list group) : list (string * nat) :=
  map (fun g => (key g, count g)) groups.

Definition keyed (k : UserInteraction -> option string) (rows : list UserInteraction)
  : list (string * Z) :=
  omap (fun row => (fun n => (n, duration row)) <$> k row) rows.

Module UserInteractionStatisticsView.

Definition cache_key (now : datetime.t) : string :=
  "user_interaction_stats_" +:+ datetime.strftime_YmdH now.

(** Lines 95-125: the report computed from the database. *)
Definition compute (now : datetime.t) (d : database) : stats_data :=
  let last_30_days := datetime.to_seconds now - timedelta_days 30 in
  let rows_last_30_days :=
    filter (fun row => last_30_days <= datetime.to_seconds (timestamp row))
      (interactions d) in
  {| total_interactions := length (interactions d);
     interactions_last_30_days := length rows_last_30_days;
     interaction_type_breakdown :=
       counts (group_by (map (fun row => (interaction_type row, duration row))
                           rows_last_30_days));
     feature_interaction_stats :=
       order_by_count_desc (group_by (keyed (feature_name_of d) rows_last_30_days));
     top_10_active_users :=
       take 10 (counts (order_by_count_desc
                          (group_by (keyed (username_of d) rows_last_30_days)))) |}.

(** [get(self, request)], lines 87-130. *)
Definition get (now : datetime.t) (w : world) : outcome * world :=
  let cache_key := cache_key now in
  let cached_stats := cache.get (store w) cache_key (datetime.to_seconds now) in
  match if_truthy cached_stats with
  | Some cached => (Respond (mk_response cached HTTP_200_OK), w)
  | None =>
      let stats_data := Stats (compute now (db w)) in
      (Respond (mk_response stats_data HTTP_200_OK),
       mk_world (db w)
         (cache.set (store w) cache_key stats_data 3600 (datetime.to_seconds now)))
  end.

End UserInteractionStatisticsView.

Module BulkCreateUserInteractionView.

Definition permission := IsAuthenticated.

(** [post(self, request)], lines 182-201; [user] is [request.user],
    [data] is [request.data]. *)
Definition post (user : request_user) (data : json) (now : datetime.t) (w : world)
  : outcome * world :=
  let serializer :=
    list_validate (UserInteractionCreateSerializer.run_validation user (db w)) data in
  if is_valid serializer then
    match UserInteractionCreateSerializer.save_many user now (db w)
            (validated_data serializer) with
    | (db', Raise e) => (Uncaught e, mk_world db' (store w))
    | (db', Ok _) =>
        (Respond
           (mk_response
              (MessageDict (Py.str_nat (length (validated_data serializer))
                            +:+ " interactions created successfully"))
              HTTP_201_CREATED),
         mk_world db' (cache.delete_pattern (store w) "user_interaction_stats_*"))
    end
  else
    (Respond (mk_response (ListErrors (errors serializer)) HTTP_400_BAD_REQUEST), w).

End BulkCreateUserInteractionView.

(** [request.query_params]: the pairs of the query string, in order.
    A key given more than once reads as its last value. *)
Definition query_params : Type := list (string * string).

Definition qp_get (k : string) (qp : query_params) : option string :=
  last (omap (fun kv => if String.eqb kv.1 k then Some kv.2 else None) qp).

Fixpoint qp_keys (qp : query_params) (seen : list string) : list string :=
  match qp with
  | [] => []
  | (k, _) :: rest =>
      if bool_decide (k ∈ seen) then qp_keys rest seen else k :: qp_keys rest (k :: seen)
  end.

(** [query_params.items()] *)
Definition qp_items (qp : query_params) : list (string * string) :=
  omap (fun k => (fun v => (k, v)) <$> qp_get k qp) (qp_keys qp []).

Definition two_digits (a b : ascii) : option nat :=
  match Py.digit_of a, Py.digit_of b with
  | Some x, Some y => Some (Z.to_nat (x * 10 + y))
  | _, _ => None
  end.

Definition parse_date_chars (l : list ascii) : option (nat * nat * nat) :=
  match l with
  | [y1; y2; y3; y4; "-"%char; m1; m2; "-"%char; d1; d2] =>
      yh ← two_digits y1 y2; yl ← two_digits y3 y4;
      m ← two_digits m1 m2; d ← two_digits d1 d2;
      Some ((yh * 100 + yl)%nat, m, d)
  | _ => None
  end.

Definition parse_time_chars (l : list ascii) : option (nat * nat * nat) :=
  match l with
  | [h1; h2; ":"%char; m1; m2] =>
      h ← two_digits h1 h2; m ← two_digits m1 m2; Some (h, m, O)
  | [h1; h2; ":"%char; m1; m2; ":"%char; s1; s2] =>
      h ← two_digits h1 h2; m ← two_digits m1 m2; s ← two_digits s1 s2; Some (h, m, s)
  | _ => None
  end.

(** The conversion of a filter value for [timestamp__gte] and
    [timestamp__lte] ([DateTimeField.to_python] on a string).  The
    model reads the shapes [YYYY-MM-DD], [YYYY-MM-DD HH:MM] and
    [YYYY-MM-DD HH:MM:SS] (with a space or a [T]); a text that is not a
    date raises Django's [ValidationError]. *)
Definition to_python_datetime (s : string) : result exn datetime.t :=
  let l := list_ascii_of_string s in
  let date := parse_date_chars (take 10 l) in
  let time :=
    match drop 10 l with
    | [] => Some (O, O, O)
    | sep :: t =>
        if Ascii.eqb sep " " || Ascii.eqb sep "T" then parse_time_chars t else None
    end in
  match date, time with
  | Some (y, m, d), Some (h, mi, sec) =>
      let dt := datetime.mk y m d h mi sec in
      if datetime.valid dt then Ok dt
      else Raise (DjangoValidationError "invalid_datetime")
  | _, _ => Raise (DjangoValidationError "invalid")
  end.

(** [str(e)] *)
Definition str_exn (e : exn) : string :=
  match e with
  | TypeError m | ValueError m | DjangoValidationError m => m
  | DoesNotExist m => m +:+ " matching query does not exist."
  | MultipleObjectsReturned m => "get() returned more than one " +:+ m
  | InvalidOperation => "InvalidOperation"
  end.

Module UserInteractionByUser.

Definition permission := IsAdminUser.

Section WithHash.
(** [hash(frozenset(...))]: the hash function of the running
    interpreter. *)
Variable hash : list (string * string) -> Z.

Definition cache_key (user_id : Z) (qp : query_params) : string :=
  "user_interactions_" +:+ Py.str_int user_id +:+ "_" +:+ Py.str_int (hash (qp_items qp)).

Definition filter_if {A} (param : option string) (f : string -> result exn (list A))
    (rows : list A) : result exn (list A) :=
  match param with
  | Some v => if Py.truthy_str v then f v else Ok rows
  | None => Ok rows
  end.

(** The body of the [try], lines 247-271, up to [serializer.data]. *)
Definition query (user_id : Z) (qp : query_params) (d : database)
  : result exn (list UserInteractionCreateSerializer.representation) :=
  let interactions := filter (fun row => user row = user_id) (interactions d) in
  let interaction_type := qp_get "type" qp in
  let start_date := qp_get "start_date" qp in
  let end_date := qp_get "end_date" qp in
  match filter_if interaction_type
          (fun v => Ok (filter (fun row => models.interaction_type row = v) interactions))
          interactions with
  | Raise e => Raise e
  | Ok interactions =>
      match filter_if start_date
              (fun v =>
                 match to_python_datetime v with
                 | Raise e => Raise e
                 | Ok t =>
                     Ok (filter (fun row => datetime.to_seconds t
                                            <= datetime.to_seconds (timestamp row))
                           interactions)
                 end) interactions with
      | Raise e => Raise e
      | Ok interactions =>
          match filter_if end_date
                  (fun v =>
                     match to_python_datetime v with
                     | Raise e => Raise e
                     | Ok t =>
                         Ok (filter (fun row => datetime.to_seconds (timestamp row)
                                                <= datetime.to_seconds t)
                               interactions)
                     end) interactions with
          | Raise e => Raise e
          | Ok interactions =>
              Ok (map UserInteractionCreateSerializer.to_representation interactions)
          end
      end
  end.

(** [get(self, request, user_id)], lines 238-280. *)
Definition get (user_id : Z) (qp : query_params) (now : datetime.t) (w : world)
  : outcome * world :=
  let cache_key := cache_key user_id qp in
  let cached_interactions := cache.get (store w) cache_key (datetime.to_seconds now) in
  match if_truthy cached_interactions with
  | Some cached => (Respond (mk_response cached HTTP_200_OK), w)
  | None =>
      match query user_id qp (db w) with
      | Ok serializer_data =>
          (Respond (mk_response (InteractionList serializer_data) HTTP_200_OK),
           mk_world (db w)
             (cache.set (store w) cache_key (InteractionList serializer_data) 1800
                (datetime.to_seconds now)))
      | Raise (DoesNotExist "User") =>
          (Respond (mk_response (DetailMessage "User not found") HTTP_404_NOT_FOUND), w)
      | Raise e =>
          (Respond (mk_response (Text (str_exn e)) HTTP_500_INTERNAL_SERVER_ERROR), w)
      end
  end.

End WithHash.

End UserInteractionByUser.

Module UserFeedbackAnalyticsView.

Definition permission := IsAdminUser.

Definition cache_key (now : datetime.t) : string :=
  "feedback_analytics_" +:+ datetime.strftime_YmdH now.

Fixpoint bump_category (row : UserFeedback) (groups : list feedback_group)
  : list feedback_group :=
  match groups with
  | [] => [{| summary_category := category row; total_feedbacks := 1;
              ratings := [rating row] |}]
  | g :: rest =>
      if String.eqb (summary_category g) (category row)
      then {| summary_category := summary_category g;
              total_feedbacks := S (total_feedbacks g);
              ratings := ratings g ++ [rating row] |} :: rest
      else g :: bump_category row rest
  end.

Fixpoint insert_recent (row : UserFeedback) (sorted : list UserFeedback)
  : list UserFeedback :=
  match sorted with
  | [] => [row]
  | h :: rest =>
      if datetime.to_seconds (feedback_timestamp h)
         <? datetime.to_seconds (feedback_timestamp row)
      then row :: sorted else h :: insert_recent row rest
  end.

(** Lines 316-329. *)
Definition compute (d : database) : analytics_data :=
  {| feedback_summary := fold_left (fun acc row => bump_category row acc) (feedback d) [];
     recent_feedback := take 10 (fold_right insert_recent [] (feedback d)) |}.

(** [get(self, request)], lines 308-334. *)
Definition get (now : datetime.t) (w : world) : outcome * world :=
  let cache_key := cache_key now in
  let cached_analytics := cache.get (store w) cache_key (datetime.to_seconds now) in
  match if_truthy cached_analytics with
  | Some cached => (Respond (mk_response cached HTTP_200_OK), w)
  | None =>
      let analytics_data := Analytics (compute (db w)) in
      (Respond (mk_response analytics_data HTTP_200_OK),
       mk_world (db w)
         (cache.set (store w) cache_key analytics_data 3600 (datetime.to_seconds now)))
  end.

End UserFeedbackAnalyticsView.

Module CreateUserFeedbackView.

(** [get_permissions]: a POST needs [IsAuthenticated]. *)
Definition permission := IsAuthenticated.

(** [create(self, request)], lines 363-374. *)
Definition create (user : request_user) (data : json) (now : datetime.t) (w : world)
  : outcome * world :=
  match UserFeedbackCreateSerializer.run_validation data with
  | Raise x => (Uncaught x, w)
  | Ok (Raise errors) =>
      (Respond (mk_response (Errors errors) HTTP_400_BAD_REQUEST), w)
  | Ok (Ok validated_data) =>
      match UserFeedbackCreateSerializer.create user now (db w) validated_data with
      | Raise e => (Uncaught e, w)
      | Ok (db', instance) =>
          (Respond
             (mk_response
                (FeedbackData (UserFeedbackCreateSerializer.to_representation instance))
                HTTP_201_CREATED),
           mk_world db' (cache.delete_pattern (store w) "feedback_analytics_*"))
      end
  end.

End CreateUserFeedbackView.

End views.

(** ** Vocabulary of the properties *)

Import models drf serializer views.

(** An item of a bulk payload is valid for a caller when the child
    serializer validates it to a set of attributes. *)
Definition valid_item (user : request_user) (d : database) (item : json) : Prop :=
  exists a, UserInteractionCreateSerializer.run_validation user d item
            = Ok (UserInteractionCreateSerializer.Attrs a).

(** [name = models.CharField(max_length=100, unique=True)]: the
    uniqueness constraint of the feature table. *)
Definition unique_feature_names (d : database) : Prop :=
  NoDup (map name (features d)).

(** [d'] is [d] with [rows] appended to the interaction table. *)
Definition extends_interactions (d d' : database) (rows : list UserInteraction) : Prop :=
  users d' = users d /\ features d' = features d /\ feedback d' = feedback d
  /\ integer_field_range d' = integer_field_range d
  /\ interactions d' = interactions d ++ rows.

(** A row as [create] makes it for caller [u] from the attributes [a]. *)
Definition row_of (u : User) (now : datetime.t) (a : UserInteractionCreateSerializer.attrs)
    (row : UserInteraction) : Prop :=
  user row = user_pk u /\ timestamp row = now
  /\ duration row = UserInteractionCreateSerializer.duration a
  /\ interaction_type row = UserInteractionCreateSerializer.interaction_type a.

(** *** Sample data

    The example of the specification: a caller, the feature
    "Dashboard", a payload item for it, and the instants of three
    requests. *)

Definition alice : User :=
  {| user_pk := 1; username := "alice"; email := "alice@example.com"; is_staff := false |}.

Definition t_0915 : datetime.t := datetime.mk 2024 12 5 9 15 0.
Definition t_0940 : datetime.t := datetime.mk 2024 12 5 9 40 30.
Definition t_1005 : datetime.t := datetime.mk 2024 12 5 10 5 0.

Definition dashboard : Feature :=
  {| feature_pk := 1; name := "Dashboard"; description := "Main dashboard";
     feature_category := "ui"; creation_date := datetime.mk 2024 12 1 0 0 0 |}.

Definition sample_db : database :=
  {| users := [alice]; features := [dashboard]; interactions := []; feedback := [];
     integer_field_range := (-2147483648, 2147483647) |}.

Definition sample_world : world := mk_world sample_db ∅.

Definition click_item (seconds : Z) : json :=
  JDict [("interaction_type", JStr "click"); ("feature_name", JStr "Dashboard");
         ("duration", JInt seconds)].

Definition bad_kind_item : json :=
  JDict [("interaction_type", JStr "view"); ("feature_name", JStr "Dashboard");
         ("duration", JInt 5)].

(** A stand-in for the interpreter's [hash]. *)
Definition sample_hash (items : list (string * string)) : Z :=
  133146708735736 + Z.of_nat (length items).

(** The world after alice's first request for her own (empty)
    history, and the database after she then records one click. *)
Definition world_after_first_lookup : world :=
  (UserInteractionByUser.get sample_hash 1 [] t_0915 sample_world).2.

Definition db_after_click : database :=
  db (BulkCreateUserInteractionView.post (Authenticated alice) (JList [click_item 5])
        t_0915 sample_world).2.

(** A pattern character that stands for itself. *)
Definition literal (ch : ascii) : Prop := ch <> "*"%char /\ ch <> "?"%char.

(** The keys of the interaction-statistics namespace. *)
Definition stats_namespace : string := "user_interaction_stats_".

(** The cache entries of the hourly statistics: whatever is stored
    under the key of an hour is a true value and outlives every instant
    of that hour. *)
Definition hourly_entries_ok (c : gmap string (cache.entry payload)) : Prop :=
  forall (t : datetime.t) (e : cache.entry payload),
    datetime.valid t = true ->
    c !! UserInteractionStatisticsView.cache_key t = Some e ->
    truthy (cache.value e) = true /\ datetime.to_seconds t < cache.expires e.

(** One request handled by the statistics API, or a change made to the
    database from outside it (the admin site, the user endpoints). *)
Inductive step : world -> world -> Prop :=
| step_statistics now w :
    datetime.valid now = true ->
    step w (UserInteractionStatisticsView.get now w).2
| step_bulk_create user data now w :
    datetime.valid now = true ->
    step w (BulkCreateUserInteractionView.post user data now w).2
| step_by_user hash user_id qp now w :
    datetime.valid now = true ->
    step w (UserInteractionByUser.get hash user_id qp now w).2
| step_feedback_analytics now w :
    datetime.valid now = true ->
    step w (UserFeedbackAnalyticsView.get now w).2
| step_create_feedback user data now w :
    datetime.valid now = true ->
    step w (CreateUserFeedbackView.create user data now w).2
| step_database d w :
    step w (mk_world d (store w)).

(** The states the service can be in, starting with an empty cache. *)
Inductive reachable : world -> Prop :=
| reachable_init d : reachable (mk_world d ∅)
| reachable_step w w' : reachable w -> step w w' -> reachable w'.

(** *** Aggregation

    The vocabulary of the reports: the rows behind a group, the
    30-day window, and the orders of the listings. *)

(** The rows of a keyed table that carry the key [k]. *)
Definition rows_of_key (k : string) (rows : list (string * Z)) : list (string * Z) :=
  filter (fun kv => kv.1 = k) rows.

(** The group a [GROUP BY] gives for the key [k]: the number of its
    rows and the sum of their values. *)
Definition expected_group (k : string) (rows : list (string * Z)) : group :=
  {| key := k;
     count := length (rows_of_key k rows);
     total_duration := fold_right Z.add 0 (snd <$> rows_of_key k rows) |}.

(** The group listed under a key, if there is one. *)
Definition group_of (k : string) (groups : list group) : option group :=
  find (fun g => bool_decide (key g = k)) groups.

(** The rows of the trailing 30-day window of [now]. *)
Definition window_rows (now : datetime.t) (d : database) : list UserInteraction :=
  filter (fun row => datetime.to_seconds now - timedelta_days 30
                     <= datetime.to_seconds (timestamp row))
    (interactions d).

(** Descending order of counts. *)
Definition count_ge (a b : group) : Prop := (count b <= count a)%nat.

Definition pair_count_ge (a b : string * nat) : Prop := (b.2 <= a.2)%nat.

(** The feedback rows of one category, and the summary entry they
    give. *)
Definition feedback_of (k : string) (rows : list UserFeedback) : list UserFeedback :=
  filter (fun row => category row = k) rows.

Definition expected_summary (k : string) (rows : list UserFeedback) : feedback_group :=
  {| summary_category := k;
     total_feedbacks := length (feedback_of k rows);
     ratings := rating <$> feedback_of k rows |}.

Definition summary_of (k : string) (groups : list feedback_group) : option feedback_group :=
  find (fun g => bool_decide (summary_category g = k)) groups.

(** [a] is not older than [b]. *)
Definition not_older (a b : UserFeedback) : Prop :=
  datetime.to_seconds (feedback_timestamp b) <= datetime.to_seconds (feedback_timestamp a).

(** *** The other cache namespace *)

(** The keys of the feedback-analytics namespace. *)
Definition analytics_namespace : string := "feedback_analytics_".

(** The cache entries of the hourly analytics, as [hourly_entries_ok]
    has them for the statistics. *)
Definition analytics_entries_ok (c : gmap string (cache.entry payload)) : Prop :=
  forall (t : datetime.t) (e : cache.entry payload),
    datetime.valid t = true ->
    c !! UserFeedbackAnalyticsView.cache_key t = Some e ->
    truthy (cache.value e) = true /\ datetime.to_seconds t < cache.expires e.

(** *** User lookups *)

(** What a row has to satisfy to be listed for [user_id] under the
    query parameters [qp]. *)
Definition wanted (user_id : Z) (qp : query_params) (row : UserInteraction) : Prop :=
  user row = user_id
  /\ (forall v, qp_get "type" qp = Some v -> v <> EmptyString -> interaction_type row = v)
  /\ (forall v t, qp_get "start_date" qp = Some v -> v <> EmptyString ->
                  to_python_datetime v = Ok t ->
                  datetime.to_seconds t <= datetime.to_seconds (timestamp row))
  /\ (forall v t, qp_get "end_date" qp = Some v -> v <> EmptyString ->
                  to_python_datetime v = Ok t ->
                  datetime.to_seconds (timestamp row) <= datetime.to_seconds t).


(** *** Created rows *)

(** What is read back of a row created from the attributes [a]. *)
Definition representation_of (a : UserInteractionCreateSerializer.attrs)
  : UserInteractionCreateSerializer.representation :=
  {| UserInteractionCreateSerializer.repr_interaction_type :=
       UserInteractionCreateSerializer.interaction_type a;
     UserInteractionCreateSerializer.repr_duration :=
       UserInteractionCreateSerializer.duration a;
     UserInteractionCreateSerializer.repr_additional_metadata :=
       default JNull (UserInteractionCreateSerializer.additional_metadata a) |}.


(** *** More sample data

    The attributes and the listing of the sample click, a feedback,
    and the worlds in which a report or a lookup has been cached. *)

Definition click_attrs : UserInteractionCreateSerializer.attrs :=
  {| UserInteractionCreateSerializer.interaction_type := "click";
     UserInteractionCreateSerializer.feature_name := "Dashboard";
     UserInteractionCreateSerializer.duration := 5;
     UserInteractionCreateSerializer.additional_metadata := None |}.

Definition click_listed : UserInteractionCreateSerializer.representation :=
  representation_of click_attrs.

Definition praise : json := JDict [("category", JStr "ui"); ("rating", JFloat "9.9")].

Definition praise_attrs : UserFeedbackCreateSerializer.attrs :=
  {| UserFeedbackCreateSerializer.category := "ui";
     UserFeedbackCreateSerializer.rating := PyDecimal.Finite false 99 (-1);
     UserFeedbackCreateSerializer.feedback_text := None |}.

(** The world in which the statistics and the analytics of 09:15 are
    cached, both computed on the empty tables. *)
Definition world_after_reports : world :=
  (UserFeedbackAnalyticsView.get t_0915
     (UserInteractionStatisticsView.get t_0915 sample_world).2).2.

(** The world in which alice has recorded one click and has then
    looked her history up at 09:15. *)
Definition world_after_listed_lookup : world :=
  (UserInteractionByUser.get sample_hash 1 [] t_0915 (mk_world db_after_click ∅)).2.

(** * Properties *)

(** ** The model at work *)

Example int_of_str_examples :
  Py.int_of_str " -1_000 " = Some (-1000) /\ Py.int_of_str "+7" = Some 7
  /\ Py.int_of_str "5.0" = None /\ Py.int_of_str "1__0" = None
  /\ Py.int_of_str "7_" = None /\ Py.int_of_str EmptyString = None.
Proof. repeat split; reflexivity. Qed.

Example Decimal_of_str_examples :
  PyDecimal.of_str "9.9" = Some (PyDecimal.Finite false 99 (-1))
  /\ PyDecimal.of_str "10.0" = Some (PyDecimal.Finite false 100 (-1))
  /\ PyDecimal.of_str " -0.10 " = Some (PyDecimal.Finite true 10 (-2))
  /\ PyDecimal.of_str ".5" = Some (PyDecimal.Finite false 5 (-1))
  /\ PyDecimal.of_str "1E-2" = Some (PyDecimal.Finite false 1 (-2))
  /\ PyDecimal.of_str "Infinity" = Some (PyDecimal.Infinity false)
  /\ PyDecimal.of_str "." = None /\ PyDecimal.of_str "nine" = None.
Proof. repeat split; vm_compute; reflexivity. Qed.

Example IntegerField_examples :
  IntegerField_to_internal_value (-10, 10) (JInt 5) = Ok 5
  /\ IntegerField_to_internal_value (-10, 10) (JFloat "5.0") = Ok 5
  /\ IntegerField_to_internal_value (-10, 10) (JStr " 7 ") = Ok 7
  /\ IntegerField_to_internal_value (-10, 10) (JFloat "5.5") = Raise [Code "invalid"]
  /\ IntegerField_to_internal_value (-10, 10) (JBool true) = Raise [Code "invalid"]
  /\ IntegerField_to_internal_value (-10, 10) (JInt 11) = Raise [Code "max_value"]
  /\ IntegerField_to_internal_value (-10, 10) (JInt (-11)) = Raise [Code "min_value"].
Proof. repeat split; vm_compute; reflexivity. Qed.

Example strftime_example : datetime.strftime_YmdH t_0915 = "2024120509".
Proof. reflexivity. Qed.

(** The end-to-end example of the specification: one click on the
    Dashboard for five seconds, posted by alice. *)
Example bulk_create_example :
  BulkCreateUserInteractionView.post (Authenticated alice) (JList [click_item 5]) t_0915
    sample_world
  = (Respond (mk_response (MessageDict "1 interactions created successfully")
                HTTP_201_CREATED),
     mk_world
       {| users := [alice]; features := [dashboard];
          interactions :=
            [ {| interaction_pk := 1; user := 1; feature := 1;
                 interaction_type := "click"; timestamp := t_0915; duration := 5;
                 additional_metadata := JNull |} ];
          feedback := []; integer_field_range := (-2147483648, 2147483647) |}
       ∅).
Proof. vm_compute. reflexivity. Qed.

(** A rating without a fractional digit is accepted and stored with
    one. *)
Example whole_rating_example :
  DecimalField_to_internal_value 2 1 (JInt 5) = Ok (Ok (PyDecimal.Finite false 50 (-1)))
  /\ DecimalField_to_internal_value 2 1 (JStr "-9.9")
     = Ok (Ok (PyDecimal.Finite true 99 (-1)))
  /\ DecimalField_to_internal_value 2 1 (JStr "0.15")
     = Ok (Raise [Code "max_decimal_places"])
  /\ DecimalField_to_internal_value 2 1 (JFloat "10.0") = Ok (Raise [Code "max_digits"]).
Proof. repeat split; vm_compute; reflexivity. Qed.

(** ** The cache client: pattern deletion *)

Lemma list_ascii_of_string_app (a b : string) :
  list_ascii_of_string (a +:+ b) = list_ascii_of_string a ++ list_ascii_of_string b.
Proof.
  induction a as [|ch a IH]; [reflexivity|].
  change (String ch a +:+ b) with (String ch (a +:+ b)). simpl. by rewrite IH.
Qed.

Section CacheFacts.
Context {V : Type}.
Implicit Types (c : gmap string (cache.entry V)) (k : string).

Lemma glob_match_star (s : list ascii) : cache.glob_match ["*"%char] s = true.
Proof. induction s as [|ch s IH]; [reflexivity|]. simpl in *. exact IH. Qed.

Lemma glob_match_literal (ch : ascii) (p s : list ascii) :
  literal ch ->
  cache.glob_match (ch :: p) s
  = match s with ch' :: s' => Ascii.eqb ch ch' && cache.glob_match p s' | [] => false end.
Proof.
  intros [Hs Hq]. simpl.
  destruct ch as [[] [] [] [] [] [] [] []]; try reflexivity; congruence.
Qed.

Lemma glob_match_prefix (lit s : list ascii) :
  Forall literal lit ->
  cache.glob_match (lit ++ ["*"%char]) s = true <-> exists rest, s = lit ++ rest.
Proof.
  intros Hlit. revert s. induction Hlit as [|ch lit Hch _ IH]; intros s.
  - simpl app. rewrite glob_match_star. split; [eauto|done].
  - change ((ch :: lit) ++ ["*"%char]) with (ch :: (lit ++ ["*"%char])).
    rewrite glob_match_literal by done.
    destruct s as [|ch' s'].
    + split; [done|]. by intros [rest Hrest].
    + rewrite andb_true_iff, Ascii.eqb_eq, IH. split.
      * intros [-> [rest ->]]. by exists rest.
      * intros [rest Hrest]. simplify_eq/=. eauto.
Qed.

Lemma lookup_delete_pattern c pattern k :
  cache.delete_pattern c pattern !! k
  = if cache.matches pattern k then None else c !! k.
Proof.
  unfold cache.delete_pattern.
  destruct (cache.matches pattern k) eqn:Hm.
  - apply map_lookup_filter_None. right. intros e _. simpl. congruence.
  - destruct (c !! k) as [e|] eqn:Hk.
    + apply map_lookup_filter_Some. done.
    + apply map_lookup_filter_None. by left.
Qed.

Lemma matches_stats_pattern k :
  cache.matches "user_interaction_stats_*" k = true
  <-> exists rest, k = stats_namespace +:+ rest.
Proof.
  unfold cache.matches.
  change (list_ascii_of_string "user_interaction_stats_*")
    with (list_ascii_of_string stats_namespace ++ ["*"%char]).
  rewrite glob_match_prefix.
  - split; intros [rest Hrest].
    + exists (string_of_list_ascii rest).
      rewrite <- (string_of_list_ascii_of_string k), Hrest.
      rewrite <- (list_ascii_of_string_of_list_ascii rest) at 1.
      rewrite <- list_ascii_of_string_app.
      by rewrite string_of_list_ascii_of_string.
    + exists (list_ascii_of_string rest). by rewrite Hrest, list_ascii_of_string_app.
  - repeat constructor; discriminate.
Qed.

(** After the purge no key of the statistics namespace is left. *)
Lemma delete_pattern_stats_purged c rest :
  cache.delete_pattern c "user_interaction_stats_*" !! (stats_namespace +:+ rest) = None.
Proof.
  rewrite lookup_delete_pattern.
  destruct (cache.matches _ _) eqn:Hm; [done|].
  assert (cache.matches "user_interaction_stats_*" (stats_namespace +:+ rest) = true) as Ht
    by (apply matches_stats_pattern; eauto).
  congruence.
Qed.

Lemma delete_pattern_subseteq c pattern k e :
  cache.delete_pattern c pattern !! k = Some e -> c !! k = Some e.
Proof. rewrite lookup_delete_pattern. by destruct (cache.matches pattern k). Qed.

End CacheFacts.

(** ** Clock hours and cache keys *)

Lemma list_ascii_of_string_inj (a b : string) :
  list_ascii_of_string a = list_ascii_of_string b -> a = b.
Proof.
  intros H. rewrite <- (string_of_list_ascii_of_string a), H.
  apply string_of_list_ascii_of_string.
Qed.

Lemma length_list_ascii_of_string (a : string) :
  length (list_ascii_of_string a) = String.length a.
Proof. induction a; simpl; congruence. Qed.

Lemma string_app_inj_suffix (a b x y : string) :
  String.length x = String.length y -> a +:+ x = b +:+ y -> a = b /\ x = y.
Proof.
  intros Hlen Heq. apply (f_equal list_ascii_of_string) in Heq.
  rewrite !list_ascii_of_string_app in Heq.
  apply app_inj_2 in Heq as [Ha Hx].
  - split; by apply list_ascii_of_string_inj.
  - by rewrite !length_list_ascii_of_string.
Qed.

Lemma string_app_inj_prefix (p x y : string) : p +:+ x = p +:+ y -> x = y.
Proof.
  induction p as [|ch p IH]; [done|].
  change (String ch p +:+ x) with (String ch (p +:+ x)).
  change (String ch p +:+ y) with (String ch (p +:+ y)).
  intros H. injection H as H. auto.
Qed.

Lemma str_nat_inj (n m : nat) : Py.str_nat n = Py.str_nat m -> n = m.
Proof.
  unfold Py.str_nat. intros H.
  apply (f_equal NilEmpty.uint_of_string) in H. rewrite !NilEmpty.usu in H.
  injection H as H. apply (f_equal Nat.of_uint) in H.
  by rewrite !Unsigned.of_to in H.
Qed.

Lemma digit_char_inj (n m : nat) :
  (n < 10)%nat -> (m < 10)%nat -> datetime.digit_char n = datetime.digit_char m -> n = m.
Proof.
  unfold datetime.digit_char. intros Hn Hm H.
  apply (f_equal nat_of_ascii) in H.
  rewrite !nat_ascii_embedding in H by lia. lia.
Qed.

Lemma pad2_inj (n m : nat) :
  (n < 100)%nat -> (m < 100)%nat -> datetime.pad2 n = datetime.pad2 m -> n = m.
Proof.
  unfold datetime.pad2. intros Hn Hm H.
  pose proof (Nat.div_mod_eq n 10) as En. pose proof (Nat.div_mod_eq m 10) as Em.
  assert (n / 10 < 10)%nat as Hqn by (apply Nat.Div0.div_lt_upper_bound; lia).
  assert (m / 10 < 10)%nat as Hqm by (apply Nat.Div0.div_lt_upper_bound; lia).
  assert (n mod 10 < 10)%nat as Hrn by (apply Nat.mod_upper_bound; lia).
  assert (m mod 10 < 10)%nat as Hrm by (apply Nat.mod_upper_bound; lia).
  remember (n / 10)%nat as qn. remember (n mod 10)%nat as rn.
  remember (m / 10)%nat as qm. remember (m mod 10)%nat as rm.
  injection H as Hq Hr.
  apply digit_char_inj in Hq, Hr; lia.
Qed.

Lemma days_in_month_le (y m : nat) : (datetime.days_in_month y m <= 31)%nat.
Proof.
  unfold datetime.days_in_month.
  do 12 (destruct m as [|m]; [try destruct (datetime.is_leap y); lia|]). lia.
Qed.

Lemma valid_bounds (t : datetime.t) :
  datetime.valid t = true ->
  (datetime.month t < 100 /\ datetime.day t < 100 /\ datetime.hour t < 24
   /\ datetime.minute t < 60 /\ datetime.second t < 60)%nat.
Proof.
  unfold datetime.valid. rewrite !andb_true_iff.
  rewrite !Nat.leb_le, !Nat.ltb_lt.
  pose proof (days_in_month_le (datetime.year t) (datetime.month t)). lia.
Qed.

Lemma strftime_same_hour (a b : datetime.t) :
  datetime.same_hour a b -> datetime.strftime_YmdH a = datetime.strftime_YmdH b.
Proof. unfold datetime.strftime_YmdH. by intros (-> & -> & -> & ->). Qed.

Lemma strftime_inj (a b : datetime.t) :
  datetime.valid a = true -> datetime.valid b = true ->
  datetime.strftime_YmdH a = datetime.strftime_YmdH b -> datetime.same_hour a b.
Proof.
  intros Ha%valid_bounds Hb%valid_bounds. unfold datetime.strftime_YmdH. intros H.
  apply string_app_inj_suffix in H as [Hy H]; [|reflexivity].
  apply string_app_inj_suffix in H as [Hm H]; [|reflexivity].
  apply string_app_inj_suffix in H as [Hd Hh]; [|reflexivity].
  apply str_nat_inj in Hy. apply pad2_inj in Hm, Hd, Hh; try lia.
  by repeat split.
Qed.

Lemma stats_key_same_hour (a b : datetime.t) :
  datetime.valid a = true -> datetime.valid b = true ->
  UserInteractionStatisticsView.cache_key a = UserInteractionStatisticsView.cache_key b
  <-> datetime.same_hour a b.
Proof.
  intros Ha Hb. unfold UserInteractionStatisticsView.cache_key. split.
  - intros H%string_app_inj_prefix. by apply strftime_inj.
  - intros H. by rewrite (strftime_same_hour a b).
Qed.

(** Two instants of one clock hour are less than an hour apart. *)
Lemma same_hour_seconds (a b : datetime.t) :
  datetime.valid a = true -> datetime.valid b = true -> datetime.same_hour a b ->
  datetime.to_seconds b < datetime.to_seconds a + 3600.
Proof.
  intros Ha%valid_bounds Hb%valid_bounds (Hy & Hm & Hd & Hh).
  unfold datetime.to_seconds, datetime.toordinal. rewrite Hy, Hm, Hd, Hh. lia.
Qed.

(** ** Field and serializer validation *)

Lemma run_validation_required_not_skip {A} nv (f : json -> result (list ErrorDetail) A) d :
  drf.run_validation true nv f d <> Skip.
Proof.
  unfold drf.run_validation.
  destruct d as [[]|]; try destruct nv; try destruct (f _); done.
Qed.

Lemma CharField_required_not_skip d : CharField_run_validation true d <> Skip.
Proof.
  unfold CharField_run_validation.
  destruct d as [[]|]; try case_match; try apply run_validation_required_not_skip.
  done.
Qed.

(** Errors raised by a serializer are never empty: [bool(detail)] holds. *)
Lemma to_internal_value_raise_truthy d data det :
  UserInteractionCreateSerializer.to_internal_value d data = Raise det -> detail_truthy det = true.
Proof.
  unfold UserInteractionCreateSerializer.to_internal_value. destruct data; try (intros [= <-]; reflexivity).
  pose proof (run_validation_required_not_skip None
                (ChoiceField_to_internal_value UserInteractionCreateSerializer.choices) (dict_get "interaction_type" d0)).
  pose proof (CharField_required_not_skip (dict_get "feature_name" d0)).
  pose proof (run_validation_required_not_skip None
                (IntegerField_to_internal_value (integer_field_range d)) (dict_get "duration" d0)).
  destruct (drf.run_validation true None (ChoiceField_to_internal_value UserInteractionCreateSerializer.choices) _);
    destruct (CharField_run_validation true _);
    destruct (drf.run_validation true None (IntegerField_to_internal_value _) _);
    destruct (drf.run_validation false _ _ _);
    try done; intros [= <-]; reflexivity.
Qed.

Lemma run_validation_raise_truthy user d data det :
  UserInteractionCreateSerializer.run_validation user d data = Raise det -> detail_truthy det = true.
Proof.
  unfold UserInteractionCreateSerializer.run_validation.
  destruct (UserInteractionCreateSerializer.to_internal_value d data) as [a|det'] eqn:Hto.
  - destruct (UserInteractionCreateSerializer.validate user d a) as [v|errs] eqn:Hv.
    + destruct data; done.
    + destruct data; intros [= <-]; reflexivity.
  - apply to_internal_value_raise_truthy in Hto.
    destruct data; intros [= <-]; done.
Qed.

(** For an authenticated caller [validate] either raises or returns
    the attributes it was given, and then the feature exists. *)
Lemma validate_authenticated u d a v :
  UserInteractionCreateSerializer.validate (Authenticated u) d a = Ok v ->
  v = UserInteractionCreateSerializer.Attrs a /\ Feature_filter_name d (UserInteractionCreateSerializer.feature_name a) <> [].
Proof.
  unfold UserInteractionCreateSerializer.validate. simpl. case_bool_decide; simpl; [|done].
  by intros [= <-].
Qed.

Lemma run_validation_authenticated u d data v :
  UserInteractionCreateSerializer.run_validation (Authenticated u) d data = Ok v ->
  exists a, v = UserInteractionCreateSerializer.Attrs a /\ UserInteractionCreateSerializer.to_internal_value d data = Ok a
            /\ Feature_filter_name d (UserInteractionCreateSerializer.feature_name a) <> [].
Proof.
  unfold UserInteractionCreateSerializer.run_validation.
  destruct (UserInteractionCreateSerializer.to_internal_value d data) as [a|det'] eqn:Hto; [|destruct data; done].
  destruct (UserInteractionCreateSerializer.validate (Authenticated u) d a) as [v'|errs] eqn:Hv; [|destruct data; done].
  apply validate_authenticated in Hv as [-> Hf].
  destruct data; try done; intros [= <-]; eauto.
Qed.

(** An item is valid or is refused with a report: for an authenticated
    caller there is nothing in between. *)
Lemma invalid_item_raises u d item :
  ~ valid_item (Authenticated u) d item ->
  exists det, UserInteractionCreateSerializer.run_validation (Authenticated u) d item = Raise det
              /\ detail_truthy det = true.
Proof.
  intros Hn. destruct (UserInteractionCreateSerializer.run_validation (Authenticated u) d item) as [v|det] eqn:Hr.
  - apply run_validation_authenticated in Hr as Hr'. destruct Hr' as (a & -> & _).
    destruct Hn. by exists a.
  - exists det. split; [done|]. by eapply run_validation_raise_truthy.
Qed.

(** ** The list serializer *)

Section ListFacts.
Context {A : Type} (child : json -> result detail A).

Lemma validate_items_length items :
  length (validate_items child items).2 = length items.
Proof.
  induction items as [|item items IH]; [done|]. simpl.
  destruct (validate_items child items) as [ret errs].
  destruct (child item); simpl in *; congruence.
Qed.

(** The report lines up with the input: an entry is empty exactly
    when its item validated. *)
Lemma validate_items_report items :
  (forall item det, child item = Raise det -> detail_truthy det = true) ->
  Forall2 (fun item det => detail_truthy det = false <-> exists v, child item = Ok v)
    items (validate_items child items).2.
Proof.
  intros Htruthy. induction items as [|item items IH]; [constructor|]. simpl.
  destruct (validate_items child items) as [ret errs].
  destruct (child item) as [v|det] eqn:Hc; simpl in *; constructor; try done.
  - split; [eauto|done].
  - rewrite (Htruthy _ _ Hc). split; [done|]. intros [v Hv]. congruence.
Qed.

Lemma validate_items_all_ok items :
  Forall (fun item => exists v, child item = Ok v) items ->
  existsb detail_truthy (validate_items child items).2 = false
  /\ Forall2 (fun item v => child item = Ok v) items (validate_items child items).1.
Proof.
  induction 1 as [|item items [v Hv] _ [IH1 IH2]]; [by split|]. simpl.
  destruct (validate_items child items) as [ret errs]. rewrite Hv. simpl in *.
  split; [done|]. by constructor.
Qed.

Lemma validate_items_some_bad items :
  (forall item det, child item = Raise det -> detail_truthy det = true) ->
  Exists (fun item => exists det, child item = Raise det) items ->
  existsb detail_truthy (validate_items child items).2 = true.
Proof.
  intros Htruthy. induction 1 as [item items [det Hd]|item items _ IH]; simpl.
  - destruct (validate_items child items) as [ret errs]. rewrite Hd. simpl.
    by rewrite (Htruthy _ _ Hd).
  - destruct (validate_items child items) as [ret errs].
    destruct (child item); simpl in *; rewrite IH; by rewrite ?orb_true_r.
Qed.

End ListFacts.

(** ** Creating rows *)

Lemma extends_interactions_refl d : extends_interactions d d [].
Proof. unfold extends_interactions. by rewrite app_nil_r. Qed.

Lemma extends_interactions_trans d1 d2 d3 r1 r2 :
  extends_interactions d1 d2 r1 -> extends_interactions d2 d3 r2 ->
  extends_interactions d1 d3 (r1 ++ r2).
Proof.
  unfold extends_interactions. intros (?&?&?&?&?) (?&?&?&?&?).
  rewrite app_assoc. repeat split; congruence.
Qed.

Lemma filter_name_unique (fs : list Feature) (n : string) :
  NoDup (map name fs) -> (length (filter (fun f => name f = n) fs) <= 1)%nat.
Proof.
  induction fs as [|f fs IH]; [simpl; lia|].
  rewrite fmap_cons. intros [Hnot Hnd]%NoDup_cons.
  rewrite filter_cons. case_decide as Hn; [|auto].
  destruct (filter (fun f => name f = n) fs) as [|g l] eqn:Hfilter; [simpl; lia|].
  assert (g ∈ filter (fun f => name f = n) fs) as [Hg Hin]%list_elem_of_filter
    by (rewrite Hfilter; left).
  destruct Hnot. rewrite Hn, <- Hg. by apply list_elem_of_fmap_2.
Qed.

Lemma Feature_get_name_exists d n :
  unique_feature_names d -> Feature_filter_name d n <> [] ->
  exists f, Feature_get_name d n = Ok f.
Proof.
  unfold unique_feature_names, Feature_get_name, Feature_filter_name.
  intros Hu%(filter_name_unique _ n) Hne.
  destruct (filter _ (features d)) as [|f [|g l]]; [done|eauto|simpl in Hu; lia].
Qed.

Lemma create_ok u now d a d' row :
  UserInteractionCreateSerializer.create (Authenticated u) now d a = Ok (d', row) ->
  extends_interactions d d' [row] /\ row_of u now a row.
Proof.
  unfold UserInteractionCreateSerializer.create.
  destruct (Feature_get_name d _) as [f|]; [|done].
  simpl. intros [= <- <-]. by repeat split.
Qed.

Lemma create_exists u now d a :
  unique_feature_names d ->
  Feature_filter_name d (UserInteractionCreateSerializer.feature_name a) <> [] ->
  exists d' row, UserInteractionCreateSerializer.create (Authenticated u) now d a = Ok (d', row).
Proof.
  intros Hu Hf. unfold UserInteractionCreateSerializer.create.
  destruct (Feature_get_name_exists _ _ Hu Hf) as [f ->]. simpl. eauto.
Qed.

(** Whatever [ListSerializer.create] does, it only appends rows, and
    every row is the caller's. *)
Lemma create_all_appends u now l d :
  exists rows,
    extends_interactions d (UserInteractionCreateSerializer.create_all (Authenticated u) now d l).1 rows
    /\ Forall (fun row => exists a, a ∈ l /\ row_of u now a row) rows
    /\ forall rs, (UserInteractionCreateSerializer.create_all (Authenticated u) now d l).2 = Ok rs ->
                  rs = rows /\ length rows = length l.
Proof.
  revert d. induction l as [|a l IH]; intros d; simpl.
  - exists []. split; [apply extends_interactions_refl|]. split; [constructor|].
    by intros rs [= <-].
  - destruct (UserInteractionCreateSerializer.create (Authenticated u) now d a)
      as [[d' row]|e] eqn:Hc; simpl.
    + apply create_ok in Hc as [Hext Hrow].
      destruct (IH d') as (rows & Hext' & Hrows & Hres).
      destruct (UserInteractionCreateSerializer.create_all (Authenticated u) now d' l)
        as [d'' [rs|e]]; simpl in *.
      all: exists (row :: rows); split;
        [apply (extends_interactions_trans _ _ _ [row] rows Hext Hext')|]; split.
      all: try (constructor; [exists a; split; [left|done]|];
                eapply Forall_impl; [exact Hrows|]; intros r (a' & ? & ?); exists a';
                split; [by right|done]).
      * intros ? [= <-]. destruct (Hres rs eq_refl) as [-> Hlen]. simpl. by rewrite Hlen.
      * done.
    + exists []. split; [apply extends_interactions_refl|]. split; [constructor|done].
Qed.

Lemma create_all_succeeds u now l d :
  unique_feature_names d ->
  Forall (fun a => Feature_filter_name d (UserInteractionCreateSerializer.feature_name a) <> []) l ->
  exists rows, (UserInteractionCreateSerializer.create_all (Authenticated u) now d l).2 = Ok rows.
Proof.
  revert d. induction l as [|a l IH]; intros d Hu Hl; simpl; [eauto|].
  apply Forall_cons in Hl as [Ha Hl].
  destruct (create_exists u now d a Hu Ha) as (d' & row & Hc). rewrite Hc.
  apply create_ok in Hc as [(_ & Hf & _) _].
  destruct (IH d') as [rows Hrows].
  - unfold unique_feature_names. by rewrite Hf.
  - eapply Forall_impl; [exact Hl|]. intros a'. unfold Feature_filter_name. by rewrite Hf.
  - destruct (UserInteractionCreateSerializer.create_all _ now d' l) as [d'' r].
    simpl in Hrows. subst r. eauto.
Qed.

Lemma copy_all_attrs (vs : list UserInteractionCreateSerializer.validated)
    (l : list UserInteractionCreateSerializer.attrs) :
  Forall2 (fun v a => v = UserInteractionCreateSerializer.Attrs a) vs l ->
  UserInteractionCreateSerializer.copy_all vs = Ok l.
Proof. induction 1 as [|v a vs l -> _ IH]; simpl; [done|]. by rewrite IH. Qed.

Lemma copy_all_ok vs l :
  UserInteractionCreateSerializer.copy_all vs = Ok l ->
  Forall2 (fun v a => v = UserInteractionCreateSerializer.Attrs a) vs l.
Proof.
  revert l. induction vs as [|[a|e] vs IH]; intros l; simpl.
  - intros [= <-]. constructor.
  - destruct (UserInteractionCreateSerializer.copy_all vs); [|done].
    intros [= <-]. constructor; auto.
  - done.
Qed.

(** ** Bulk creation *)

Lemma validate_items_ok {A} (child : json -> result detail A) items vs :
  Forall2 (fun item v => child item = Ok v) items vs ->
  (validate_items child items).1 = vs
  /\ existsb detail_truthy (validate_items child items).2 = false.
Proof.
  induction 1 as [|item v items vs Hv _ [IH1 IH2]]; [done|]. simpl.
  destruct (validate_items child items) as [ret errs]. rewrite Hv. simpl in *.
  by subst.
Qed.

Lemma existsb_true_not_nil {A} (f : A -> bool) (l : list A) :
  existsb f l = true -> l <> [].
Proof. by destruct l. Qed.

(** A payload whose items all validate is accepted: [is_valid()]
    holds and the validated data are the items' attributes. *)
Lemma list_validate_all_valid u d items :
  Forall (valid_item (Authenticated u) d) items ->
  exists l,
    list_validate (UserInteractionCreateSerializer.run_validation (Authenticated u) d)
      (JList items)
    = {| validated_data := UserInteractionCreateSerializer.Attrs <$> l;
         errors := ItemErrors [] |}
    /\ length l = length items
    /\ Forall (fun a => Feature_filter_name d (UserInteractionCreateSerializer.feature_name a)
                        <> []) l.
Proof.
  intros Hvalid.
  apply Forall_exists_Forall2_l in Hvalid as [l Hl]. exists l.
  assert (Forall2 (fun item v =>
            UserInteractionCreateSerializer.run_validation (Authenticated u) d item = Ok v)
            items (UserInteractionCreateSerializer.Attrs <$> l)) as Hvs.
  { apply Forall2_fmap_r. eapply Forall2_impl; [exact Hl|]. by intros item a Ha. }
  apply validate_items_ok in Hvs as [Hret Herrs].
  unfold list_validate, list_run_validation.
  destruct (validate_items _ items) as [ret errs]. simpl in *. rewrite Herrs, Hret.
  split; [done|]. split; [symmetry; by eapply Forall2_length|].
  eapply Forall2_Forall_r; [exact Hl|]. apply Forall_forall. intros item _ a Ha.
  apply run_validation_authenticated in Ha as (a' & [= <-] & _ & Hf). exact Hf.
Qed.

(** A payload with an item that does not validate is refused:
    [is_valid()] fails and the errors are the per-item report. *)
Lemma list_validate_some_invalid u d items :
  Exists (fun item => ~ valid_item (Authenticated u) d item) items ->
  exists report,
    list_validate (UserInteractionCreateSerializer.run_validation (Authenticated u) d)
      (JList items)
    = {| validated_data := []; errors := ItemErrors report |}
    /\ report <> []
    /\ Forall2 (fun item det => detail_truthy det = false
                                <-> valid_item (Authenticated u) d item) items report.
Proof.
  intros Hbad.
  set (child := UserInteractionCreateSerializer.run_validation (Authenticated u) d).
  assert (forall item det, child item = Raise det -> detail_truthy det = true) as Htruthy
    by (intros item det; apply run_validation_raise_truthy).
  assert (existsb detail_truthy (validate_items child items).2 = true) as Hex.
  { apply validate_items_some_bad; [done|].
    eapply Exists_impl; [exact Hbad|]. intros item Hn.
    destruct (invalid_item_raises u d item Hn) as (det & Hdet & _). eauto. }
  pose proof (validate_items_report child items Htruthy) as Hrep.
  unfold list_validate, list_run_validation.
  destruct (validate_items child items) as [ret errs]. simpl in *. rewrite Hex.
  exists errs. split; [done|]. split; [by eapply existsb_true_not_nil|].
  eapply Forall2_impl; [exact Hrep|]. intros item det Hiff. rewrite Hiff.
  unfold valid_item, child. split.
  - intros [v Hv]. apply run_validation_authenticated in Hv as Hv'.
    destruct Hv' as (a & -> & _). eauto.
  - intros [a Ha]. eauto.
Qed.

(** C1.  A bulk payload whose items are all valid is created in full:
    the response is 201 with the message "<N> interactions created
    successfully", N being the number of items; exactly N rows are
    appended to the interaction table; and afterwards the cache holds no
    key of the interaction-statistics namespace. *)
Theorem bulk_create_all_valid (u : User) (items : list json) (now : datetime.t) (w : world) :
  unique_feature_names (db w) ->
  Forall (valid_item (Authenticated u) (db w)) items ->
  let r := BulkCreateUserInteractionView.post (Authenticated u) (JList items) now w in
  r.1 = Respond
          (mk_response
             (MessageDict (Py.str_nat (length items) +:+ " interactions created successfully"))
             HTTP_201_CREATED)
  /\ (exists rows, extends_interactions (db w) (db r.2) rows /\ length rows = length items)
  /\ (forall rest, store r.2 !! (stats_namespace +:+ rest) = None).
Proof.
  intros Hunique Hvalid.
  destruct (list_validate_all_valid u (db w) items Hvalid) as (l & Hser & Hlen & Hfeat).
  unfold BulkCreateUserInteractionView.post. rewrite Hser. simpl.
  unfold UserInteractionCreateSerializer.save_many.
  rewrite (copy_all_attrs (UserInteractionCreateSerializer.Attrs <$> l) l)
    by (apply Forall2_fmap_l; by apply Forall_Forall2_diag, Forall_true).
  destruct (create_all_succeeds u now l (db w) Hunique Hfeat) as [rows Hrows].
  destruct (create_all_appends u now l (db w)) as (rows' & Hext & _ & Hres).
  destruct (UserInteractionCreateSerializer.create_all (Authenticated u) now (db w) l)
    as [d' res]. simpl in *. subst res.
  destruct (Hres rows eq_refl) as [-> Hrl]. simpl.
  rewrite length_fmap, Hlen. split; [done|]. split.
  - exists rows'. split; [done|]. congruence.
  - intros rest. apply delete_pattern_stats_purged.
Qed.

(** C2.  A bulk payload with at least one invalid item changes
    nothing: no row is created, the cache is as it was, and the response
    is 400 with one report entry per item, empty exactly for the items
    that are valid. *)
Theorem bulk_create_all_or_nothing (u : User) (items : list json) (now : datetime.t)
    (w : world) :
  Exists (fun item => ~ valid_item (Authenticated u) (db w) item) items ->
  exists report,
    BulkCreateUserInteractionView.post (Authenticated u) (JList items) now w
    = (Respond (mk_response (ListErrors (ItemErrors report)) HTTP_400_BAD_REQUEST), w)
    /\ Forall2 (fun item det => detail_truthy det = false
                                <-> valid_item (Authenticated u) (db w) item) items report.
Proof.
  intros Hbad.
  destruct (list_validate_some_invalid u (db w) items Hbad) as (report & Hser & Hne & Hrep).
  exists report. split; [|done].
  unfold BulkCreateUserInteractionView.post. rewrite Hser.
  unfold is_valid. simpl. by rewrite bool_decide_eq_false_2.
Qed.

(** C10.  The empty payload succeeds: 201 with the message
    "0 interactions created successfully", the database untouched, and
    the interaction-statistics namespace purged from the cache all the
    same. *)
Theorem bulk_create_empty (user : request_user) (now : datetime.t) (w : world) :
  BulkCreateUserInteractionView.post user (JList []) now w
  = (Respond (mk_response (MessageDict "0 interactions created successfully")
                HTTP_201_CREATED),
     mk_world (db w) (cache.delete_pattern (store w) "user_interaction_stats_*"))
  /\ forall rest,
       cache.delete_pattern (store w) "user_interaction_stats_*"
       !! (stats_namespace +:+ rest) = None.
Proof. split; [reflexivity|]. intros rest. apply delete_pattern_stats_purged. Qed.

Lemma sample_db_unique : unique_feature_names sample_db.
Proof. unfold unique_feature_names. simpl. apply NoDup_singleton. Qed.

Lemma bulk_create_all_valid_witness :
  unique_feature_names (db sample_world)
  /\ Forall (valid_item (Authenticated alice) (db sample_world)) [click_item 5]
  /\ let r := BulkCreateUserInteractionView.post (Authenticated alice)
                (JList [click_item 5]) t_0915 sample_world in
     r.1 = Respond
             (mk_response
                (MessageDict (Py.str_nat (length [click_item 5])
                              +:+ " interactions created successfully"))
                HTTP_201_CREATED)
     /\ (exists rows, extends_interactions (db sample_world) (db r.2) rows
                      /\ length rows = length [click_item 5])
     /\ (forall rest, store r.2 !! (stats_namespace +:+ rest) = None).
Proof.
  assert (unique_feature_names (db sample_world)) as Hu by apply sample_db_unique.
  assert (Forall (valid_item (Authenticated alice) (db sample_world)) [click_item 5]) as Hv.
  { constructor; [|constructor]. eexists. vm_compute. reflexivity. }
  split; [exact Hu|]. split; [exact Hv|].
  exact (bulk_create_all_valid alice [click_item 5] t_0915 sample_world Hu Hv).
Defined.

Lemma bulk_create_all_or_nothing_witness :
  Exists (fun item => ~ valid_item (Authenticated alice) (db sample_world) item)
    [click_item 5; bad_kind_item]
  /\ exists report,
       BulkCreateUserInteractionView.post (Authenticated alice)
         (JList [click_item 5; bad_kind_item]) t_0915 sample_world
       = (Respond (mk_response (ListErrors (ItemErrors report)) HTTP_400_BAD_REQUEST),
          sample_world)
       /\ Forall2 (fun item det => detail_truthy det = false
                                   <-> valid_item (Authenticated alice) (db sample_world) item)
            [click_item 5; bad_kind_item] report.
Proof.
  assert (Exists (fun item => ~ valid_item (Authenticated alice) (db sample_world) item)
            [click_item 5; bad_kind_item]) as Hbad.
  { apply Exists_cons_tl, Exists_cons_hd. intros [a Ha]. vm_compute in Ha. discriminate. }
  split; [exact Hbad|].
  exact (bulk_create_all_or_nothing alice [click_item 5; bad_kind_item] t_0915
           sample_world Hbad).
Defined.

(** ** Who a record belongs to, and what its duration is *)

Lemma validate_items_sound {A} (child : json -> result detail A) items :
  Forall (fun v => exists item, item ∈ items /\ child item = Ok v)
    (validate_items child items).1.
Proof.
  induction items as [|item items IH]; [constructor|]. simpl.
  destruct (validate_items child items) as [ret errs]. simpl in IH.
  assert (Forall (fun v => exists item', item' ∈ item :: items /\ child item' = Ok v) ret).
  { eapply Forall_impl; [exact IH|]. intros v (item' & ? & ?). exists item'.
    split; [by right|done]. }
  destruct (child item) as [v|det] eqn:Hc; simpl; [|done].
  constructor; [|done]. exists item. split; [left|done].
Qed.

Lemma list_validate_sound {A} (child : json -> result detail A) data :
  Forall (fun v => exists item, child item = Ok v) (validated_data (list_validate child data)).
Proof.
  unfold list_validate, list_run_validation.
  destruct data; simpl; try constructor.
  pose proof (validate_items_sound child l) as Hs.
  destruct (validate_items child l) as [ret errs]. simpl in Hs.
  destruct (existsb detail_truthy errs); simpl; [constructor|].
  eapply Forall_impl; [exact Hs|]. intros v (item & _ & ?). eauto.
Qed.

(** The rows a bulk request appends, for any body and whatever the
    outcome: each is the caller's, made from attributes that an item of
    the request validated to. *)
Lemma post_rows (u : User) (data : json) (now : datetime.t) (w : world) :
  exists rows,
    extends_interactions (db w)
      (db (BulkCreateUserInteractionView.post (Authenticated u) data now w).2) rows
    /\ Forall (fun row => exists item a,
                 UserInteractionCreateSerializer.to_internal_value (db w) item = Ok a
                 /\ row_of u now a row) rows.
Proof.
  unfold BulkCreateUserInteractionView.post.
  pose proof (list_validate_sound
                (UserInteractionCreateSerializer.run_validation (Authenticated u) (db w)) data)
    as Hsound.
  destruct (is_valid _); simpl;
    [|exists []; split; [apply extends_interactions_refl|constructor]].
  unfold UserInteractionCreateSerializer.save_many.
  destruct (UserInteractionCreateSerializer.copy_all _) as [l|e] eqn:Hcopy; simpl;
    [|exists []; split; [apply extends_interactions_refl|constructor]].
  apply copy_all_ok in Hcopy.
  destruct (create_all_appends u now l (db w)) as (rows & Hext & Hrows & _).
  exists rows. split.
  - by destruct (UserInteractionCreateSerializer.create_all _ now (db w) l) as [d' [rs|e]].
  - eapply Forall_impl; [exact Hrows|]. intros row (a & Ha & Hrow).
    assert (exists v, v ∈ validated_data
                      (list_validate
                         (UserInteractionCreateSerializer.run_validation (Authenticated u) (db w))
                         data) /\ v = UserInteractionCreateSerializer.Attrs a) as (v & Hv & ->).
    { clear -Hcopy Ha. induction Hcopy as [|v a' vs l Hva _ IH]; [by apply elem_of_nil in Ha|].
      apply elem_of_cons in Ha as [->|Ha].
      - exists v. split; [left|done].
      - destruct (IH Ha) as (v' & ? & ?). exists v'. split; [by right|done]. }
    rewrite Forall_forall in Hsound. destruct (Hsound _ Hv) as [item Hitem].
    apply run_validation_authenticated in Hitem as (a' & [= <-] & Hto & _). eauto.
Qed.

(** The same for the single create. *)
Lemma is_valid_and_save_rows (u : User) (data : json) (now : datetime.t) (d : database) :
  exists rows,
    extends_interactions d
      (UserInteractionCreateSerializer.is_valid_and_save (Authenticated u) now d data).1 rows
    /\ Forall (fun row => exists a,
                 UserInteractionCreateSerializer.to_internal_value d data = Ok a
                 /\ row_of u now a row) rows.
Proof.
  unfold UserInteractionCreateSerializer.is_valid_and_save.
  destruct (UserInteractionCreateSerializer.run_validation _ d data) as [v|det] eqn:Hrun;
    simpl; [|exists []; split; [apply extends_interactions_refl|constructor]].
  apply run_validation_authenticated in Hrun as (a & -> & Hto & _).
  unfold UserInteractionCreateSerializer.save_one. simpl.
  destruct (UserInteractionCreateSerializer.create _ now d a) as [[d' row]|e] eqn:Hc; simpl;
    [|exists []; split; [apply extends_interactions_refl|constructor]].
  apply create_ok in Hc as [Hext Hrow]. exists [row]. split; [done|].
  constructor; [eauto|constructor].
Qed.

Lemma create_feedback_rows (u : User) (data : json) (now : datetime.t) (w : world) :
  exists rows,
    feedback (db (CreateUserFeedbackView.create (Authenticated u) data now w).2)
    = feedback (db w) ++ rows
    /\ Forall (fun row => feedback_user row = user_pk u) rows.
Proof.
  unfold CreateUserFeedbackView.create.
  destruct (UserFeedbackCreateSerializer.run_validation data) as [[a|det]|x]; simpl;
    try (exists []; split; [by rewrite app_nil_r|constructor]).
  exists [ {| feedback_pk := next_pk feedback_pk (feedback (db w));
              feedback_user := user_pk u;
              category := UserFeedbackCreateSerializer.category a;
              rating := UserFeedbackCreateSerializer.rating a;
              feedback_text := UserFeedbackCreateSerializer.feedback_text a;
              feedback_timestamp := now |} ].
  split; [done|]. by constructor.
Qed.

(** C7.  Every record written through the create endpoints belongs to
    the authenticated caller: whatever the request body holds (a "user"
    key included), the rows appended by the bulk create, by the single
    create and by the feedback create carry the caller's id. *)
Theorem writes_are_bound_to_the_caller (u : User) (data : json) (now : datetime.t)
    (w : world) :
  (exists rows,
     extends_interactions (db w)
       (db (BulkCreateUserInteractionView.post (Authenticated u) data now w).2) rows
     /\ Forall (fun row => user row = user_pk u) rows)
  /\ (exists rows,
        extends_interactions (db w)
          (UserInteractionCreateSerializer.is_valid_and_save (Authenticated u) now (db w)
             data).1 rows
        /\ Forall (fun row => user row = user_pk u) rows)
  /\ (exists rows,
        feedback (db (CreateUserFeedbackView.create (Authenticated u) data now w).2)
        = feedback (db w) ++ rows
        /\ Forall (fun row => feedback_user row = user_pk u) rows).
Proof.
  split; [|split].
  - destruct (post_rows u data now w) as (rows & Hext & Hrows). exists rows.
    split; [done|]. eapply Forall_impl; [exact Hrows|]. by intros row (_ & _ & _ & ? & _).
  - destruct (is_valid_and_save_rows u data now (db w)) as (rows & Hext & Hrows).
    exists rows. split; [done|]. eapply Forall_impl; [exact Hrows|].
    by intros row (_ & _ & ? & _).
  - apply create_feedback_rows.
Qed.

Lemma IntegerField_in_range (range : Z * Z) (j : json) (n : Z) :
  IntegerField_to_internal_value range j = Ok n -> range.1 <= n <= range.2.
Proof.
  unfold IntegerField_to_internal_value.
  destruct (scalar_str j) as [s|]; [|done].
  destruct (_ && _); [done|].
  destruct (Py.int_of_str _) as [m|]; [|done].
  destruct (range.2 <? m) eqn:Hhi; [done|]. destruct (m <? range.1) eqn:Hlo; [done|].
  intros [= <-]. lia.
Qed.

(** The duration of validated attributes is what the integer field
    reads from the item's "duration" key. *)
Lemma to_internal_value_duration d item a :
  UserInteractionCreateSerializer.to_internal_value d item = Ok a ->
  exists fields j,
    item = JDict fields /\ dict_get "duration" fields = Some j
    /\ IntegerField_to_internal_value (integer_field_range d) j
       = Ok (UserInteractionCreateSerializer.duration a).
Proof.
  unfold UserInteractionCreateSerializer.to_internal_value.
  destruct item as [| | | | | |fields]; try done.
  destruct (drf.run_validation true None (ChoiceField_to_internal_value _) _); try done.
  destruct (CharField_run_validation true _); try done.
  destruct (drf.run_validation true None (IntegerField_to_internal_value _) _)
    as [dur| |] eqn:Hdur; try done.
  assert (exists j, dict_get "duration" fields = Some j
                    /\ IntegerField_to_internal_value (integer_field_range d) j = Ok dur)
    as (j & Hj & Hint).
  { unfold drf.run_validation in Hdur.
    destruct (dict_get "duration" fields) as [j|]; [|done]. exists j. split; [done|].
    destruct j; try done;
      destruct (IntegerField_to_internal_value _ _); by simplify_eq. }
  destruct (drf.run_validation false _ _ _); try done; intros [= <-]; eauto.
Qed.

(** C9 as stated fails: a bulk create with a duration of -5 is
    answered 201 and the row is stored with that duration. *)
Lemma negative_duration_is_accepted :
  let r := BulkCreateUserInteractionView.post (Authenticated alice)
             (JList [click_item (-5)]) t_0915 sample_world in
  r.1 = Respond (mk_response (MessageDict "1 interactions created successfully")
                   HTTP_201_CREATED)
  /\ exists row, interactions (db r.2) = [row] /\ duration row = -5 /\ ~ 0 <= duration row.
Proof.
  split; [vm_compute; reflexivity|].
  eexists. split; [vm_compute; reflexivity|]. simpl. split; [reflexivity|lia].
Qed.

(** C9, amended.  Every interaction row created through the create
    endpoints (bulk or single) has a duration that is an integer within
    the range the database backend gives an integer field, negative
    values included; and an item is accepted only if its "duration" key
    is there and the integer field reads an integer of that range from
    it. *)
Theorem duration_is_a_backend_integer (u : User) (data : json) (now : datetime.t)
    (w : world) :
  (exists rows,
     extends_interactions (db w)
       (db (BulkCreateUserInteractionView.post (Authenticated u) data now w).2) rows
     /\ Forall (fun row => (integer_field_range (db w)).1 <= duration row
                           <= (integer_field_range (db w)).2) rows)
  /\ (exists rows,
        extends_interactions (db w)
          (UserInteractionCreateSerializer.is_valid_and_save (Authenticated u) now (db w)
             data).1 rows
        /\ Forall (fun row => (integer_field_range (db w)).1 <= duration row
                              <= (integer_field_range (db w)).2) rows)
  /\ (forall item,
        valid_item (Authenticated u) (db w) item ->
        exists fields j n,
          item = JDict fields /\ dict_get "duration" fields = Some j
          /\ IntegerField_to_internal_value (integer_field_range (db w)) j = Ok n
          /\ (integer_field_range (db w)).1 <= n <= (integer_field_range (db w)).2).
Proof.
  split; [|split].
  - destruct (post_rows u data now w) as (rows & Hext & Hrows). exists rows.
    split; [done|]. eapply Forall_impl; [exact Hrows|].
    intros row (item & a & Hto & _ & _ & Hdur & _). rewrite Hdur.
    apply to_internal_value_duration in Hto as (fields & j & _ & _ & Hint).
    by apply IntegerField_in_range in Hint.
  - destruct (is_valid_and_save_rows u data now (db w)) as (rows & Hext & Hrows).
    exists rows. split; [done|]. eapply Forall_impl; [exact Hrows|].
    intros row (a & Hto & _ & _ & Hdur & _). rewrite Hdur.
    apply to_internal_value_duration in Hto as (fields & j & _ & _ & Hint).
    by apply IntegerField_in_range in Hint.
  - intros item [a Ha].
    apply run_validation_authenticated in Ha as (a' & _ & Hto & _).
    apply to_internal_value_duration in Hto as (fields & j & -> & Hj & Hint).
    exists fields, j, (UserInteractionCreateSerializer.duration a').
    pose proof (IntegerField_in_range _ _ _ Hint). done.
Qed.

Lemma duration_is_a_backend_integer_witness :
  valid_item (Authenticated alice) (db sample_world) (click_item (-5))
  /\ (exists rows,
        extends_interactions (db sample_world)
          (db (BulkCreateUserInteractionView.post (Authenticated alice)
                 (JList [click_item (-5)]) t_0915 sample_world).2) rows
        /\ Forall (fun row => (integer_field_range (db sample_world)).1 <= duration row
                              <= (integer_field_range (db sample_world)).2) rows)
  /\ exists fields j n,
       click_item (-5) = JDict fields /\ dict_get "duration" fields = Some j
       /\ IntegerField_to_internal_value (integer_field_range (db sample_world)) j = Ok n
       /\ (integer_field_range (db sample_world)).1 <= n
          <= (integer_field_range (db sample_world)).2.
Proof.
  assert (valid_item (Authenticated alice) (db sample_world) (click_item (-5))) as Hv.
  { eexists. vm_compute. reflexivity. }
  destruct (duration_is_a_backend_integer alice (JList [click_item (-5)]) t_0915
              sample_world) as (Hrows & _ & Hitem).
  split; [exact Hv|]. split; [exact Hrows|]. exact (Hitem _ Hv).
Defined.

(** ** Creating one interaction: what is refused and what is not *)

(** An unknown feature is refused with a validation error and nothing
    is stored, for an authenticated caller. *)
Lemma unknown_feature_is_refused (u : User) (now : datetime.t) (d : database) (item : json) a :
  UserInteractionCreateSerializer.to_internal_value d item = Ok a ->
  Feature_filter_name d (UserInteractionCreateSerializer.feature_name a) = [] ->
  UserInteractionCreateSerializer.is_valid_and_save (Authenticated u) now d item
  = (d, Raise (inl (DetailDict [(NON_FIELD_ERRORS_KEY, [Message "Feature does not exist"])]))).
Proof.
  intros Hto Hf. unfold UserInteractionCreateSerializer.is_valid_and_save,
    UserInteractionCreateSerializer.run_validation.
  rewrite Hto. unfold UserInteractionCreateSerializer.validate. rewrite Hf. simpl.
  by destruct item.
Qed.

(** An interaction kind outside the enumeration is refused with a
    validation error and nothing is stored, whoever calls. *)
Lemma unknown_kind_is_refused (user : request_user) (now : datetime.t) (d : database)
    (fields : list (string * json)) (kind : string) :
  dict_get "interaction_type" fields = Some (JStr kind) ->
  kind ∉ UserInteractionCreateSerializer.choices ->
  exists errors,
    UserInteractionCreateSerializer.is_valid_and_save user now d (JDict fields)
    = (d, Raise (inl (DetailDict (("interaction_type", [Code "invalid_choice"]) :: errors)))).
Proof.
  intros Hk Hnot.
  assert (drf.run_validation true None
            (ChoiceField_to_internal_value UserInteractionCreateSerializer.choices)
            (Some (JStr kind)) = Invalid [Code "invalid_choice"]) as Hr.
  { unfold drf.run_validation, ChoiceField_to_internal_value. simpl.
    by rewrite bool_decide_eq_false_2. }
  unfold UserInteractionCreateSerializer.is_valid_and_save,
    UserInteractionCreateSerializer.run_validation,
    UserInteractionCreateSerializer.to_internal_value.
  rewrite Hk, Hr. simpl. eexists. reflexivity.
Qed.

(** Both kinds of item are invalid items of a bulk payload. *)
Lemma refused_item_is_invalid user now d item det :
  UserInteractionCreateSerializer.is_valid_and_save user now d item = (d, Raise (inl det)) ->
  ~ valid_item user d item.
Proof.
  unfold UserInteractionCreateSerializer.is_valid_and_save. intros Hsave [a Ha].
  rewrite Ha in Hsave.
  by destruct (UserInteractionCreateSerializer.save_one user now d _) as [d' [row|e]].
Qed.

(** Through the endpoints an unauthenticated caller is turned away by
    the permission check, before any serializer runs. *)
Lemma dispatch_anonymous handler w :
  dispatch IsAuthenticated AnonymousUser handler w = (PermissionDenied, w).
Proof. reflexivity. Qed.

Lemma dispatch_authenticated u handler w :
  dispatch IsAuthenticated (Authenticated u) handler w = handler w.
Proof. reflexivity. Qed.

(** C5, at the failing input.  For a caller that is not authenticated
    [validate] returns the error instead of raising it: validation
    passes, [is_valid()] holds, and the create ends in a [TypeError], not
    in a validation error.  The check of the feature is skipped as
    well. *)
Theorem unauthenticated_caller_passes_validation :
  UserInteractionCreateSerializer.run_validation AnonymousUser sample_db (click_item 5)
  = Ok (UserInteractionCreateSerializer.ReturnedError (Message "User is not authenticated"))
  /\ is_valid (list_validate
                 (UserInteractionCreateSerializer.run_validation AnonymousUser sample_db)
                 (JList [click_item 5])) = true
  /\ UserInteractionCreateSerializer.is_valid_and_save AnonymousUser t_0915 sample_db
       (click_item 5)
     = (sample_db, Raise (inr (TypeError "'ValidationError' object is not a mapping")))
  /\ (BulkCreateUserInteractionView.post AnonymousUser (JList [click_item 5]) t_0915
        sample_world).1
     = Uncaught (TypeError "'ValidationError' object is not a mapping").
Proof. repeat split; vm_compute; reflexivity. Qed.

(** ** The interactions of one user *)

Lemma to_python_datetime_raises s e :
  to_python_datetime s = Raise e -> exists m, e = DjangoValidationError m.
Proof.
  unfold to_python_datetime.
  destruct (parse_date_chars _) as [[[y m] d]|]; [|intros [= <-]; eauto].
  destruct (match drop 10 _ with [] => _ | _ => _ end) as [[[h mi] sec]|];
    [|intros [= <-]; eauto].
  destruct (datetime.valid _); [done|intros [= <-]; eauto].
Qed.

Lemma filter_if_raises {A} param (f : string -> result exn (list A)) rows e :
  (forall v e', f v = Raise e' -> exists m, e' = DjangoValidationError m) ->
  UserInteractionByUser.filter_if param f rows = Raise e ->
  exists m, e = DjangoValidationError m.
Proof.
  intros Hf. unfold UserInteractionByUser.filter_if.
  destruct param as [v|]; [|done]. destruct (Py.truthy_str v); [apply Hf|done].
Qed.

(** The only exception the query can raise is the validation error of
    a date filter: [User.DoesNotExist] never comes. *)
Lemma query_raises user_id qp d e :
  UserInteractionByUser.query user_id qp d = Raise e ->
  exists m, e = DjangoValidationError m.
Proof.
  unfold UserInteractionByUser.query.
  destruct (UserInteractionByUser.filter_if (qp_get "type" qp) _ _) as [r1|e1] eqn:H1.
  - destruct (UserInteractionByUser.filter_if (qp_get "start_date" qp) _ _) as [r2|e2] eqn:H2.
    + destruct (UserInteractionByUser.filter_if (qp_get "end_date" qp) _ _) as [r3|e3] eqn:H3;
        [done|].
      intros [= <-]. eapply filter_if_raises; [|exact H3]. intros v e'. cbv beta.
      destruct (to_python_datetime v) eqn:Hp; [done|].
      intros [= <-]. by eapply to_python_datetime_raises.
    + intros [= <-]. eapply filter_if_raises; [|exact H2]. intros v e'. cbv beta.
      destruct (to_python_datetime v) eqn:Hp; [done|].
      intros [= <-]. by eapply to_python_datetime_raises.
  - intros [= <-]. eapply filter_if_raises; [|exact H1]. done.
Qed.

(** The view never answers 404. *)
Lemma by_user_never_404 hash user_id qp now w r :
  (UserInteractionByUser.get hash user_id qp now w).1 = Respond r ->
  status r <> HTTP_404_NOT_FOUND.
Proof.
  unfold UserInteractionByUser.get.
  destruct (if_truthy _); [by intros [= <-]|].
  destruct (UserInteractionByUser.query user_id qp (db w)) as [l|e] eqn:Hq;
    [by intros [= <-]|].
  apply query_raises in Hq as [m ->]. by intros [= <-].
Qed.

Lemma filter_if_nil {A} param (f : string -> result exn (list A)) l :
  (forall v l', f v = Ok l' -> l' = []) ->
  UserInteractionByUser.filter_if param f [] = Ok l -> l = [].
Proof.
  intros Hf. unfold UserInteractionByUser.filter_if.
  destruct param as [v|]; [|by intros [= <-]].
  destruct (Py.truthy_str v); [apply Hf|by intros [= <-]].
Qed.

(** For a user id that no row refers to (an unknown user among them),
    the query gives the empty list whenever it gives a list. *)
Lemma query_no_rows user_id qp d l :
  Forall (fun row => user row <> user_id) (interactions d) ->
  UserInteractionByUser.query user_id qp d = Ok l -> l = [].
Proof.
  intros Hnone. unfold UserInteractionByUser.query.
  assert (filter (fun row => user row = user_id) (interactions d) = []) as ->.
  { induction Hnone as [|row rows Hrow _ IH]; [done|].
    rewrite filter_cons. by case_decide. }
  destruct (UserInteractionByUser.filter_if (qp_get "type" qp) _ _) as [r1|] eqn:H1; [|done].
  apply filter_if_nil in H1 as ->; [|by intros v l' [= <-]].
  destruct (UserInteractionByUser.filter_if (qp_get "start_date" qp) _ _) as [r2|] eqn:H2;
    [|done].
  apply filter_if_nil in H2 as ->;
    [|intros v l'; cbv beta; destruct (to_python_datetime v); [by intros [= <-]|done]].
  destruct (UserInteractionByUser.filter_if (qp_get "end_date" qp) _ _) as [r3|] eqn:H3;
    [|done].
  apply filter_if_nil in H3 as ->;
    [|intros v l'; cbv beta; destruct (to_python_datetime v); [by intros [= <-]|done]].
  by intros [= <-].
Qed.

(** C3, at the failing input.  User 999 does not exist, and the
    request for its interactions is answered 200 with the empty list,
    which is also put in the cache; no 404 is given. *)
Theorem unknown_user_is_answered_with_an_empty_list :
  Forall (fun usr => user_pk usr <> 999) (users sample_db)
  /\ UserInteractionByUser.get sample_hash 999 [] t_0915 sample_world
     = (Respond (mk_response (InteractionList []) HTTP_200_OK),
        mk_world sample_db
          (cache.set ∅ "user_interactions_999_133146708735736" (InteractionList []) 1800
             (datetime.to_seconds t_0915))).
Proof. split; [by repeat constructor|]. vm_compute. reflexivity. Qed.

(** A cached list that is not empty is served as it is: the database
    is not looked at and the cache is left alone. *)
Lemma nonempty_result_is_served_from_cache hash user_id qp now w l :
  cache.get (store w) (UserInteractionByUser.cache_key hash user_id qp)
    (datetime.to_seconds now) = Some (InteractionList l) ->
  l <> [] ->
  UserInteractionByUser.get hash user_id qp now w
  = (Respond (mk_response (InteractionList l) HTTP_200_OK), w).
Proof.
  intros Hget Hne. unfold UserInteractionByUser.get. rewrite Hget. simpl.
  by rewrite bool_decide_eq_false_2.
Qed.

(** C8, at the failing input.  Alice exists and has no interactions.
    The first request stores the empty list in the cache, and 25 minutes
    later it is still there; yet the second request does not serve it:
    it runs the query again and stores its result anew (the expiry
    moves), and when a row has been recorded meanwhile it answers with
    that row, not with the cached list. *)
Theorem empty_result_is_not_served_from_cache :
  cache.get (store world_after_first_lookup) "user_interactions_1_133146708735736"
    (datetime.to_seconds t_0940) = Some (InteractionList [])
  /\ store (UserInteractionByUser.get sample_hash 1 [] t_0940 world_after_first_lookup).2
     <> store world_after_first_lookup
  /\ (UserInteractionByUser.get sample_hash 1 [] t_0940
        (mk_world db_after_click (store world_after_first_lookup))).1
     = Respond
         (mk_response
            (InteractionList
               [ {| UserInteractionCreateSerializer.repr_interaction_type := "click";
                    UserInteractionCreateSerializer.repr_duration := 5;
                    UserInteractionCreateSerializer.repr_additional_metadata := JNull |} ])
            HTTP_200_OK).
Proof.
  split; [vm_compute; reflexivity|]. split; [|vm_compute; reflexivity].
  intros H.
  apply (f_equal (fun c => cache.expires <$> c !! "user_interactions_1_133146708735736")) in H.
  vm_compute in H. discriminate.
Qed.

(** ** The hourly statistics cache *)

Lemma by_user_key_not_stats hash user_id qp t :
  UserInteractionByUser.cache_key hash user_id qp <> UserInteractionStatisticsView.cache_key t.
Proof.
  unfold UserInteractionByUser.cache_key, UserInteractionStatisticsView.cache_key.
  intros H. apply (f_equal list_ascii_of_string) in H.
  rewrite !list_ascii_of_string_app in H. simpl in H. discriminate.
Qed.

Lemma analytics_key_not_stats t t' :
  UserFeedbackAnalyticsView.cache_key t <> UserInteractionStatisticsView.cache_key t'.
Proof.
  unfold UserFeedbackAnalyticsView.cache_key, UserInteractionStatisticsView.cache_key.
  intros H. apply (f_equal list_ascii_of_string) in H.
  rewrite !list_ascii_of_string_app in H. simpl in H. discriminate.
Qed.

Lemma hourly_entries_ok_empty : hourly_entries_ok ∅.
Proof. intros t e _ H. by rewrite lookup_empty in H. Qed.

Lemma hourly_entries_ok_delete_pattern c pattern :
  hourly_entries_ok c -> hourly_entries_ok (cache.delete_pattern c pattern).
Proof. intros Hok t e Ht He. apply (Hok t e Ht). by eapply delete_pattern_subseteq. Qed.

Lemma hourly_entries_ok_set_other c key v timeout now :
  (forall t, key <> UserInteractionStatisticsView.cache_key t) ->
  hourly_entries_ok c -> hourly_entries_ok (cache.set c key v timeout now).
Proof.
  intros Hkey Hok t e Ht. unfold cache.set. rewrite lookup_insert_ne by apply Hkey.
  by apply Hok.
Qed.

Lemma hourly_entries_ok_set_stats c now s :
  datetime.valid now = true ->
  hourly_entries_ok c ->
  hourly_entries_ok
    (cache.set c (UserInteractionStatisticsView.cache_key now) (Stats s) 3600
       (datetime.to_seconds now)).
Proof.
  intros Hnow Hok t e Ht. unfold cache.set.
  destruct (decide (UserInteractionStatisticsView.cache_key now
                    = UserInteractionStatisticsView.cache_key t)) as [Heq|Hne].
  - rewrite Heq, lookup_insert_eq. intros [= <-]. simpl. split; [done|].
    apply same_hour_seconds; [done..|]. by apply stats_key_same_hour.
  - rewrite lookup_insert_ne by done. by apply Hok.
Qed.

Lemma step_hourly_entries_ok w w' :
  step w w' -> hourly_entries_ok (store w) -> hourly_entries_ok (store w').
Proof.
  intros Hstep Hok. destruct Hstep as [now w Hnow|user data now w Hnow
    |hash user_id qp now w Hnow|now w Hnow|user data now w Hnow|d w].
  - unfold UserInteractionStatisticsView.get. destruct (if_truthy _); [done|].
    by apply hourly_entries_ok_set_stats.
  - unfold BulkCreateUserInteractionView.post. destruct (is_valid _); [|done].
    destruct (UserInteractionCreateSerializer.save_many _ _ _ _) as [d' [rows|e]];
      [|done]. by apply hourly_entries_ok_delete_pattern.
  - unfold UserInteractionByUser.get. destruct (if_truthy _); [done|].
    destruct (UserInteractionByUser.query _ _ _) as [l|e] eqn:Hq.
    + apply hourly_entries_ok_set_other; [|done]. intros t. apply by_user_key_not_stats.
    + by apply query_raises in Hq as [m ->].
  - unfold UserFeedbackAnalyticsView.get. destruct (if_truthy _); [done|].
    apply hourly_entries_ok_set_other; [|done]. intros t. apply analytics_key_not_stats.
  - unfold CreateUserFeedbackView.create.
    destruct (UserFeedbackCreateSerializer.run_validation data) as [[a|det]|x]; [|done..].
    destruct (UserFeedbackCreateSerializer.create _ _ _ _) as [[d' row]|e]; [|done].
    by apply hourly_entries_ok_delete_pattern.
  - done.
Qed.

(** In every state the service reaches, the hourly entries are sound. *)
Lemma reachable_hourly_entries_ok w : reachable w -> hourly_entries_ok (store w).
Proof.
  induction 1 as [d|w w' _ IH Hstep]; [apply hourly_entries_ok_empty|].
  by eapply step_hourly_entries_ok.
Qed.

(** C4.  Within one clock hour the second request for the statistics
    gets the response of the first, served from the cache: it is the
    same whatever the database holds by then and the cache is not
    written.  In another hour the key is another one, and a request
    there, the hour not having been served before, computes the report
    from the database and stores it. *)
Theorem statistics_are_cached_by_the_hour (w : world) (t1 t2 : datetime.t) (d2 : database) :
  reachable w ->
  datetime.valid t1 = true -> datetime.valid t2 = true ->
  datetime.same_hour t1 t2 ->
  let r1 := UserInteractionStatisticsView.get t1 w in
  UserInteractionStatisticsView.get t2 (mk_world d2 (store r1.2))
  = (r1.1, mk_world d2 (store r1.2))
  /\ forall (t3 : datetime.t) (d3 : database),
       datetime.valid t3 = true -> ~ datetime.same_hour t1 t3 ->
       UserInteractionStatisticsView.cache_key t3 <> UserInteractionStatisticsView.cache_key t1
       /\ (store w !! UserInteractionStatisticsView.cache_key t3 = None ->
           UserInteractionStatisticsView.get t3 (mk_world d3 (store r1.2))
           = (Respond (mk_response (Stats (UserInteractionStatisticsView.compute t3 d3))
                         HTTP_200_OK),
              mk_world d3
                (cache.set (store r1.2) (UserInteractionStatisticsView.cache_key t3)
                   (Stats (UserInteractionStatisticsView.compute t3 d3)) 3600
                   (datetime.to_seconds t3)))).
Proof.
  intros Hreach Ht1 Ht2 Hsame r1.
  pose proof (reachable_hourly_entries_ok w Hreach) as Hok.
  pose proof (proj2 (stats_key_same_hour t1 t2 Ht1 Ht2) Hsame) as Hkey.
  split.
  - subst r1. unfold UserInteractionStatisticsView.get at 2 3.
    unfold UserInteractionStatisticsView.get. rewrite <- Hkey.
    destruct (if_truthy (cache.get (store w) _ (datetime.to_seconds t1)))
      as [cached|] eqn:Hhit; simpl.
    + unfold if_truthy, cache.get in Hhit.
      destruct (store w !! UserInteractionStatisticsView.cache_key t1) as [e|] eqn:He;
        [|done].
      destruct (Hok t2 e Ht2) as [Htrue Hlive]; [by rewrite <- Hkey|].
      unfold cache.get. rewrite He.
      destruct (datetime.to_seconds t1 <? cache.expires e); [|done].
      rewrite Htrue in Hhit. injection Hhit as <-.
      rewrite (proj2 (Z.ltb_lt _ _) Hlive). simpl. by rewrite Htrue.
    + unfold cache.get, cache.set. rewrite lookup_insert_eq. simpl.
      pose proof (same_hour_seconds t1 t2 Ht1 Ht2 Hsame) as Hlt.
      by rewrite (proj2 (Z.ltb_lt _ _) Hlt).
  - intros t3 d3 Ht3 Hother.
    assert (UserInteractionStatisticsView.cache_key t3
            <> UserInteractionStatisticsView.cache_key t1) as Hne.
    { intros Heq. apply Hother. by apply stats_key_same_hour. }
    split; [done|]. intros Hfresh.
    assert (store r1.2 !! UserInteractionStatisticsView.cache_key t3 = None) as Hnone.
    { subst r1. unfold UserInteractionStatisticsView.get.
      destruct (if_truthy _); simpl; [done|].
      unfold cache.set. by rewrite lookup_insert_ne. }
    unfold UserInteractionStatisticsView.get at 1. unfold cache.get at 1.
    simpl store. by rewrite Hnone.
Qed.

(** The hours of the sample day: the report computed at 09:15 on the
    empty table is served again at 09:40 though a click has been
    recorded by then, and at 10:05 the click is counted. *)
Example statistics_by_the_hour_example :
  let w1 := (UserInteractionStatisticsView.get t_0915 sample_world).2 in
  (exists s, (UserInteractionStatisticsView.get t_0940 (mk_world db_after_click (store w1))).1
             = Respond (mk_response (Stats s) HTTP_200_OK)
             /\ total_interactions s = 0%nat)
  /\ (exists s, (UserInteractionStatisticsView.get t_1005 (mk_world db_after_click (store w1))).1
                = Respond (mk_response (Stats s) HTTP_200_OK)
                /\ total_interactions s = 1%nat).
Proof. split; eexists; (split; [vm_compute; reflexivity|reflexivity]). Qed.

Lemma statistics_are_cached_by_the_hour_witness :
  reachable sample_world
  /\ datetime.valid t_0915 = true /\ datetime.valid t_0940 = true
  /\ datetime.same_hour t_0915 t_0940
  /\ let r1 := UserInteractionStatisticsView.get t_0915 sample_world in
     UserInteractionStatisticsView.get t_0940 (mk_world db_after_click (store r1.2))
     = (r1.1, mk_world db_after_click (store r1.2))
     /\ forall (t3 : datetime.t) (d3 : database),
          datetime.valid t3 = true -> ~ datetime.same_hour t_0915 t3 ->
          UserInteractionStatisticsView.cache_key t3
          <> UserInteractionStatisticsView.cache_key t_0915
          /\ (store sample_world !! UserInteractionStatisticsView.cache_key t3 = None ->
              UserInteractionStatisticsView.get t3 (mk_world d3 (store r1.2))
              = (Respond (mk_response (Stats (UserInteractionStatisticsView.compute t3 d3))
                            HTTP_200_OK),
                 mk_world d3
                   (cache.set (store r1.2) (UserInteractionStatisticsView.cache_key t3)
                      (Stats (UserInteractionStatisticsView.compute t3 d3)) 3600
                      (datetime.to_seconds t3)))).
Proof.
  assert (reachable sample_world) as Hr by apply reachable_init.
  assert (datetime.same_hour t_0915 t_0940) as Hs by (by repeat split).
  split; [exact Hr|]. split; [reflexivity|]. split; [reflexivity|]. split; [exact Hs|].
  exact (statistics_are_cached_by_the_hour sample_world t_0915 t_0940 db_after_click
           Hr eq_refl eq_refl Hs).
Defined.

(** ** Ratings *)

Lemma ndigits_fuel_pos fuel n : (1 <= PyDecimal.ndigits_fuel fuel n)%nat.
Proof. destruct fuel; simpl; [lia|]. destruct (n <? 10)%N; lia. Qed.

Lemma ndigits_fuel_small fuel n : (n < 10)%N -> PyDecimal.ndigits_fuel fuel n = 1%nat.
Proof. intros Hn. destruct fuel; simpl; [done|]. by rewrite (proj2 (N.ltb_lt _ _) Hn). Qed.

Lemma size_nat_pos n : (1 <= n)%N -> (1 <= N.size_nat n)%nat.
Proof. destruct n as [|[p|p|]]; simpl; lia. Qed.

Lemma size_nat_two n : (2 <= n)%N -> (2 <= N.size_nat n)%nat.
Proof. destruct n as [|[[p|p|]|[p|p|]|]]; simpl; lia. Qed.

Lemma ndigits_one n : (n < 10)%N -> PyDecimal.ndigits n = 1%nat.
Proof. apply ndigits_fuel_small. Qed.

Lemma ndigits_two n : (10 <= n < 100)%N -> PyDecimal.ndigits n = 2%nat.
Proof.
  intros Hn. unfold PyDecimal.ndigits.
  pose proof (size_nat_pos n ltac:(lia)) as Hs.
  destruct (N.size_nat n) as [|fuel]; [lia|]. simpl.
  rewrite (proj2 (N.ltb_ge _ _)) by lia.
  rewrite ndigits_fuel_small; [done|]. apply N.Div0.div_lt_upper_bound; lia.
Qed.

Lemma ndigits_three n : (100 <= n)%N -> (3 <= PyDecimal.ndigits n)%nat.
Proof.
  intros Hn. unfold PyDecimal.ndigits.
  pose proof (size_nat_two n ltac:(lia)) as Hs.
  destruct (N.size_nat n) as [|[|fuel]]; [lia..|]. simpl.
  rewrite (proj2 (N.ltb_ge _ _)) by lia.
  assert (10 <= n / 10)%N by (apply N.div_le_lower_bound; lia).
  rewrite (proj2 (N.ltb_ge _ _)) by lia.
  pose proof (ndigits_fuel_pos fuel (n / 10 / 10)). lia.
Qed.

Lemma ndigits_le_1 n : (PyDecimal.ndigits n <= 1)%nat -> (n < 10)%N.
Proof.
  intros H. destruct (N.lt_ge_cases n 10) as [|Hge]; [done|].
  destruct (N.lt_ge_cases n 100).
  - rewrite ndigits_two in H; lia.
  - pose proof (ndigits_three n). lia.
Qed.

Lemma ndigits_le_2 n : (PyDecimal.ndigits n <= 2)%nat -> (n < 100)%N.
Proof.
  intros H. destruct (N.lt_ge_cases n 100) as [|Hge]; [done|].
  pose proof (ndigits_three n). lia.
Qed.

Lemma ndigits_pos n : (1 <= PyDecimal.ndigits n)%nat.
Proof. apply ndigits_fuel_pos. Qed.

(** What [validate_precision] lets through for [max_digits=2,
    decimal_places=1]: one digit, or up to two digits with one of them
    after the point. *)
Lemma validate_precision_accepts sg c e d :
  validate_precision 2 1 (PyDecimal.Finite sg c e) = Ok d ->
  d = PyDecimal.Finite sg c e /\ ((e = 0 /\ (c < 10)%N) \/ (e = -1 /\ (c < 100)%N)).
Proof.
  unfold validate_precision.
  pose proof (ndigits_pos c) as Hpos.
  pose proof (ndigits_le_1 c) as H1. pose proof (ndigits_le_2 c) as H2.
  destruct (0 <=? e) eqn:He.
  - repeat (case_match; try done). intros [= <-]. split; [done|]. left. lia.
  - destruct (Z.abs e <? _) eqn:Habs;
      repeat (case_match; try done); intros [= <-]; (split; [done|]); right; lia.
Qed.

(** Two or more digits after the point are never accepted. *)
Lemma validate_precision_two_places sg c e :
  e <= -2 -> exists errs, validate_precision 2 1 (PyDecimal.Finite sg c e) = Raise errs.
Proof.
  intros He. unfold validate_precision.
  destruct (0 <=? e) eqn:H0; [apply Z.leb_le in H0; lia|].
  destruct (Z.abs e <? Z.of_nat (PyDecimal.ndigits c)) eqn:Habs; cbv iota beta.
  - destruct (2 <? Z.of_nat (PyDecimal.ndigits c)); [eauto|].
    destruct (1 <? Z.abs e) eqn:Hp; [eauto|]. apply Z.ltb_ge in Hp. lia.
  - destruct (2 <? Z.abs e); [eauto|].
    destruct (1 <? Z.abs e) eqn:Hp; [eauto|]. apply Z.ltb_ge in Hp. lia.
Qed.

Lemma quantize_accepted sg c e :
  (e = 0 /\ (c < 10)%N) \/ (e = -1 /\ (c < 100)%N) ->
  exists c', PyDecimal.quantize 2 (-1) (PyDecimal.Finite sg c e)
             = Some (PyDecimal.Finite sg c' (-1)) /\ (c' < 100)%N.
Proof.
  intros Hce. unfold PyDecimal.quantize.
  destruct (c =? 0)%N eqn:Hz; [exists 0%N; split; [done|lia]|].
  apply N.eqb_neq in Hz. unfold PyDecimal.adjusted, PyDecimal.Emax.
  destruct Hce as [[-> Hc]|[-> Hc]].
  - rewrite (ndigits_one c Hc). simpl.
    unfold PyDecimal.rescale. simpl. change (10 ^ 1)%N with 10%N.
    rewrite (ndigits_two (c * 10)) by lia. simpl.
    exists (c * 10)%N. split; [done|lia].
  - assert (PyDecimal.ndigits c = 1 \/ PyDecimal.ndigits c = 2)%nat as Hn.
    { destruct (N.lt_ge_cases c 10); [left; by apply ndigits_one|right; apply ndigits_two; lia]. }
    unfold PyDecimal.rescale. simpl. change (10 ^ 0)%N with 1%N. rewrite N.mul_1_r.
    exists c. destruct Hn as [-> | ->]; simpl; (split; [done|lia]).
Qed.

(** An accepted rating is kept with exactly one digit after the point
    and at most two digits in all. *)
Lemma DecimalField_accepts j q :
  DecimalField_to_internal_value 2 1 j = Ok (Ok q) ->
  exists sg c, q = PyDecimal.Finite sg c (-1) /\ (c < 100)%N.
Proof.
  unfold DecimalField_to_internal_value.
  destruct (scalar_str j) as [s|]; [|done]. destruct (_ <? _)%nat; [done|].
  destruct (PyDecimal.of_str _) as [[sg c e| |]|]; try done.
  destruct (validate_precision 2 1 _) as [v|errs] eqn:Hv; [|done].
  apply validate_precision_accepts in Hv as [-> Hce].
  destruct (quantize_accepted sg c e Hce) as (c' & Hq & Hc').
  unfold quantize. change (- (1)) with (-1). rewrite Hq. intros [= <-]. eauto.
Qed.

Lemma DecimalField_two_places j s sg c e :
  scalar_str j = Some s ->
  PyDecimal.of_str (Py.strip s) = Some (PyDecimal.Finite sg c e) ->
  e <= -2 ->
  exists errs, DecimalField_to_internal_value 2 1 j = Ok (Raise errs).
Proof.
  intros Hs Hd He. unfold DecimalField_to_internal_value. rewrite Hs.
  destruct (_ <? _)%nat; [eauto|]. rewrite Hd.
  destruct (validate_precision_two_places sg c e He) as [errs ->]. eauto.
Qed.

Lemma feedback_rating_refused fields j errs :
  dict_get "rating" fields = Some j ->
  DecimalField_to_internal_value UserFeedbackCreateSerializer.max_digits
    UserFeedbackCreateSerializer.decimal_places j = Ok (Raise errs) ->
  exists errors,
    UserFeedbackCreateSerializer.run_validation (JDict fields) = Ok (Raise (DetailDict errors))
    /\ exists e, ("rating", e) ∈ errors.
Proof.
  intros Hj Hd. unfold UserFeedbackCreateSerializer.run_validation. rewrite Hj.
  destruct j; rewrite ?Hd;
    destruct (CharField_run_validation true _), (CharField_run_validation false _);
    simpl; eexists; (split; [reflexivity|]); eexists; solve [repeat constructor].
Qed.

Lemma feedback_rating_accepted data a :
  UserFeedbackCreateSerializer.run_validation data = Ok (Ok a) ->
  exists fields j,
    data = JDict fields /\ dict_get "rating" fields = Some j
    /\ DecimalField_to_internal_value UserFeedbackCreateSerializer.max_digits
         UserFeedbackCreateSerializer.decimal_places j
       = Ok (Ok (UserFeedbackCreateSerializer.rating a)).
Proof.
  unfold UserFeedbackCreateSerializer.run_validation.
  destruct data as [| | | | | |fields]; try done.
  destruct (dict_get "rating" fields) as [j|] eqn:Hj.
  - destruct (DecimalField_to_internal_value _ _ j) as [[v|errs]|x] eqn:Hd.
    + destruct j; try (by destruct (CharField_run_validation true _));
        destruct (CharField_run_validation true _), (CharField_run_validation false _);
        try done; intros [= <-]; eauto.
    + destruct j; by destruct (CharField_run_validation true _).
    + destruct j; try done; by destruct (CharField_run_validation true _).
  - by destruct (CharField_run_validation true _).
Qed.

Lemma create_feedback_refused (u : User) (fields : list (string * json)) now w errors :
  UserFeedbackCreateSerializer.run_validation (JDict fields) = Ok (Raise (DetailDict errors)) ->
  CreateUserFeedbackView.create (Authenticated u) (JDict fields) now w
  = (Respond (mk_response (Errors (DetailDict errors)) HTTP_400_BAD_REQUEST), w).
Proof. intros H. unfold CreateUserFeedbackView.create. by rewrite H. Qed.

(** C6.  The rating is a decimal with one place and two digits.
    A feedback with rating 9.9 is created and stored as 9.9; a rating of
    10.0 is refused with a 400 and nothing changes; so is every rating
    written with two (or more) digits after the point; and whatever the
    request, a stored rating has exactly one digit after the point and
    at most two digits in all. *)
Theorem rating_has_one_decimal_place (u : User) (now : datetime.t) (w : world) :
  (let r := CreateUserFeedbackView.create (Authenticated u)
              (JDict [("category", JStr "ui"); ("rating", JFloat "9.9")]) now w in
   r.1 = Respond
           (mk_response
              (FeedbackData
                 {| UserFeedbackCreateSerializer.category := "ui";
                    UserFeedbackCreateSerializer.rating := PyDecimal.Finite false 99 (-1);
                    UserFeedbackCreateSerializer.feedback_text := None |})
              HTTP_201_CREATED)
   /\ exists row, feedback (db r.2) = feedback (db w) ++ [row]
                  /\ rating row = PyDecimal.Finite false 99 (-1))
  /\ (forall fields,
        dict_get "rating" fields = Some (JFloat "10.0") ->
        exists errors,
          CreateUserFeedbackView.create (Authenticated u) (JDict fields) now w
          = (Respond (mk_response (Errors (DetailDict errors)) HTTP_400_BAD_REQUEST), w))
  /\ (forall fields j s sg c e,
        dict_get "rating" fields = Some j ->
        scalar_str j = Some s ->
        PyDecimal.of_str (Py.strip s) = Some (PyDecimal.Finite sg c e) ->
        e <= -2 ->
        exists errors,
          CreateUserFeedbackView.create (Authenticated u) (JDict fields) now w
          = (Respond (mk_response (Errors (DetailDict errors)) HTTP_400_BAD_REQUEST), w))
  /\ (forall data,
        exists rows,
          feedback (db (CreateUserFeedbackView.create (Authenticated u) data now w).2)
          = feedback (db w) ++ rows
          /\ Forall (fun row => exists sg c,
                       rating row = PyDecimal.Finite sg c (-1) /\ (c < 100)%N) rows).
Proof.
  split; [|split; [|split]].
  - split; [reflexivity|]. eexists. split; reflexivity.
  - intros fields Hj.
    destruct (feedback_rating_refused fields (JFloat "10.0") [Code "max_digits"] Hj)
      as (errors & Hrun & _); [vm_compute; reflexivity|].
    exists errors. by apply create_feedback_refused.
  - intros fields j s sg c e Hj Hs Hd He.
    destruct (DecimalField_two_places j s sg c e Hs Hd He) as [errs Herrs].
    destruct (feedback_rating_refused fields j errs Hj Herrs) as (errors & Hrun & _).
    exists errors. by apply create_feedback_refused.
  - intros data. unfold CreateUserFeedbackView.create.
    destruct (UserFeedbackCreateSerializer.run_validation data) as [[a|det]|x] eqn:Hrun;
      simpl; try (exists []; split; [by rewrite app_nil_r|constructor]).
    apply feedback_rating_accepted in Hrun as (fields & j & _ & _ & Hd).
    apply DecimalField_accepts in Hd as (sg & c & Hq & Hc).
    eexists [_]. split; [reflexivity|]. constructor; [|constructor]. simpl. eauto.
Qed.

Lemma rating_has_one_decimal_place_witness :
  dict_get "rating" [("category", JStr "ui"); ("rating", JFloat "10.0")]
  = Some (JFloat "10.0")
  /\ dict_get "rating" [("category", JStr "ui"); ("rating", JStr "9.95")]
     = Some (JStr "9.95")
  /\ scalar_str (JStr "9.95") = Some "9.95"
  /\ PyDecimal.of_str (Py.strip "9.95") = Some (PyDecimal.Finite false 995 (-2))
  /\ -2 <= -2
  /\ (exists errors,
        CreateUserFeedbackView.create (Authenticated alice)
          (JDict [("category", JStr "ui"); ("rating", JFloat "10.0")]) t_0915 sample_world
        = (Respond (mk_response (Errors (DetailDict errors)) HTTP_400_BAD_REQUEST),
           sample_world))
  /\ (exists errors,
        CreateUserFeedbackView.create (Authenticated alice)
          (JDict [("category", JStr "ui"); ("rating", JStr "9.95")]) t_0915 sample_world
        = (Respond (mk_response (Errors (DetailDict errors)) HTTP_400_BAD_REQUEST),
           sample_world)).
Proof.
  destruct (rating_has_one_decimal_place alice t_0915 sample_world) as (_ & H10 & H2 & _).
  split; [reflexivity|]. split; [reflexivity|]. split; [reflexivity|].
  split; [vm_compute; reflexivity|]. split; [lia|]. split.
  - exact (H10 [("category", JStr "ui"); ("rating", JFloat "10.0")] eq_refl).
  - refine (H2 [("category", JStr "ui"); ("rating", JStr "9.95")] (JStr "9.95") "9.95"
              false 995%N (-2) eq_refl eq_refl _ _); [vm_compute; reflexivity|lia].
Defined.

(** * The rest of the API

    What the handlers compute, how the caches interact, and what the
    create endpoints leave in the database. *)

(** ** Aggregation queries *)

Lemma group_by_snoc rows kv :
  group_by (rows ++ [kv]) = bump kv.1 kv.2 (group_by rows).
Proof. unfold group_by. by rewrite fold_left_app. Qed.

Lemma group_of_bump_eq k v gs :
  group_of k (bump k v gs)
  = Some match group_of k gs with
         | Some g => {| key := k; count := S (count g);
                        total_duration := total_duration g + v |}
         | None => {| key := k; count := 1; total_duration := v |}
         end.
Proof.
  unfold group_of. induction gs as [|g gs IH]; simpl.
  - by rewrite bool_decide_eq_true_2.
  - destruct (String.eqb (key g) k) eqn:Hk.
    + apply String.eqb_eq in Hk. simpl.
      by rewrite !bool_decide_eq_true_2.
    + apply String.eqb_neq in Hk. simpl. by rewrite bool_decide_eq_false_2.
Qed.

Lemma group_of_bump_ne k k' v gs :
  k' <> k -> group_of k' (bump k v gs) = group_of k' gs.
Proof.
  intros Hne. unfold group_of. induction gs as [|g gs IH]; simpl.
  - by rewrite bool_decide_eq_false_2.
  - destruct (String.eqb (key g) k) eqn:Hk.
    + apply String.eqb_eq in Hk. simpl.
      rewrite !bool_decide_eq_false_2; congruence.
    + simpl. by rewrite IH.
Qed.

Lemma bump_keys k v gs :
  key <$> bump k v gs = if bool_decide (k ∈ key <$> gs) then key <$> gs else (key <$> gs) ++ [k].
Proof.
  induction gs as [|g gs IH]; [done|]. cbn [bump].
  destruct (String.eqb (key g) k) eqn:Hk; rewrite !fmap_cons.
  - apply String.eqb_eq in Hk. cbn [key]. rewrite bool_decide_eq_true_2; [by rewrite Hk|].
    rewrite Hk. left.
  - apply String.eqb_neq in Hk. rewrite IH.
    destruct (bool_decide (k ∈ key <$> gs)) eqn:Hin.
    + apply bool_decide_eq_true in Hin. rewrite bool_decide_eq_true_2; [done|by right].
    + apply bool_decide_eq_false in Hin. rewrite bool_decide_eq_false_2; [done|].
      intros [?|?]%elem_of_cons; congruence.
Qed.

Lemma group_by_keys_NoDup rows : NoDup (key <$> group_by rows).
Proof.
  induction rows as [|kv rows IH] using rev_ind; [constructor|].
  rewrite group_by_snoc, bump_keys. case_bool_decide as Hin; [done|].
  apply NoDup_app. split; [done|]. split; [|apply NoDup_singleton].
  intros k Hk ->%list_elem_of_singleton. done.
Qed.

Lemma rows_of_key_snoc k rows kv :
  rows_of_key k (rows ++ [kv])
  = rows_of_key k rows ++ (if bool_decide (kv.1 = k) then [kv] else []).
Proof.
  unfold rows_of_key. rewrite filter_app. f_equal.
  rewrite filter_cons, filter_nil. case_decide; by case_bool_decide.
Qed.

Lemma fold_right_add_app (l1 l2 : list Z) :
  fold_right Z.add 0 (l1 ++ l2) = fold_right Z.add 0 l1 + fold_right Z.add 0 l2.
Proof. induction l1; simpl; lia. Qed.

Lemma rows_of_key_nil k rows : k ∉ rows.*1 -> rows_of_key k rows = [].
Proof.
  intros Hk. unfold rows_of_key. destruct (filter _ rows) as [|x l] eqn:Hf; [done|].
  assert (x ∈ filter (fun kv : string * Z => kv.1 = k) rows) as
    [Hx Hxin]%list_elem_of_filter by (rewrite Hf; left).
  destruct Hk. rewrite <- Hx. by apply list_elem_of_fmap_2.
Qed.

(** [group_by] is the [GROUP BY] of the table. *)
Lemma group_of_group_by k rows :
  group_of k (group_by rows)
  = if bool_decide (k ∈ rows.*1) then Some (expected_group k rows) else None.
Proof.
  induction rows as [|kv rows IH] using rev_ind.
  - rewrite bool_decide_eq_false_2; [reflexivity|]. cbn. apply not_elem_of_nil.
  - rewrite group_by_snoc. destruct (decide (kv.1 = k)) as [<-|Hne].
    + rewrite group_of_bump_eq, IH.
      rewrite (bool_decide_eq_true_2 (kv.1 ∈ (rows ++ [kv]).*1))
        by (rewrite fmap_app; apply elem_of_app; right; left).
      f_equal. unfold expected_group. rewrite rows_of_key_snoc.
      rewrite (bool_decide_eq_true_2 (kv.1 = kv.1)) by done.
      rewrite fmap_app, fold_right_add_app, length_app.
      case_bool_decide as Hin.
      * cbn. f_equal; lia.
      * rewrite (rows_of_key_nil _ _ Hin). cbn. f_equal. lia.
    + rewrite group_of_bump_ne, IH by done.
      assert (k ∈ (rows ++ [kv]).*1 <-> k ∈ rows.*1) as Hiff.
      { rewrite fmap_app, elem_of_app. cbn. rewrite list_elem_of_singleton. split; [|by left].
        intros [?|?]; [done|congruence]. }
      unfold expected_group. rewrite rows_of_key_snoc.
      rewrite (bool_decide_eq_false_2 (kv.1 = k)) by done.
      rewrite app_nil_r. by rewrite (bool_decide_ext _ _ Hiff).
Qed.

Lemma elem_of_group_of gs g :
  NoDup (key <$> gs) -> g ∈ gs <-> group_of (key g) gs = Some g.
Proof.
  unfold group_of. induction gs as [|h gs IH]; simpl.
  - intros _. split; [by intros ?%elem_of_nil|done].
  - intros [Hnot Hnd]%NoDup_cons. case_bool_decide as Hk.
    + split.
      * intros [->|Hin]%elem_of_cons; [done|].
        destruct Hnot. rewrite Hk. by apply list_elem_of_fmap_2.
      * intros [= ->]. left.
    + rewrite <- (IH Hnd). split.
      * intros [->|Hin]%elem_of_cons; done.
      * by right.
Qed.

(** The groups of [group_by] are exactly the expected groups of the
    keys that occur. *)
Lemma elem_of_group_by g rows :
  g ∈ group_by rows <-> key g ∈ rows.*1 /\ g = expected_group (key g) rows.
Proof.
  rewrite (elem_of_group_of _ _ (group_by_keys_NoDup rows)), group_of_group_by.
  destruct (bool_decide (key g ∈ rows.*1)) eqn:Hin.
  - apply bool_decide_eq_true in Hin. split; [intros [= Hg]; by split|].
    intros [_ Hg]. by rewrite <- Hg.
  - apply bool_decide_eq_false in Hin. split; [done|]. by intros [? _].
Qed.

Lemma insert_desc_perm g l : insert_desc g l ≡ₚ g :: l.
Proof.
  induction l as [|h l IH]; simpl; [done|].
  destruct (count h <? count g)%nat; [done|]. rewrite IH. apply Permutation_swap.
Qed.

Lemma order_by_count_desc_perm gs : order_by_count_desc gs ≡ₚ gs.
Proof.
  unfold order_by_count_desc. induction gs as [|g gs IH]; simpl; [done|].
  by rewrite insert_desc_perm, IH.
Qed.

Lemma insert_desc_sorted g l :
  StronglySorted count_ge l -> StronglySorted count_ge (insert_desc g l).
Proof.
  induction 1 as [|h l Hs IH Hall]; simpl.
  - repeat constructor.
  - destruct (count h <? count g)%nat eqn:Hlt.
    + apply Nat.ltb_lt in Hlt. constructor; [by constructor|].
      constructor; [unfold count_ge; lia|].
      eapply Forall_impl; [exact Hall|]. unfold count_ge. intros x. lia.
    + apply Nat.ltb_ge in Hlt. constructor; [done|].
      rewrite insert_desc_perm. by constructor.
Qed.

Lemma order_by_count_desc_sorted gs : StronglySorted count_ge (order_by_count_desc gs).
Proof.
  unfold order_by_count_desc. induction gs as [|g gs IH]; simpl; [constructor|].
  by apply insert_desc_sorted.
Qed.

Lemma rows_of_key_keyed k (f : UserInteraction -> option string) rows :
  rows_of_key k (keyed f rows)
  = (fun row => (k, duration row)) <$> filter (fun row => f row = Some k) rows.
Proof.
  unfold rows_of_key, keyed. induction rows as [|row rows IH]; [done|].
  rewrite (filter_cons (fun row => f row = Some k)).
  change (omap (fun row => (fun n => (n, duration row)) <$> f row) (row :: rows))
    with (match (fun n => (n, duration row)) <$> f row with
          | Some y => y :: omap (fun row => (fun n => (n, duration row)) <$> f row) rows
          | None => omap (fun row => (fun n => (n, duration row)) <$> f row) rows
          end).
  destruct (f row) as [n|] eqn:Hf; cbn [fmap option_fmap option_map].
  - rewrite filter_cons. cbn [fst]. destruct (decide (n = k)) as [->|Hne].
    + rewrite decide_True by done. rewrite fmap_cons. by f_equal.
    + rewrite decide_False by congruence. done.
  - rewrite decide_False by done. done.
Qed.

Lemma elem_of_keyed_keys k (f : UserInteraction -> option string) rows :
  k ∈ (keyed f rows).*1 <-> filter (fun row => f row = Some k) rows <> [].
Proof.
  split.
  - intros [[k' v] [Hk Hin]]%list_elem_of_fmap. cbn in Hk. subst k'. unfold keyed in Hin.
    apply list_elem_of_omap in Hin as (row & Hrow & Hf).
    destruct (f row) as [n|] eqn:Hfr; [|done]. cbn in Hf. injection Hf as -> _.
    intros Hnil. assert (row ∈ filter (fun row => f row = Some k) rows) as Hr
      by (by apply list_elem_of_filter).
    rewrite Hnil in Hr. by apply elem_of_nil in Hr.
  - intros Hne. destruct (filter _ rows) as [|row l] eqn:Hfilter; [done|].
    assert (row ∈ filter (fun row => f row = Some k) rows) as [Hf Hin]%list_elem_of_filter
      by (rewrite Hfilter; left).
    apply list_elem_of_fmap. exists (k, duration row). split; [done|].
    unfold keyed. apply list_elem_of_omap. exists row. split; [done|]. by rewrite Hf.
Qed.

Lemma length_pos_not_nil {A} (l : list A) : (0 < length l)%nat <-> l <> [].
Proof. destruct l; simpl; split; (done || lia). Qed.

(** The groups of a keyed table, in terms of the table's rows. *)
Lemma elem_of_group_by_keyed g (f : UserInteraction -> option string) rows :
  g ∈ group_by (keyed f rows)
  <-> (0 < count g)%nat
      /\ count g = length (filter (fun row => f row = Some (key g)) rows)
      /\ total_duration g
         = fold_right Z.add 0 (duration <$> filter (fun row => f row = Some (key g)) rows).
Proof.
  rewrite elem_of_group_by, elem_of_keyed_keys.
  assert (expected_group (key g) (keyed f rows)
          = {| key := key g;
               count := length (filter (fun row => f row = Some (key g)) rows);
               total_duration :=
                 fold_right Z.add 0
                   (duration <$> filter (fun row => f row = Some (key g)) rows) |}) as ->.
  { unfold expected_group. rewrite rows_of_key_keyed, length_fmap. f_equal.
    by rewrite <- list_fmap_compose. }
  split.
  - intros [Hne ->]. cbn. split; [by apply length_pos_not_nil|done].
  - intros (Hpos & Hc & Ht). split.
    + apply length_pos_not_nil. by rewrite <- Hc.
    + destruct g as [k c t]. cbn in *. by subst.
Qed.

Lemma StronglySorted_app_le {A} (R : A -> A -> Prop) (l1 l2 : list A) x y :
  StronglySorted R (l1 ++ l2) -> x ∈ l1 -> y ∈ l2 -> R x y.
Proof.
  induction l1 as [|a l1 IH]; [by intros _ ?%elem_of_nil|].
  cbn. intros [Hs Hall]%StronglySorted_inv [->|Hx]%elem_of_cons Hy.
  - rewrite Forall_forall in Hall. apply Hall, elem_of_app. by right.
  - by apply IH.
Qed.

Lemma StronglySorted_take {A} (R : A -> A -> Prop) n (l : list A) :
  StronglySorted R l -> StronglySorted R (take n l).
Proof.
  intros Hs. revert n. induction Hs as [|a l Hs IH Hall]; intros [|n]; cbn; try constructor.
  - apply IH.
  - rewrite Forall_forall in *. intros x Hx. apply Hall. eapply subseteq_take, Hx.
Qed.

Lemma elem_of_counts k n gs :
  (k, n) ∈ counts gs <-> exists g, g ∈ gs /\ key g = k /\ count g = n.
Proof.
  unfold counts. rewrite list_elem_of_fmap. split.
  - intros (g & [= -> ->] & Hin). eauto.
  - intros (g & Hin & <- & <-). eauto.
Qed.

Lemma filter_length_le {A} (P : A -> Prop) `{!forall x, Decision (P x)} (l : list A) :
  (length (filter P l) <= length l)%nat.
Proof.
  induction l as [|x l IH]; [done|]. rewrite filter_cons. case_decide; simpl; lia.
Qed.

(** X1.  The statistics report counts what the table holds: the total
    is the number of interaction rows, the 30-day figure is the number
    of rows of the trailing 30-day window (so it never exceeds the
    total), and the breakdown by type lists each interaction type once,
    exactly the types that occur in the window, each with the number of
    its rows there. *)
Theorem statistics_count_the_window_by_type (now : datetime.t) (d : database) :
  let s := UserInteractionStatisticsView.compute now d in
  total_interactions s = length (interactions d)
  /\ interactions_last_30_days s = length (window_rows now d)
  /\ (interactions_last_30_days s <= total_interactions s)%nat
  /\ NoDup (interaction_type_breakdown s).*1
  /\ forall k n,
       (k, n) ∈ interaction_type_breakdown s
       <-> (0 < n)%nat
           /\ n = length (filter (fun row => interaction_type row = k) (window_rows now d)).
Proof.
  cbn. fold (window_rows now d). split; [done|]. split; [done|].
  split; [apply filter_length_le|].
  set (rows := window_rows now d).
  assert ((fun row : UserInteraction => (interaction_type row, duration row)) <$> rows
          = keyed (fun row => Some (interaction_type row)) rows) as Hkeyed.
  { unfold keyed. clearbody rows. induction rows as [|row rows' IH]; [done|].
    cbn. by f_equal. }
  change (map ?f rows) with (f <$> rows). rewrite Hkeyed. split.
  - unfold counts. change (map ?f ?l) with (f <$> l).
    rewrite <- list_fmap_compose.
    assert ((fst ∘ (fun g : group => (key g, count g))) = key) as -> by done.
    apply group_by_keys_NoDup.
  - intros k n. rewrite elem_of_counts. split.
    + intros (g & Hg%elem_of_group_by_keyed & <- & <-).
      destruct Hg as (Hpos & Hc & _). split; [done|]. rewrite Hc.
      f_equal. apply list_filter_iff. intros row. split; congruence.
    + intros [Hpos ->].
      exists {| key := k;
                count := length (filter (fun row => interaction_type row = k) rows);
                total_duration :=
                  fold_right Z.add 0
                    (duration <$> filter (fun row => Some (interaction_type row) = Some k)
                                    rows) |}.
      split; [|done]. apply elem_of_group_by_keyed. cbn.
      assert (filter (fun row => Some (interaction_type row) = Some k) rows
              = filter (fun row => interaction_type row = k) rows) as Heq
        by (apply list_filter_iff; intros row; split; congruence).
      rewrite Heq. done.
Qed.

(** X2.  The feature statistics list each feature name once, most used
    first; a feature is listed exactly when a row of the 30-day window
    refers to it, with the number of those rows and the sum of their
    durations (the average is their quotient). *)
Theorem feature_statistics_are_grouped_and_ordered (now : datetime.t) (d : database) :
  let s := UserInteractionStatisticsView.compute now d in
  StronglySorted count_ge (feature_interaction_stats s)
  /\ NoDup (key <$> feature_interaction_stats s)
  /\ forall g,
       g ∈ feature_interaction_stats s
       <-> (0 < count g)%nat
           /\ count g
              = length (filter (fun row => feature_name_of d row = Some (key g))
                          (window_rows now d))
           /\ total_duration g
              = fold_right Z.add 0
                  (duration <$> filter (fun row => feature_name_of d row = Some (key g))
                                  (window_rows now d)).
Proof.
  cbn. fold (window_rows now d). split; [apply order_by_count_desc_sorted|]. split.
  - rewrite order_by_count_desc_perm. apply group_by_keys_NoDup.
  - intros g. rewrite order_by_count_desc_perm. apply elem_of_group_by_keyed.
Qed.

Lemma counts_sorted gs :
  StronglySorted count_ge gs -> StronglySorted pair_count_ge (counts gs).
Proof.
  unfold counts. induction 1 as [|g l Hs IH Hall]; cbn; constructor; [done|].
  apply Forall_forall. intros [k n] (g' & [= -> ->] & Hin)%list_elem_of_fmap.
  rewrite Forall_forall in Hall. apply (Hall g' Hin).
Qed.

(** X3.  The list of the most active users has at most ten entries,
    most active first, no user twice; each entry gives the number of
    the user's rows in the 30-day window; and a user with rows in the
    window is left out only when ten are listed, each at least as
    active. *)
Theorem top_users_are_the_most_active (now : datetime.t) (d : database) :
  let s := UserInteractionStatisticsView.compute now d in
  let rows_of name := filter (fun row => username_of d row = Some name) (window_rows now d) in
  (length (top_10_active_users s) <= 10)%nat
  /\ StronglySorted pair_count_ge (top_10_active_users s)
  /\ NoDup (top_10_active_users s).*1
  /\ (forall name n, (name, n) ∈ top_10_active_users s ->
                     (0 < n)%nat /\ n = length (rows_of name))
  /\ (forall name, rows_of name <> [] ->
                   (name, length (rows_of name)) ∈ top_10_active_users s
                   \/ (length (top_10_active_users s) = 10%nat
                       /\ forall name' n', (name', n') ∈ top_10_active_users s ->
                                           (length (rows_of name) <= n')%nat)).
Proof.
  cbn zeta. unfold UserInteractionStatisticsView.compute. cbn [top_10_active_users].
  fold (window_rows now d). set (rows := window_rows now d).
  set (sorted := order_by_count_desc (group_by (keyed (username_of d) rows))).
  assert (StronglySorted count_ge sorted) as Hsorted by apply order_by_count_desc_sorted.
  assert (forall g, g ∈ sorted <-> g ∈ group_by (keyed (username_of d) rows)) as Hmem
    by (intros g; unfold sorted; by rewrite order_by_count_desc_perm).
  assert (NoDup (key <$> sorted)) as Hnd
    by (unfold sorted; rewrite order_by_count_desc_perm; apply group_by_keys_NoDup).
  assert (take 10 (counts sorted) = counts (take 10 sorted)) as Htake
    by (unfold counts; change (map ?f ?l) with (f <$> l); by rewrite fmap_take).
  rewrite Htake.
  split; [unfold counts; rewrite length_map, length_take; lia|]. split.
  { by apply counts_sorted, StronglySorted_take. }
  split.
  { unfold counts. change (map ?f ?l) with (f <$> l). rewrite <- list_fmap_compose.
    assert ((fst ∘ (fun g : group => (key g, count g))) = key) as -> by done.
    rewrite fmap_take. rewrite <- (take_drop 10 (key <$> sorted)) in Hnd.
    by apply NoDup_app in Hnd as [? _]. }
  split.
  - intros name n (g & Hin & <- & <-)%elem_of_counts.
    apply subseteq_take, Hmem, elem_of_group_by_keyed in Hin as (Hpos & Hc & _). done.
  - intros name Hne.
    set (g := {| key := name;
                 count := length (filter (fun row => username_of d row = Some name) rows);
                 total_duration :=
                   fold_right Z.add 0
                     (duration <$> filter (fun row => username_of d row = Some name) rows) |}).
    assert (g ∈ sorted) as Hg.
    { apply Hmem, elem_of_group_by_keyed. cbn. split; [by apply length_pos_not_nil|done]. }
    rewrite <- (take_drop 10 sorted) in Hg. apply elem_of_app in Hg as [Hg|Hg].
    + left. apply elem_of_counts. exists g. done.
    + right. split.
      * unfold counts. rewrite length_map, length_take.
        assert (10 < length sorted \/ length sorted <= 10)%nat as [?|Hle] by lia; [lia|].
        rewrite drop_ge in Hg by done. by apply elem_of_nil in Hg.
      * intros name' n' (g' & Hin & <- & <-)%elem_of_counts.
        rewrite <- (take_drop 10 sorted) in Hsorted.
        apply (StronglySorted_app_le count_ge _ _ g' g Hsorted Hin Hg).
Qed.

(** ** The cache namespaces *)

Lemma matches_prefix_pattern (p k : string) :
  Forall literal (list_ascii_of_string p) ->
  cache.matches (p +:+ "*") k = true <-> exists rest, k = p +:+ rest.
Proof.
  intros Hlit. unfold cache.matches. rewrite list_ascii_of_string_app.
  change (list_ascii_of_string "*") with ["*"%char].
  rewrite glob_match_prefix by done. split; intros [rest Hrest].
  - exists (string_of_list_ascii rest).
    apply list_ascii_of_string_inj.
    by rewrite list_ascii_of_string_app, list_ascii_of_string_of_list_ascii.
  - exists (list_ascii_of_string rest). by rewrite Hrest, list_ascii_of_string_app.
Qed.

Lemma matches_analytics_pattern k :
  cache.matches "feedback_analytics_*" k = true <-> exists rest, k = analytics_namespace +:+ rest.
Proof.
  change "feedback_analytics_*"%string with (analytics_namespace +:+ "*").
  apply matches_prefix_pattern. repeat constructor; discriminate.
Qed.

Lemma prefix_clash (p q x y : string) :
  (forall l1 l2, list_ascii_of_string p ++ l1 <> list_ascii_of_string q ++ l2) ->
  p +:+ x <> q +:+ y.
Proof.
  intros Hpq Heq. apply (f_equal list_ascii_of_string) in Heq.
  rewrite !list_ascii_of_string_app in Heq. by eapply Hpq.
Qed.

Lemma stats_key_not_analytics t rest :
  UserInteractionStatisticsView.cache_key t <> analytics_namespace +:+ rest.
Proof. apply prefix_clash. intros l1 l2. cbn. discriminate. Qed.

Lemma by_user_key_not_analytics hash user_id qp rest :
  UserInteractionByUser.cache_key hash user_id qp <> analytics_namespace +:+ rest.
Proof. apply prefix_clash. intros l1 l2. cbn. discriminate. Qed.

Lemma by_user_key_not_stats_namespace hash user_id qp rest :
  UserInteractionByUser.cache_key hash user_id qp <> stats_namespace +:+ rest.
Proof. apply prefix_clash. intros l1 l2. cbn. discriminate. Qed.

Lemma analytics_key_not_stats_namespace t rest :
  UserFeedbackAnalyticsView.cache_key t <> stats_namespace +:+ rest.
Proof. apply prefix_clash. intros l1 l2. cbn. discriminate. Qed.

Lemma delete_pattern_other {V} (c : gmap string (cache.entry V)) pattern k :
  cache.matches pattern k = false -> cache.delete_pattern c pattern !! k = c !! k.
Proof. intros H. by rewrite lookup_delete_pattern, H. Qed.

Lemma not_matches_stats k :
  (forall rest, k <> stats_namespace +:+ rest) ->
  cache.matches "user_interaction_stats_*" k = false.
Proof.
  intros Hk. destruct (cache.matches _ k) eqn:Hm; [|done].
  apply matches_stats_pattern in Hm as [rest ->]. by destruct (Hk rest).
Qed.

Lemma not_matches_analytics k :
  (forall rest, k <> analytics_namespace +:+ rest) ->
  cache.matches "feedback_analytics_*" k = false.
Proof.
  intros Hk. destruct (cache.matches _ k) eqn:Hm; [|done].
  apply matches_analytics_pattern in Hm as [rest ->]. by destruct (Hk rest).
Qed.

(** The store after a bulk request: the purged store on success, the
    old one otherwise. *)
Lemma post_store user data now w :
  store (BulkCreateUserInteractionView.post user data now w).2 = store w
  \/ store (BulkCreateUserInteractionView.post user data now w).2
     = cache.delete_pattern (store w) "user_interaction_stats_*".
Proof.
  unfold BulkCreateUserInteractionView.post. destruct (is_valid _); [|by left].
  destruct (UserInteractionCreateSerializer.save_many _ _ _ _) as [d' [rows|e]];
    [by right|by left].
Qed.

Lemma post_created user data now w r :
  (BulkCreateUserInteractionView.post user data now w).1 = Respond r ->
  status r = HTTP_201_CREATED ->
  store (BulkCreateUserInteractionView.post user data now w).2
  = cache.delete_pattern (store w) "user_interaction_stats_*".
Proof.
  unfold BulkCreateUserInteractionView.post. destruct (is_valid _).
  - destruct (UserInteractionCreateSerializer.save_many _ _ _ _) as [d' [rows|e]]; done.
  - by intros [= <-].
Qed.

Lemma create_feedback_store user data now w :
  store (CreateUserFeedbackView.create user data now w).2 = store w
  \/ store (CreateUserFeedbackView.create user data now w).2
     = cache.delete_pattern (store w) "feedback_analytics_*".
Proof.
  unfold CreateUserFeedbackView.create.
  destruct (UserFeedbackCreateSerializer.run_validation data) as [[a|det]|x]; try by left.
  destruct (UserFeedbackCreateSerializer.create _ _ _ _) as [[d' row]|e]; [by right|by left].
Qed.

Lemma create_feedback_created user data now w r :
  (CreateUserFeedbackView.create user data now w).1 = Respond r ->
  status r = HTTP_201_CREATED ->
  store (CreateUserFeedbackView.create user data now w).2
  = cache.delete_pattern (store w) "feedback_analytics_*".
Proof.
  unfold CreateUserFeedbackView.create.
  destruct (UserFeedbackCreateSerializer.run_validation data) as [[a|det]|x]; try done.
  - destruct (UserFeedbackCreateSerializer.create _ _ _ _) as [[d' row]|e]; done.
  - by intros [= <-].
Qed.

(** X4.  A created bulk payload refreshes the statistics: after a 201,
    the next request for the statistics, at whatever instant, is a
    cache miss; the report is computed from the database as the bulk
    create left it and stored for an hour. *)
Theorem bulk_create_refreshes_the_statistics (user : request_user) (data : json)
    (now now' : datetime.t) (w : world) (r : Response) :
  (BulkCreateUserInteractionView.post user data now w).1 = Respond r ->
  status r = HTTP_201_CREATED ->
  let w' := (BulkCreateUserInteractionView.post user data now w).2 in
  let report := Stats (UserInteractionStatisticsView.compute now' (db w')) in
  UserInteractionStatisticsView.get now' w'
  = (Respond (mk_response report HTTP_200_OK),
     mk_world (db w')
       (cache.set (store w') (UserInteractionStatisticsView.cache_key now') report 3600
          (datetime.to_seconds now'))).
Proof.
  intros Hr Hs w' report. pose proof (post_created user data now w r Hr Hs) as Hstore.
  subst w' report. unfold UserInteractionStatisticsView.get, cache.get. rewrite Hstore.
  assert (cache.delete_pattern (store w) "user_interaction_stats_*"
            !! UserInteractionStatisticsView.cache_key now' = None) as ->
    by apply (delete_pattern_stats_purged (store w) (datetime.strftime_YmdH now')).
  done.
Qed.

(** X5.  A created feedback refreshes the analytics: after a 201, the
    next request for the feedback analytics, at whatever instant,
    computes the report from the new feedback table and stores it for
    an hour. *)
Theorem feedback_create_refreshes_the_analytics (user : request_user) (data : json)
    (now now' : datetime.t) (w : world) (r : Response) :
  (CreateUserFeedbackView.create user data now w).1 = Respond r ->
  status r = HTTP_201_CREATED ->
  let w' := (CreateUserFeedbackView.create user data now w).2 in
  let report := Analytics (UserFeedbackAnalyticsView.compute (db w')) in
  UserFeedbackAnalyticsView.get now' w'
  = (Respond (mk_response report HTTP_200_OK),
     mk_world (db w')
       (cache.set (store w') (UserFeedbackAnalyticsView.cache_key now') report 3600
          (datetime.to_seconds now'))).
Proof.
  intros Hr Hs w' report. pose proof (create_feedback_created user data now w r Hr Hs) as Hstore.
  subst w' report. unfold UserFeedbackAnalyticsView.get, cache.get. rewrite Hstore.
  rewrite lookup_delete_pattern.
  assert (cache.matches "feedback_analytics_*" (UserFeedbackAnalyticsView.cache_key now')
          = true) as -> by (apply matches_analytics_pattern; by eexists).
  done.
Qed.

(** X6.  Each create purges its own cache namespace only.  Whatever
    its outcome, a bulk create leaves the entries of the per-user
    lookups and of the feedback analytics as they were, and a feedback
    create leaves those of the per-user lookups and of the interaction
    statistics. *)
Theorem purges_keep_to_their_namespace (user : request_user) (data : json)
    (now : datetime.t) (w : world) :
  let after_bulk := store (BulkCreateUserInteractionView.post user data now w).2 in
  let after_feedback := store (CreateUserFeedbackView.create user data now w).2 in
  (forall hash user_id qp,
     after_bulk !! UserInteractionByUser.cache_key hash user_id qp
     = store w !! UserInteractionByUser.cache_key hash user_id qp)
  /\ (forall t, after_bulk !! UserFeedbackAnalyticsView.cache_key t
                = store w !! UserFeedbackAnalyticsView.cache_key t)
  /\ (forall hash user_id qp,
        after_feedback !! UserInteractionByUser.cache_key hash user_id qp
        = store w !! UserInteractionByUser.cache_key hash user_id qp)
  /\ (forall t, after_feedback !! UserInteractionStatisticsView.cache_key t
                = store w !! UserInteractionStatisticsView.cache_key t).
Proof.
  cbn zeta. repeat split; intros.
  - destruct (post_store user data now w) as [-> | ->]; [done|].
    apply delete_pattern_other, not_matches_stats. intros rest.
    apply by_user_key_not_stats_namespace.
  - destruct (post_store user data now w) as [-> | ->]; [done|].
    apply delete_pattern_other, not_matches_stats. intros rest.
    apply analytics_key_not_stats_namespace.
  - destruct (create_feedback_store user data now w) as [-> | ->]; [done|].
    apply delete_pattern_other, not_matches_analytics. intros rest.
    apply by_user_key_not_analytics.
  - destruct (create_feedback_store user data now w) as [-> | ->]; [done|].
    apply delete_pattern_other, not_matches_analytics. intros rest.
    apply stats_key_not_analytics.
Qed.

(** X7.  A bulk create does not invalidate the per-user lookups: a
    list cached for a user and still alive is served again after the
    bulk create, unchanged, though the user's rows may have grown. *)
Theorem bulk_create_leaves_user_lookups_stale (user : request_user) (data : json)
    (now now' : datetime.t) (w : world) hash (user_id : Z) (qp : query_params)
    (l : list UserInteractionCreateSerializer.representation) :
  cache.get (store w) (UserInteractionByUser.cache_key hash user_id qp)
    (datetime.to_seconds now') = Some (InteractionList l) ->
  l <> [] ->
  let w' := (BulkCreateUserInteractionView.post user data now w).2 in
  UserInteractionByUser.get hash user_id qp now' w'
  = (Respond (mk_response (InteractionList l) HTTP_200_OK), w').
Proof.
  intros Hget Hne w'. apply nonempty_result_is_served_from_cache; [|done].
  unfold cache.get in *.
  destruct (purges_keep_to_their_namespace user data now w) as (Hkeep & _).
  cbn zeta in Hkeep. unfold w'. by rewrite Hkeep.
Qed.

(** ** User lookups *)

Lemma truthy_str_true v : Py.truthy_str v = true <-> v <> EmptyString.
Proof.
  unfold Py.truthy_str. rewrite negb_true_iff. split.
  - intros H ->. done.
  - intros H. apply String.eqb_neq. done.
Qed.

Lemma truthy_str_false v : Py.truthy_str v = false <-> v = EmptyString.
Proof.
  unfold Py.truthy_str. rewrite negb_false_iff. apply String.eqb_eq.
Qed.

Lemma filter_if_kind {A} (param : option string) (Q : string -> A -> Prop)
    `{!forall v x, Decision (Q v x)} (rows l : list A) :
  UserInteractionByUser.filter_if param (fun v => Ok (filter (Q v) rows)) rows = Ok l ->
  sublist l rows
  /\ forall row, row ∈ l <-> row ∈ rows /\ forall v, param = Some v -> v <> EmptyString -> Q v row.
Proof.
  unfold UserInteractionByUser.filter_if. destruct param as [v|].
  - destruct (Py.truthy_str v) eqn:Hv.
    + intros [= <-]. split; [apply sublist_filter|]. intros row.
      rewrite list_elem_of_filter. apply truthy_str_true in Hv. split.
      * intros [HQ Hin]. split; [done|]. by intros ? [= <-] _.
      * intros [Hin HQ]. split; [|done]. by apply HQ.
    + intros [= <-]. split; [done|]. apply truthy_str_false in Hv. intros row. split.
      * intros Hin. split; [done|]. by intros ? [= <-] ?.
      * by intros [Hin _].
  - intros [= <-]. split; [done|]. intros row. split; [|by intros [? _]].
    intros Hin. split; [done|]. by intros.
Qed.

Lemma filter_if_date {A} (param : option string) (Q : datetime.t -> A -> Prop)
    `{!forall t x, Decision (Q t x)} (rows l : list A) :
  UserInteractionByUser.filter_if param
    (fun v => match to_python_datetime v with
              | Raise e => Raise e
              | Ok t => Ok (filter (Q t) rows)
              end) rows = Ok l ->
  sublist l rows
  /\ forall row, row ∈ l <-> row ∈ rows /\ forall v t, param = Some v -> v <> EmptyString ->
                                                      to_python_datetime v = Ok t -> Q t row.
Proof.
  unfold UserInteractionByUser.filter_if. destruct param as [v|].
  - destruct (Py.truthy_str v) eqn:Hv.
    + destruct (to_python_datetime v) as [t|e] eqn:Hp; [|done].
      intros [= <-]. split; [apply sublist_filter|]. intros row.
      rewrite list_elem_of_filter. apply truthy_str_true in Hv. split.
      * intros [HQ Hin]. split; [done|]. intros ? ? [= <-] _. rewrite Hp. by intros [= <-].
      * intros [Hin HQ]. split; [|done]. by eapply HQ.
    + intros [= <-]. split; [done|]. apply truthy_str_false in Hv. intros row. split.
      * intros Hin. split; [done|]. by intros ? ? [= <-] ?.
      * by intros [Hin _].
  - intros [= <-]. split; [done|]. intros row. split; [|by intros [? _]].
    intros Hin. split; [done|]. by intros.
Qed.



(** X8.  The rows a user lookup lists: when the query gives a list, it
    is the representation, in table order, of exactly the rows that
    belong to the user, have the type asked for, and lie between the
    start and the end date, both bounds included; a parameter that is
    absent or empty filters nothing. *)
Theorem user_lookup_lists_the_wanted_rows (user_id : Z) (qp : query_params) (d : database)
    (l : list UserInteractionCreateSerializer.representation) :
  UserInteractionByUser.query user_id qp d = Ok l ->
  exists rows,
    l = map UserInteractionCreateSerializer.to_representation rows
    /\ sublist rows (interactions d)
    /\ forall row, row ∈ rows <-> row ∈ interactions d /\ wanted user_id qp row.
Proof.
  unfold UserInteractionByUser.query.
  destruct (UserInteractionByUser.filter_if (qp_get "type" qp) _ _) as [r1|] eqn:H1; [|done].
  destruct (UserInteractionByUser.filter_if (qp_get "start_date" qp) _ _) as [r2|] eqn:H2;
    [|done].
  destruct (UserInteractionByUser.filter_if (qp_get "end_date" qp) _ _) as [r3|] eqn:H3;
    [|done].
  intros [= <-]. exists r3. split; [done|].
  apply (filter_if_kind _ (fun v row => interaction_type row = v)) in H1 as [S1 E1].
  apply (filter_if_date _ (fun t row => datetime.to_seconds t
                                        <= datetime.to_seconds (timestamp row)))
    in H2 as [S2 E2].
  apply (filter_if_date _ (fun t row => datetime.to_seconds (timestamp row)
                                        <= datetime.to_seconds t))
    in H3 as [S3 E3].
  split.
  - etrans; [exact S3|]. etrans; [exact S2|]. etrans; [exact S1|]. apply sublist_filter.
  - intros row. rewrite E3, E2, E1, list_elem_of_filter. unfold wanted. tauto.
Qed.


(** X10.  A listed result lives thirty minutes: once a lookup has
    computed a non-empty list, the same lookup gets that list again for
    the next 1800 seconds whatever the database holds by then, and from
    then on it is computed anew. *)
Theorem user_lookup_lives_thirty_minutes hash (user_id : Z) (qp : query_params)
    (now : datetime.t) (w : world)
    (l : list UserInteractionCreateSerializer.representation) :
  if_truthy (cache.get (store w) (UserInteractionByUser.cache_key hash user_id qp)
               (datetime.to_seconds now)) = None ->
  UserInteractionByUser.query user_id qp (db w) = Ok l ->
  l <> [] ->
  let s1 := store (UserInteractionByUser.get hash user_id qp now w).2 in
  forall (later : datetime.t) (d' : database),
    (datetime.to_seconds later < datetime.to_seconds now + 1800 ->
     UserInteractionByUser.get hash user_id qp later (mk_world d' s1)
     = (Respond (mk_response (InteractionList l) HTTP_200_OK), mk_world d' s1))
    /\ (datetime.to_seconds now + 1800 <= datetime.to_seconds later ->
        forall l', UserInteractionByUser.query user_id qp d' = Ok l' ->
                   (UserInteractionByUser.get hash user_id qp later (mk_world d' s1)).1
                   = Respond (mk_response (InteractionList l') HTTP_200_OK)).
Proof.
  intros Hmiss Hq Hne s1 later d'.
  assert (s1 = cache.set (store w) (UserInteractionByUser.cache_key hash user_id qp)
                 (InteractionList l) 1800 (datetime.to_seconds now)) as ->.
  { unfold s1, UserInteractionByUser.get. by rewrite Hmiss, Hq. }
  split.
  - intros Hlt. apply nonempty_result_is_served_from_cache; [|done].
    unfold cache.get, cache.set. cbn [store]. rewrite lookup_insert_eq. cbn.
    by rewrite (proj2 (Z.ltb_lt _ _) Hlt).
  - intros Hge l' Hq'. unfold UserInteractionByUser.get.
    unfold cache.get at 1. unfold cache.set at 1. cbn [store]. rewrite lookup_insert_eq. cbn.
    rewrite (proj2 (Z.ltb_ge _ _) Hge). cbn. by rewrite Hq'.
Qed.

Lemma string_of_uint_digits (d : Decimal.uint) :
  "_"%char ∉ list_ascii_of_string (NilEmpty.string_of_uint d).
Proof.
  induction d; cbn; try apply not_elem_of_nil;
    (intros [Hc|Hin]%elem_of_cons; [discriminate|done]).
Qed.

Lemma str_int_no_underscore (z : Z) : "_"%char ∉ list_ascii_of_string (Py.str_int z).
Proof.
  unfold Py.str_int, NilZero.string_of_int, NilZero.string_of_uint.
  destruct (Z.to_int z) as [d|d].
  - destruct d; try apply string_of_uint_digits.
    cbn. intros [Hc|Hin]%elem_of_cons; [discriminate|by apply elem_of_nil in Hin].
  - cbn [list_ascii_of_string]. intros [Hc|Hin]%elem_of_cons; [discriminate|]. revert Hin.
    destruct d; try apply string_of_uint_digits.
    cbn. intros [Hc|Hin]%elem_of_cons; [discriminate|by apply elem_of_nil in Hin].
Qed.

Lemma to_int_not_nil (z : Z) :
  Z.to_int z <> Decimal.Pos Decimal.Nil /\ Z.to_int z <> Decimal.Neg Decimal.Nil.
Proof.
  split; intros H; pose proof (f_equal Z.of_int H) as H'; rewrite DecimalZ.of_to in H';
    cbn in H'; subst z; discriminate.
Qed.

Lemma str_int_inj (a b : Z) : Py.str_int a = Py.str_int b -> a = b.
Proof.
  unfold Py.str_int. intros H. apply (f_equal NilZero.int_of_string) in H.
  destruct (to_int_not_nil a), (to_int_not_nil b).
  rewrite !NilZero.isi in H by done. injection H as H. by apply DecimalZ.to_int_inj.
Qed.

Lemma split_at_mark {A} (x : A) (a a' b b' : list A) :
  x ∉ a -> x ∉ a' -> a ++ x :: b = a' ++ x :: b' -> a = a' /\ b = b'.
Proof.
  revert a'. induction a as [|h a IH]; intros [|h' a'] Ha Ha'; cbn.
  - by intros [= ->].
  - intros [= <- _]. destruct Ha'. left.
  - intros [= -> _]. destruct Ha. left.
  - intros [= -> Heq]. destruct (IH a') as [-> ->]; [| |done|done].
    + intros Hin. apply Ha. by right.
    + intros Hin. apply Ha'. by right.
Qed.

(** X11.  Two lookups share a cache entry exactly when they are for the
    same user and their query parameters hash alike: an entry is never
    shared between two users. *)
Theorem user_lookup_entries_are_per_user hash (u1 u2 : Z) (qp1 qp2 : query_params) :
  UserInteractionByUser.cache_key hash u1 qp1 = UserInteractionByUser.cache_key hash u2 qp2
  <-> u1 = u2 /\ hash (qp_items qp1) = hash (qp_items qp2).
Proof.
  unfold UserInteractionByUser.cache_key. split; [|by intros [-> ->]].
  intros H%string_app_inj_prefix. apply (f_equal list_ascii_of_string) in H.
  rewrite !list_ascii_of_string_app in H. cbn [list_ascii_of_string app] in H.
  apply split_at_mark in H as [H1 H2]; try apply str_int_no_underscore.
  apply list_ascii_of_string_inj in H1, H2. split; by apply str_int_inj.
Qed.

(** ** The create endpoints *)

Lemma validated_authenticated u d (vs : list UserInteractionCreateSerializer.validated) :
  Forall (fun v => exists item,
            UserInteractionCreateSerializer.run_validation (Authenticated u) d item = Ok v) vs ->
  exists l,
    Forall2 (fun v a => v = UserInteractionCreateSerializer.Attrs a) vs l
    /\ Forall (fun a => Feature_filter_name d (UserInteractionCreateSerializer.feature_name a)
                        <> []) l.
Proof.
  induction 1 as [|v vs (item & Hv) _ (l & Hl & Hf)]; [by exists []|].
  apply run_validation_authenticated in Hv as (a & -> & _ & Ha).
  exists (a :: l). split; by constructor.
Qed.

(** X12.  For an authenticated caller and whatever the body, a bulk
    request never fails: it is answered 201, with the count of the rows
    appended and the statistics namespace purged, or 400 with the
    database and the cache as they were. *)
Theorem bulk_create_is_whole_or_refused (u : User) (data : json) (now : datetime.t)
    (w : world) :
  unique_feature_names (db w) ->
  let r := BulkCreateUserInteractionView.post (Authenticated u) data now w in
  (exists rows,
     r.1 = Respond
             (mk_response
                (MessageDict (Py.str_nat (length rows)
                              +:+ " interactions created successfully"))
                HTTP_201_CREATED)
     /\ extends_interactions (db w) (db r.2) rows
     /\ store r.2 = cache.delete_pattern (store w) "user_interaction_stats_*")
  \/ (exists report, r = (Respond (mk_response (ListErrors report) HTTP_400_BAD_REQUEST), w)).
Proof.
  intros Hu r. subst r. unfold BulkCreateUserInteractionView.post.
  pose proof (list_validate_sound
                (UserInteractionCreateSerializer.run_validation (Authenticated u) (db w)) data)
    as Hsound.
  destruct (is_valid _); [|right; eauto]. left.
  apply validated_authenticated in Hsound as (l & Hl & Hf).
  unfold UserInteractionCreateSerializer.save_many.
  rewrite (copy_all_attrs _ _ Hl).
  destruct (create_all_succeeds u now l (db w) Hu Hf) as [rows Hrows].
  destruct (create_all_appends u now l (db w)) as (rows' & Hext & _ & Hlen).
  destruct (Hlen rows Hrows) as [<- Hlen'].
  destruct (UserInteractionCreateSerializer.create_all _ now (db w) l) as [d' res].
  simpl in Hrows, Hext. subst res. exists rows. simpl.
  split; [|done]. by rewrite Hlen', <- (Forall2_length _ _ _ Hl).
Qed.

Lemma DecimalField_never_fails j :
  exists r, DecimalField_to_internal_value 2 1 j = Ok r.
Proof.
  unfold DecimalField_to_internal_value.
  destruct (scalar_str j) as [s|]; [|eauto]. destruct (_ <? _)%nat; [eauto|].
  destruct (PyDecimal.of_str _) as [[sg c e| |]|]; eauto.
  destruct (validate_precision 2 1 _) as [v|errs] eqn:Hv; [|eauto].
  apply validate_precision_accepts in Hv as [-> Hce].
  destruct (quantize_accepted sg c e Hce) as (c' & Hq & Hc').
  unfold quantize. change (- (1)) with (-1). rewrite Hq. eauto.
Qed.

Lemma feedback_run_validation_never_fails data :
  exists r, UserFeedbackCreateSerializer.run_validation data = Ok r.
Proof.
  unfold UserFeedbackCreateSerializer.run_validation.
  destruct data as [| | | | | |fields]; eauto.
  destruct (dict_get "rating" fields) as [j|].
  - destruct (DecimalField_never_fails j) as [[v|errs] Hd].
    + change UserFeedbackCreateSerializer.max_digits with 2.
      change UserFeedbackCreateSerializer.decimal_places with 1.
      destruct j; rewrite ?Hd;
        destruct (CharField_run_validation true _), (CharField_run_validation false _); eauto.
    + change UserFeedbackCreateSerializer.max_digits with 2.
      change UserFeedbackCreateSerializer.decimal_places with 1.
      destruct j; rewrite ?Hd;
        destruct (CharField_run_validation true _), (CharField_run_validation false _); eauto.
  - destruct (CharField_run_validation true _), (CharField_run_validation false _); eauto.
Qed.

(** X13.  For an authenticated caller and whatever the body, a feedback
    request never fails: it is answered 201, one row of the caller
    stamped with the instant of the request being appended to the
    feedback table, the other tables untouched and the analytics
    namespace purged; or 400 with nothing changed. *)
Theorem feedback_create_is_created_or_refused (u : User) (data : json) (now : datetime.t)
    (w : world) :
  let r := CreateUserFeedbackView.create (Authenticated u) data now w in
  (exists row,
     r.1 = Respond
             (mk_response
                (FeedbackData (UserFeedbackCreateSerializer.to_representation row))
                HTTP_201_CREATED)
     /\ feedback (db r.2) = feedback (db w) ++ [row]
     /\ feedback_user row = user_pk u /\ feedback_timestamp row = now
     /\ users (db r.2) = users (db w) /\ features (db r.2) = features (db w)
     /\ interactions (db r.2) = interactions (db w)
     /\ store r.2 = cache.delete_pattern (store w) "feedback_analytics_*")
  \/ (exists errors, r = (Respond (mk_response (Errors errors) HTTP_400_BAD_REQUEST), w)).
Proof.
  intros r. subst r. unfold CreateUserFeedbackView.create.
  destruct (feedback_run_validation_never_fails data) as [[a|det] ->]; [|right; eauto].
  left. simpl. eexists. repeat split.
Qed.

Lemma create_all_representation u now l d :
  unique_feature_names d ->
  Forall (fun a => Feature_filter_name d (UserInteractionCreateSerializer.feature_name a) <> []) l ->
  exists d' rows,
    UserInteractionCreateSerializer.create_all (Authenticated u) now d l = (d', Ok rows)
    /\ interactions d' = interactions d ++ rows
    /\ UserInteractionCreateSerializer.to_representation <$> rows = representation_of <$> l
    /\ Forall (fun row => user row = user_pk u) rows.
Proof.
  revert d. induction l as [|a l IH]; intros d Hu Hl; simpl.
  - exists d, []. by rewrite app_nil_r.
  - apply Forall_cons in Hl as [Ha Hl].
    destruct (create_exists u now d a Hu Ha) as (d1 & row & Hc). rewrite Hc.
    pose proof Hc as Hc'. apply create_ok in Hc' as [(_ & Hf & _ & _ & Hi) (Hru & _)].
    assert (UserInteractionCreateSerializer.to_representation row = representation_of a) as Hrep.
    { revert Hc. unfold UserInteractionCreateSerializer.create.
      destruct (Feature_get_name d _) as [f|]; [|done]. simpl. by intros [= _ <-]. }
    destruct (IH d1) as (d' & rows & Hall & Hrows & Hreps & Hus).
    + unfold unique_feature_names. by rewrite Hf.
    + eapply Forall_impl; [exact Hl|]. intros a'. unfold Feature_filter_name. by rewrite Hf.
    + rewrite Hall. exists d', (row :: rows). split; [done|]. split.
      * rewrite Hrows, Hi. by rewrite <- app_assoc.
      * split; [by rewrite !fmap_cons, Hrep, Hreps|by constructor].
Qed.

Lemma query_all user_id d :
  UserInteractionByUser.query user_id [] d
  = Ok (UserInteractionCreateSerializer.to_representation
        <$> filter (fun row => user row = user_id) (interactions d)).
Proof. done. Qed.

(** X14.  What a bulk request creates is what the caller's list gains:
    after a payload of valid items the unfiltered query for the caller
    gives the former list followed by one entry per item, in payload
    order, with the item's type and duration and its metadata (null
    when absent). *)
Theorem bulk_created_rows_are_listed (u : User) (items : list json) (now : datetime.t)
    (w : world) (l : list UserInteractionCreateSerializer.attrs) :
  unique_feature_names (db w) ->
  Forall2 (fun item a =>
             UserInteractionCreateSerializer.run_validation (Authenticated u) (db w) item
             = Ok (UserInteractionCreateSerializer.Attrs a)) items l ->
  let w' := (BulkCreateUserInteractionView.post (Authenticated u) (JList items) now w).2 in
  exists old,
    UserInteractionByUser.query (user_pk u) [] (db w) = Ok old
    /\ UserInteractionByUser.query (user_pk u) [] (db w')
       = Ok (old ++ (representation_of <$> l)).
Proof.
  intros Hu Hl w'. eexists. split; [apply query_all|]. rewrite query_all. f_equal.
  assert (Forall (fun a => Feature_filter_name (db w)
                             (UserInteractionCreateSerializer.feature_name a) <> []) l) as Hf.
  { clear -Hl. induction Hl as [|item a items l Hv _ IH]; constructor; [|done].
    by apply run_validation_authenticated in Hv as (a' & [= <-] & _ & ?). }
  destruct (create_all_representation u now l (db w) Hu Hf)
    as (d' & rows & Hall & Hrows & Hreps & Hus).
  assert (db w' = d') as ->.
  { unfold w', BulkCreateUserInteractionView.post.
    assert (Forall2 (fun item v =>
                       UserInteractionCreateSerializer.run_validation (Authenticated u) (db w)
                         item = Ok v) items (UserInteractionCreateSerializer.Attrs <$> l))
      as Hvs by (by apply Forall2_fmap_r).
    apply validate_items_ok in Hvs as [Hvs Herrs].
    unfold list_validate, list_run_validation.
    destruct (validate_items _ items) as [ret errs]. simpl in Hvs, Herrs. subst ret.
    rewrite Herrs. cbn [is_valid errors validated_data].
    unfold UserInteractionCreateSerializer.save_many.
    rewrite (copy_all_attrs (UserInteractionCreateSerializer.Attrs <$> l) l)
      by (by apply Forall2_fmap_l, Forall_Forall2_diag, Forall_true).
    by rewrite Hall. }
  rewrite Hrows, filter_app, fmap_app. f_equal. rewrite <- Hreps. f_equal.
  clear -Hus. induction Hus as [|row rows Hrow _ IH]; [done|].
  rewrite filter_cons, decide_True by done. by f_equal.
Qed.





(** ** Feedback analytics *)

Lemma summary_snoc rows row :
  fold_left (fun acc row => UserFeedbackAnalyticsView.bump_category row acc) (rows ++ [row]) []
  = UserFeedbackAnalyticsView.bump_category row
      (fold_left (fun acc row => UserFeedbackAnalyticsView.bump_category row acc) rows []).
Proof. by rewrite fold_left_app. Qed.

Lemma summary_of_bump_eq row gs :
  summary_of (category row) (UserFeedbackAnalyticsView.bump_category row gs)
  = Some match summary_of (category row) gs with
         | Some g => {| summary_category := category row;
                        total_feedbacks := S (total_feedbacks g);
                        ratings := ratings g ++ [rating row] |}
         | None => {| summary_category := category row; total_feedbacks := 1;
                      ratings := [rating row] |}
         end.
Proof.
  unfold summary_of. induction gs as [|g gs IH]; simpl.
  - by rewrite bool_decide_eq_true_2.
  - destruct (String.eqb (summary_category g) (category row)) eqn:Hk.
    + apply String.eqb_eq in Hk. simpl.
      rewrite !bool_decide_eq_true_2 by done. by rewrite Hk.
    + apply String.eqb_neq in Hk. simpl. by rewrite bool_decide_eq_false_2.
Qed.

Lemma summary_of_bump_ne row k gs :
  k <> category row ->
  summary_of k (UserFeedbackAnalyticsView.bump_category row gs) = summary_of k gs.
Proof.
  intros Hne. unfold summary_of. induction gs as [|g gs IH]; simpl.
  - by rewrite bool_decide_eq_false_2.
  - destruct (String.eqb (summary_category g) (category row)) eqn:Hk.
    + apply String.eqb_eq in Hk. simpl.
      rewrite !bool_decide_eq_false_2; congruence.
    + simpl. by rewrite IH.
Qed.

Lemma bump_category_keys row gs :
  summary_category <$> UserFeedbackAnalyticsView.bump_category row gs
  = if bool_decide (category row ∈ summary_category <$> gs)
    then summary_category <$> gs else (summary_category <$> gs) ++ [category row].
Proof.
  induction gs as [|g gs IH]; [done|]. cbn [UserFeedbackAnalyticsView.bump_category].
  destruct (String.eqb (summary_category g) (category row)) eqn:Hk; rewrite !fmap_cons.
  - apply String.eqb_eq in Hk. cbn [summary_category].
    rewrite bool_decide_eq_true_2; [done|]. rewrite Hk. left.
  - apply String.eqb_neq in Hk. rewrite IH.
    destruct (bool_decide (category row ∈ summary_category <$> gs)) eqn:Hin.
    + apply bool_decide_eq_true in Hin. rewrite bool_decide_eq_true_2; [done|by right].
    + apply bool_decide_eq_false in Hin. rewrite bool_decide_eq_false_2; [done|].
      intros [?|?]%elem_of_cons; congruence.
Qed.

Lemma summary_keys_NoDup rows :
  NoDup (summary_category
         <$> fold_left (fun acc row => UserFeedbackAnalyticsView.bump_category row acc) rows []).
Proof.
  induction rows as [|row rows IH] using rev_ind; [constructor|].
  rewrite summary_snoc, bump_category_keys. case_bool_decide as Hin; [done|].
  apply NoDup_app. split; [done|]. split; [|apply NoDup_singleton].
  intros k Hk ->%list_elem_of_singleton. done.
Qed.

Lemma feedback_of_snoc k rows row :
  feedback_of k (rows ++ [row])
  = feedback_of k rows ++ (if bool_decide (category row = k) then [row] else []).
Proof.
  unfold feedback_of. rewrite filter_app. f_equal.
  rewrite filter_cons, filter_nil. case_decide; by case_bool_decide.
Qed.

Lemma feedback_of_nil k rows : k ∉ category <$> rows -> feedback_of k rows = [].
Proof.
  intros Hk. unfold feedback_of. destruct (filter _ rows) as [|x l] eqn:Hf; [done|].
  assert (x ∈ filter (fun row : UserFeedback => category row = k) rows) as
    [Hx Hxin]%list_elem_of_filter by (rewrite Hf; left).
  destruct Hk. rewrite <- Hx. by apply list_elem_of_fmap_2.
Qed.

Lemma summary_of_summary k rows :
  summary_of k (fold_left (fun acc row => UserFeedbackAnalyticsView.bump_category row acc)
                  rows [])
  = if bool_decide (k ∈ category <$> rows) then Some (expected_summary k rows) else None.
Proof.
  induction rows as [|row rows IH] using rev_ind.
  - rewrite bool_decide_eq_false_2; [reflexivity|]. cbn. apply not_elem_of_nil.
  - rewrite summary_snoc. destruct (decide (category row = k)) as [<-|Hne].
    + rewrite summary_of_bump_eq, IH.
      rewrite (bool_decide_eq_true_2 (category row ∈ category <$> rows ++ [row]))
        by (rewrite fmap_app; apply elem_of_app; right; left).
      f_equal. unfold expected_summary. rewrite feedback_of_snoc.
      rewrite (bool_decide_eq_true_2 (category row = category row)) by done.
      rewrite fmap_app, length_app.
      case_bool_decide as Hin.
      * cbn. f_equal; lia.
      * rewrite (feedback_of_nil _ _ Hin). cbn. done.
    + rewrite summary_of_bump_ne, IH by done.
      assert (k ∈ category <$> rows ++ [row] <-> k ∈ category <$> rows) as Hiff.
      { rewrite fmap_app, elem_of_app. cbn. rewrite list_elem_of_singleton. split; [|by left].
        intros [?|?]; [done|congruence]. }
      unfold expected_summary. rewrite feedback_of_snoc.
      rewrite (bool_decide_eq_false_2 (category row = k)) by done.
      rewrite app_nil_r. by rewrite (bool_decide_ext _ _ Hiff).
Qed.

Lemma elem_of_summary_of gs g :
  NoDup (summary_category <$> gs) -> g ∈ gs <-> summary_of (summary_category g) gs = Some g.
Proof.
  unfold summary_of. induction gs as [|h gs IH]; simpl.
  - intros _. split; [by intros ?%elem_of_nil|done].
  - intros [Hnot Hnd]%NoDup_cons. case_bool_decide as Hk.
    + split.
      * intros [->|Hin]%elem_of_cons; [done|].
        destruct Hnot. rewrite Hk. by apply list_elem_of_fmap_2.
      * intros [= ->]. left.
    + rewrite <- (IH Hnd). split.
      * intros [->|Hin]%elem_of_cons; done.
      * by right.
Qed.

Lemma insert_recent_perm row l : UserFeedbackAnalyticsView.insert_recent row l ≡ₚ row :: l.
Proof.
  induction l as [|h l IH]; simpl; [done|].
  destruct (_ <? _); [done|]. rewrite IH. apply Permutation_swap.
Qed.

Lemma recent_perm rows : fold_right UserFeedbackAnalyticsView.insert_recent [] rows ≡ₚ rows.
Proof.
  induction rows as [|row rows IH]; simpl; [done|]. by rewrite insert_recent_perm, IH.
Qed.

Lemma insert_recent_sorted row l :
  StronglySorted not_older l ->
  StronglySorted not_older (UserFeedbackAnalyticsView.insert_recent row l).
Proof.
  induction 1 as [|h l Hs IH Hall]; simpl.
  - repeat constructor.
  - destruct (_ <? _) eqn:Hlt.
    + apply Z.ltb_lt in Hlt. constructor; [by constructor|].
      constructor; [unfold not_older; lia|].
      eapply Forall_impl; [exact Hall|]. unfold not_older. intros x. lia.
    + apply Z.ltb_ge in Hlt. constructor; [done|].
      rewrite insert_recent_perm. by constructor.
Qed.

Lemma recent_sorted rows :
  StronglySorted not_older (fold_right UserFeedbackAnalyticsView.insert_recent [] rows).
Proof.
  induction rows as [|row rows IH]; simpl; [constructor|]. by apply insert_recent_sorted.
Qed.

(** X16.  The feedback report.  The summary lists each category once,
    exactly the categories that occur in the feedback table, each with
    the number of its rows and their ratings.  The recent feedback is
    the ten newest rows (all rows when there are fewer), newest first:
    every row left out is not newer than any row listed. *)
Theorem feedback_analytics_summarise_the_table (d : database) :
  let a := UserFeedbackAnalyticsView.compute d in
  NoDup (summary_category <$> feedback_summary a)
  /\ (forall g, g ∈ feedback_summary a
                <-> (0 < total_feedbacks g)%nat
                    /\ g = expected_summary (summary_category g) (feedback d))
  /\ length (recent_feedback a) = Nat.min 10 (length (feedback d))
  /\ StronglySorted not_older (recent_feedback a)
  /\ recent_feedback a ⊆ feedback d
  /\ (forall row, row ∈ feedback d ->
                  row ∈ recent_feedback a
                  \/ Forall (fun listed => not_older listed row) (recent_feedback a)).
Proof.
  cbn zeta. unfold UserFeedbackAnalyticsView.compute.
  cbn [feedback_summary recent_feedback].
  set (sorted := fold_right UserFeedbackAnalyticsView.insert_recent [] (feedback d)).
  assert (sorted ≡ₚ feedback d) as Hperm by apply recent_perm.
  assert (StronglySorted not_older sorted) as Hsorted by apply recent_sorted.
  split; [apply summary_keys_NoDup|]. split.
  - intros g. rewrite (elem_of_summary_of _ _ (summary_keys_NoDup (feedback d))).
    rewrite summary_of_summary.
    destruct (bool_decide (summary_category g ∈ category <$> feedback d)) eqn:Hin.
    + apply bool_decide_eq_true in Hin. split.
      * intros [= Hg]. split; [|done]. rewrite <- Hg. cbn.
        apply length_pos_not_nil. intros Hnil.
        apply list_elem_of_fmap in Hin as (row & Hc & Hrow).
        assert (row ∈ feedback_of (summary_category g) (feedback d)) as Hr
          by (by apply list_elem_of_filter).
        rewrite Hnil in Hr. by apply elem_of_nil in Hr.
      * intros [_ Hg]. by rewrite <- Hg.
    + apply bool_decide_eq_false in Hin. split; [done|].
      intros [Hpos Hg]. rewrite Hg in Hpos. cbn in Hpos.
      rewrite (feedback_of_nil _ _ Hin) in Hpos. cbn in Hpos. lia.
  - split; [by rewrite length_take, Hperm|].
    split; [by apply StronglySorted_take|].
    split.
    + intros row Hrow%subseteq_take. by rewrite <- Hperm.
    + intros row Hrow. rewrite <- Hperm, <- (take_drop 10 sorted) in Hrow.
      apply elem_of_app in Hrow as [Hrow|Hrow]; [by left|]. right.
      apply Forall_forall. intros listed Hlisted.
      rewrite <- (take_drop 10 sorted) in Hsorted.
      apply (StronglySorted_app_le not_older _ _ listed row Hsorted Hlisted Hrow).
Qed.

Lemma analytics_key_same_hour (a b : datetime.t) :
  datetime.valid a = true -> datetime.valid b = true ->
  UserFeedbackAnalyticsView.cache_key a = UserFeedbackAnalyticsView.cache_key b
  <-> datetime.same_hour a b.
Proof.
  intros Ha Hb. unfold UserFeedbackAnalyticsView.cache_key. split.
  - intros H%string_app_inj_prefix. by apply strftime_inj.
  - intros H. by rewrite (strftime_same_hour a b).
Qed.

Lemma by_user_key_not_analytics_key hash user_id qp t :
  UserInteractionByUser.cache_key hash user_id qp <> UserFeedbackAnalyticsView.cache_key t.
Proof.
  unfold UserInteractionByUser.cache_key, UserFeedbackAnalyticsView.cache_key.
  intros H. apply (f_equal list_ascii_of_string) in H.
  rewrite !list_ascii_of_string_app in H. simpl in H. discriminate.
Qed.

Lemma analytics_entries_ok_delete_pattern c pattern :
  analytics_entries_ok c -> analytics_entries_ok (cache.delete_pattern c pattern).
Proof. intros Hok t e Ht He. apply (Hok t e Ht). by eapply delete_pattern_subseteq. Qed.

Lemma analytics_entries_ok_set_other c key v timeout now :
  (forall t, key <> UserFeedbackAnalyticsView.cache_key t) ->
  analytics_entries_ok c -> analytics_entries_ok (cache.set c key v timeout now).
Proof.
  intros Hkey Hok t e Ht. unfold cache.set. rewrite lookup_insert_ne by apply Hkey.
  by apply Hok.
Qed.

Lemma analytics_entries_ok_set c now a :
  datetime.valid now = true ->
  analytics_entries_ok c ->
  analytics_entries_ok
    (cache.set c (UserFeedbackAnalyticsView.cache_key now) (Analytics a) 3600
       (datetime.to_seconds now)).
Proof.
  intros Hnow Hok t e Ht. unfold cache.set.
  destruct (decide (UserFeedbackAnalyticsView.cache_key now
                    = UserFeedbackAnalyticsView.cache_key t)) as [Heq|Hne].
  - rewrite Heq, lookup_insert_eq. intros [= <-]. simpl. split; [done|].
    apply same_hour_seconds; [done..|]. by apply analytics_key_same_hour.
  - rewrite lookup_insert_ne by done. by apply Hok.
Qed.

Lemma step_analytics_entries_ok w w' :
  step w w' -> analytics_entries_ok (store w) -> analytics_entries_ok (store w').
Proof.
  intros Hstep Hok. destruct Hstep as [now w Hnow|user data now w Hnow
    |hash user_id qp now w Hnow|now w Hnow|user data now w Hnow|d w].
  - unfold UserInteractionStatisticsView.get. destruct (if_truthy _); [done|].
    apply analytics_entries_ok_set_other; [|done]. intros t Heq.
    by apply (analytics_key_not_stats t now).
  - unfold BulkCreateUserInteractionView.post. destruct (is_valid _); [|done].
    destruct (UserInteractionCreateSerializer.save_many _ _ _ _) as [d' [rows|e]];
      [|done]. by apply analytics_entries_ok_delete_pattern.
  - unfold UserInteractionByUser.get. destruct (if_truthy _); [done|].
    destruct (UserInteractionByUser.query _ _ _) as [l|e] eqn:Hq.
    + apply analytics_entries_ok_set_other; [|done]. intros t.
      apply by_user_key_not_analytics_key.
    + by apply query_raises in Hq as [m ->].
  - unfold UserFeedbackAnalyticsView.get. destruct (if_truthy _); [done|].
    by apply analytics_entries_ok_set.
  - unfold CreateUserFeedbackView.create.
    destruct (UserFeedbackCreateSerializer.run_validation data) as [[a|det]|x]; [|done..].
    destruct (UserFeedbackCreateSerializer.create _ _ _ _) as [[d' row]|e]; [|done].
    by apply analytics_entries_ok_delete_pattern.
  - done.
Qed.

Lemma reachable_analytics_entries_ok w : reachable w -> analytics_entries_ok (store w).
Proof.
  induction 1 as [d|w w' _ IH Hstep].
  - intros t e _ H. cbn in H. by rewrite lookup_empty in H.
  - by eapply step_analytics_entries_ok.
Qed.

(** X17.  The feedback analytics are cached by the hour: within one
    clock hour the second request gets the response of the first,
    whatever the feedback table holds by then, and the cache is not
    written. *)
Theorem analytics_are_cached_by_the_hour (w : world) (t1 t2 : datetime.t) (d2 : database) :
  reachable w ->
  datetime.valid t1 = true -> datetime.valid t2 = true ->
  datetime.same_hour t1 t2 ->
  let r1 := UserFeedbackAnalyticsView.get t1 w in
  UserFeedbackAnalyticsView.get t2 (mk_world d2 (store r1.2))
  = (r1.1, mk_world d2 (store r1.2)).
Proof.
  intros Hreach Ht1 Ht2 Hsame r1.
  pose proof (reachable_analytics_entries_ok w Hreach) as Hok.
  pose proof (proj2 (analytics_key_same_hour t1 t2 Ht1 Ht2) Hsame) as Hkey.
  subst r1. unfold UserFeedbackAnalyticsView.get at 2 3.
  unfold UserFeedbackAnalyticsView.get. rewrite <- Hkey.
  destruct (if_truthy (cache.get (store w) _ (datetime.to_seconds t1)))
    as [cached|] eqn:Hhit; simpl.
  - unfold if_truthy, cache.get in Hhit.
    destruct (store w !! UserFeedbackAnalyticsView.cache_key t1) as [e|] eqn:He;
      [|done].
    destruct (Hok t2 e Ht2) as [Htrue Hlive]; [by rewrite <- Hkey|].
    unfold cache.get. rewrite He.
    destruct (datetime.to_seconds t1 <? cache.expires e); [|done].
    rewrite Htrue in Hhit. injection Hhit as <-.
    rewrite (proj2 (Z.ltb_lt _ _) Hlive). simpl. by rewrite Htrue.
  - unfold cache.get, cache.set. rewrite lookup_insert_eq. simpl.
    pose proof (same_hour_seconds t1 t2 Ht1 Ht2 Hsame) as Hlt.
    by rewrite (proj2 (Z.ltb_lt _ _) Hlt).
Qed.

(** X18.  A created feedback counts in its category and in no other:
    in the report computed after a 201 the category of the new row has
    one more feedback, the new rating last, and every other category
    is as before. *)
Theorem created_feedback_counts_in_its_category (u : User) (data : json)
    (now : datetime.t) (w : world) (r : Response) :
  (CreateUserFeedbackView.create (Authenticated u) data now w).1 = Respond r ->
  status r = HTTP_201_CREATED ->
  let w' := (CreateUserFeedbackView.create (Authenticated u) data now w).2 in
  exists row,
    views.data r = FeedbackData (UserFeedbackCreateSerializer.to_representation row)
    /\ feedback (db w') = feedback (db w) ++ [row]
    /\ forall k,
         summary_of k (feedback_summary (UserFeedbackAnalyticsView.compute (db w')))
         = if bool_decide (k = category row)
           then Some {| summary_category := k;
                        total_feedbacks := S (length (feedback_of k (feedback (db w))));
                        ratings := (rating <$> feedback_of k (feedback (db w)))
                                   ++ [rating row] |}
           else summary_of k (feedback_summary (UserFeedbackAnalyticsView.compute (db w))).
Proof.
  intros Hr Hs w'.
  assert (exists row,
            views.data r = FeedbackData (UserFeedbackCreateSerializer.to_representation row)
            /\ feedback (db w') = feedback (db w) ++ [row]) as (row & Hdata & Hrow).
  { revert Hr Hs. unfold w', CreateUserFeedbackView.create.
    destruct (UserFeedbackCreateSerializer.run_validation data) as [[a|det]|x]; try done.
    - simpl. intros [= <-] _. eauto.
    - by intros [= <-]. }
  exists row. split; [done|]. split; [done|]. intros k.
  unfold UserFeedbackAnalyticsView.compute. cbn [feedback_summary]. rewrite Hrow.
  rewrite !summary_of_summary.
  rewrite (bool_decide_ext (k ∈ category <$> feedback (db w) ++ [row])
             (k = category row \/ k ∈ category <$> feedback (db w))).
  2:{ rewrite fmap_app, elem_of_app. cbn. rewrite list_elem_of_singleton. tauto. }
  unfold expected_summary. rewrite feedback_of_snoc.
  destruct (decide (k = category row)) as [->|Hne].
  - rewrite !bool_decide_eq_true_2 by (done || by left).
    rewrite fmap_app, length_app. cbn. do 2 f_equal. lia.
  - rewrite (bool_decide_eq_false_2 (k = category row)) by done.
    rewrite (bool_decide_eq_false_2 (category row = k)) by done.
    rewrite app_nil_r.
    rewrite (bool_decide_ext (k = category row \/ k ∈ category <$> feedback (db w))
               (k ∈ category <$> feedback (db w))); [done|].
    split; [by intros [?|?]|by right].
Qed.

(** ** The rating field *)

Lemma quantize_tenths sg c e :
  (e = 0 /\ (c < 10)%N) \/ (e = -1 /\ (c < 100)%N) ->
  PyDecimal.quantize 2 (-1) (PyDecimal.Finite sg c e)
  = Some (PyDecimal.Finite sg (if e =? 0 then (c * 10)%N else c) (-1)).
Proof.
  intros Hce. unfold PyDecimal.quantize.
  destruct (c =? 0)%N eqn:Hz.
  { apply N.eqb_eq in Hz. subst c. by destruct Hce as [[-> _]|[-> _]]. }
  apply N.eqb_neq in Hz. unfold PyDecimal.adjusted, PyDecimal.Emax.
  destruct Hce as [[-> Hc]|[-> Hc]].
  - rewrite (ndigits_one c Hc). simpl.
    unfold PyDecimal.rescale. simpl. change (10 ^ 1)%N with 10%N.
    rewrite (ndigits_two (c * 10)) by lia. simpl. done.
  - assert (PyDecimal.ndigits c = 1 \/ PyDecimal.ndigits c = 2)%nat as Hn.
    { destruct (N.lt_ge_cases c 10); [left; by apply ndigits_one|right; apply ndigits_two; lia]. }
    unfold PyDecimal.rescale. simpl. change (10 ^ 0)%N with 1%N. rewrite N.mul_1_r.
    destruct Hn as [-> | ->]; simpl; done.
Qed.

Lemma validate_precision_exact sg c e :
  validate_precision 2 1 (PyDecimal.Finite sg c e)
  = Ok (PyDecimal.Finite sg c e)
  <-> (e = 0 /\ (c < 10)%N) \/ (e = -1 /\ (c < 100)%N).
Proof.
  split; [by intros [_ H]%validate_precision_accepts|].
  intros Hce. unfold validate_precision. destruct Hce as [[-> Hc]|[-> Hc]].
  - rewrite (ndigits_one c Hc). done.
  - destruct (N.lt_ge_cases c 10).
    + by rewrite (ndigits_one c).
    + by rewrite (ndigits_two c) by lia.
Qed.

(** X19.  The ratings the field accepts, and what it keeps of them.  A
    rating written as a finite decimal is accepted exactly when it is
    one digit with no decimal place, or at most two digits with one
    decimal place; it is then stored in tenths with its value and its
    sign unchanged (nothing is rounded, a negative rating passes).
    Every other finite decimal is refused with a validation error. *)
Theorem rating_is_kept_in_tenths (j : json) (s : string) (sg : bool) (c : N) (e : Z) :
  scalar_str j = Some s ->
  (String.length (Py.strip s) <= MAX_STRING_LENGTH)%nat ->
  PyDecimal.of_str (Py.strip s) = Some (PyDecimal.Finite sg c e) ->
  ((e = 0 /\ (c < 10)%N) \/ (e = -1 /\ (c < 100)%N) ->
   DecimalField_to_internal_value UserFeedbackCreateSerializer.max_digits
     UserFeedbackCreateSerializer.decimal_places j
   = Ok (Ok (PyDecimal.Finite sg (if e =? 0 then (c * 10)%N else c) (-1))))
  /\ (~ ((e = 0 /\ (c < 10)%N) \/ (e = -1 /\ (c < 100)%N)) ->
      exists errs,
        DecimalField_to_internal_value UserFeedbackCreateSerializer.max_digits
          UserFeedbackCreateSerializer.decimal_places j
        = Ok (Raise errs)).
Proof.
  intros Hs Hlen Hd.
  change UserFeedbackCreateSerializer.max_digits with 2.
  change UserFeedbackCreateSerializer.decimal_places with 1.
  unfold DecimalField_to_internal_value. rewrite Hs.
  rewrite (proj2 (Nat.ltb_ge _ _) Hlen), Hd. split.
  - intros Hce. rewrite (proj2 (validate_precision_exact sg c e) Hce).
    unfold quantize. change (- (1)) with (-1). by rewrite (quantize_tenths sg c e Hce).
  - intros Hno. destruct (validate_precision 2 1 _) as [v|errs] eqn:Hv; [|eauto].
    by apply validate_precision_accepts in Hv as [_ Hce].
Qed.

(** ** The properties at the sample data *)

Lemma bulk_create_refreshes_the_statistics_witness :
  (BulkCreateUserInteractionView.post (Authenticated alice) (JList [click_item 5]) t_0915
     world_after_reports).1
  = Respond (mk_response (MessageDict "1 interactions created successfully")
               HTTP_201_CREATED)
  /\ status (mk_response (MessageDict "1 interactions created successfully")
               HTTP_201_CREATED) = HTTP_201_CREATED
  /\ let w' := (BulkCreateUserInteractionView.post (Authenticated alice)
                  (JList [click_item 5]) t_0915 world_after_reports).2 in
     let report := Stats (UserInteractionStatisticsView.compute t_0940 (db w')) in
     UserInteractionStatisticsView.get t_0940 w'
     = (Respond (mk_response report HTTP_200_OK),
        mk_world (db w')
          (cache.set (store w') (UserInteractionStatisticsView.cache_key t_0940) report 3600
             (datetime.to_seconds t_0940))).
Proof.
  assert ((BulkCreateUserInteractionView.post (Authenticated alice) (JList [click_item 5])
             t_0915 world_after_reports).1
          = Respond (mk_response (MessageDict "1 interactions created successfully")
                       HTTP_201_CREATED)) as Hr by (vm_compute; reflexivity).
  split; [exact Hr|]. split; [reflexivity|].
  exact (bulk_create_refreshes_the_statistics (Authenticated alice) (JList [click_item 5])
           t_0915 t_0940 world_after_reports _ Hr eq_refl).
Defined.

Lemma feedback_create_refreshes_the_analytics_witness :
  (CreateUserFeedbackView.create (Authenticated alice) praise t_0915 world_after_reports).1
  = Respond (mk_response (FeedbackData praise_attrs) HTTP_201_CREATED)
  /\ status (mk_response (FeedbackData praise_attrs) HTTP_201_CREATED) = HTTP_201_CREATED
  /\ let w' := (CreateUserFeedbackView.create (Authenticated alice) praise t_0915
                  world_after_reports).2 in
     let report := Analytics (UserFeedbackAnalyticsView.compute (db w')) in
     UserFeedbackAnalyticsView.get t_0940 w'
     = (Respond (mk_response report HTTP_200_OK),
        mk_world (db w')
          (cache.set (store w') (UserFeedbackAnalyticsView.cache_key t_0940) report 3600
             (datetime.to_seconds t_0940))).
Proof.
  assert ((CreateUserFeedbackView.create (Authenticated alice) praise t_0915
             world_after_reports).1
          = Respond (mk_response (FeedbackData praise_attrs) HTTP_201_CREATED)) as Hr
    by (vm_compute; reflexivity).
  split; [exact Hr|]. split; [reflexivity|].
  exact (feedback_create_refreshes_the_analytics (Authenticated alice) praise
           t_0915 t_0940 world_after_reports _ Hr eq_refl).
Defined.

Lemma bulk_create_leaves_user_lookups_stale_witness :
  cache.get (store world_after_listed_lookup)
    (UserInteractionByUser.cache_key sample_hash 1 []) (datetime.to_seconds t_0940)
  = Some (InteractionList [click_listed])
  /\ [click_listed] <> []
  /\ let w' := (BulkCreateUserInteractionView.post (Authenticated alice)
                  (JList [click_item 7]) t_0940 world_after_listed_lookup).2 in
     UserInteractionByUser.get sample_hash 1 [] t_0940 w'
     = (Respond (mk_response (InteractionList [click_listed]) HTTP_200_OK), w').
Proof.
  assert (cache.get (store world_after_listed_lookup)
            (UserInteractionByUser.cache_key sample_hash 1 []) (datetime.to_seconds t_0940)
          = Some (InteractionList [click_listed])) as Hget by (vm_compute; reflexivity).
  assert ([click_listed] <> []) as Hne by discriminate.
  split; [exact Hget|]. split; [exact Hne|].
  exact (bulk_create_leaves_user_lookups_stale (Authenticated alice) (JList [click_item 7])
           t_0940 t_0940 world_after_listed_lookup sample_hash 1 [] [click_listed] Hget Hne).
Defined.

Lemma user_lookup_lists_the_wanted_rows_witness :
  UserInteractionByUser.query 1 [("type", "click")] db_after_click = Ok [click_listed]
  /\ exists rows,
       [click_listed] = map UserInteractionCreateSerializer.to_representation rows
       /\ sublist rows (interactions db_after_click)
       /\ forall row, row ∈ rows
                      <-> row ∈ interactions db_after_click
                          /\ wanted 1 [("type", "click")] row.
Proof.
  assert (UserInteractionByUser.query 1 [("type", "click")] db_after_click
          = Ok [click_listed]) as Hq by (vm_compute; reflexivity).
  split; [exact Hq|].
  exact (user_lookup_lists_the_wanted_rows 1 [("type", "click")] db_after_click
           [click_listed] Hq).
Defined.


Lemma user_lookup_lives_thirty_minutes_witness :
  if_truthy (cache.get (store (mk_world db_after_click ∅))
               (UserInteractionByUser.cache_key sample_hash 1 [])
               (datetime.to_seconds t_0915)) = None
  /\ UserInteractionByUser.query 1 [] (db (mk_world db_after_click ∅)) = Ok [click_listed]
  /\ [click_listed] <> []
  /\ let s1 := store (UserInteractionByUser.get sample_hash 1 [] t_0915
                        (mk_world db_after_click ∅)).2 in
     forall (later : datetime.t) (d' : database),
       (datetime.to_seconds later < datetime.to_seconds t_0915 + 1800 ->
        UserInteractionByUser.get sample_hash 1 [] later (mk_world d' s1)
        = (Respond (mk_response (InteractionList [click_listed]) HTTP_200_OK),
           mk_world d' s1))
       /\ (datetime.to_seconds t_0915 + 1800 <= datetime.to_seconds later ->
           forall l', UserInteractionByUser.query 1 [] d' = Ok l' ->
                      (UserInteractionByUser.get sample_hash 1 [] later (mk_world d' s1)).1
                      = Respond (mk_response (InteractionList l') HTTP_200_OK)).
Proof.
  assert (if_truthy (cache.get (store (mk_world db_after_click ∅))
                       (UserInteractionByUser.cache_key sample_hash 1 [])
                       (datetime.to_seconds t_0915)) = None) as Hmiss
    by (vm_compute; reflexivity).
  assert (UserInteractionByUser.query 1 [] (db (mk_world db_after_click ∅))
          = Ok [click_listed]) as Hq by (vm_compute; reflexivity).
  assert ([click_listed] <> []) as Hne by discriminate.
  split; [exact Hmiss|]. split; [exact Hq|]. split; [exact Hne|].
  exact (user_lookup_lives_thirty_minutes sample_hash 1 [] t_0915
           (mk_world db_after_click ∅) [click_listed] Hmiss Hq Hne).
Defined.

Lemma bulk_create_is_whole_or_refused_witness :
  unique_feature_names (db sample_world)
  /\ let r := BulkCreateUserInteractionView.post (Authenticated alice)
                (JList [click_item 5; bad_kind_item]) t_0915 sample_world in
     (exists rows,
        r.1 = Respond
                (mk_response
                   (MessageDict (Py.str_nat (length rows)
                                 +:+ " interactions created successfully"))
                   HTTP_201_CREATED)
        /\ extends_interactions (db sample_world) (db r.2) rows
        /\ store r.2 = cache.delete_pattern (store sample_world) "user_interaction_stats_*")
     \/ (exists report,
           r = (Respond (mk_response (ListErrors report) HTTP_400_BAD_REQUEST),
                sample_world)).
Proof.
  assert (unique_feature_names (db sample_world)) as Hu by apply sample_db_unique.
  split; [exact Hu|].
  exact (bulk_create_is_whole_or_refused alice (JList [click_item 5; bad_kind_item]) t_0915
           sample_world Hu).
Defined.

Lemma bulk_created_rows_are_listed_witness :
  unique_feature_names (db sample_world)
  /\ Forall2 (fun item a =>
                UserInteractionCreateSerializer.run_validation (Authenticated alice)
                  (db sample_world) item
                = Ok (UserInteractionCreateSerializer.Attrs a))
       [click_item 5] [click_attrs]
  /\ let w' := (BulkCreateUserInteractionView.post (Authenticated alice)
                  (JList [click_item 5]) t_0915 sample_world).2 in
     exists old,
       UserInteractionByUser.query (user_pk alice) [] (db sample_world) = Ok old
       /\ UserInteractionByUser.query (user_pk alice) [] (db w')
          = Ok (old ++ (representation_of <$> [click_attrs])).
Proof.
  assert (unique_feature_names (db sample_world)) as Hu by apply sample_db_unique.
  assert (Forall2 (fun item a =>
                     UserInteractionCreateSerializer.run_validation (Authenticated alice)
                       (db sample_world) item
                     = Ok (UserInteractionCreateSerializer.Attrs a))
            [click_item 5] [click_attrs]) as Hv
    by (constructor; [vm_compute; reflexivity|constructor]).
  split; [exact Hu|]. split; [exact Hv|].
  exact (bulk_created_rows_are_listed alice [click_item 5] t_0915 sample_world [click_attrs]
           Hu Hv).
Defined.

Lemma analytics_are_cached_by_the_hour_witness :
  reachable sample_world
  /\ datetime.valid t_0915 = true /\ datetime.valid t_0940 = true
  /\ datetime.same_hour t_0915 t_0940
  /\ let r1 := UserFeedbackAnalyticsView.get t_0915 sample_world in
     UserFeedbackAnalyticsView.get t_0940 (mk_world db_after_click (store r1.2))
     = (r1.1, mk_world db_after_click (store r1.2)).
Proof.
  assert (reachable sample_world) as Hr by apply reachable_init.
  assert (datetime.same_hour t_0915 t_0940) as Hs by (by repeat split).
  split; [exact Hr|]. split; [reflexivity|]. split; [reflexivity|]. split; [exact Hs|].
  exact (analytics_are_cached_by_the_hour sample_world t_0915 t_0940 db_after_click
           Hr eq_refl eq_refl Hs).
Defined.

Lemma created_feedback_counts_in_its_category_witness :
  (CreateUserFeedbackView.create (Authenticated alice) praise t_0915 sample_world).1
  = Respond (mk_response (FeedbackData praise_attrs) HTTP_201_CREATED)
  /\ status (mk_response (FeedbackData praise_attrs) HTTP_201_CREATED) = HTTP_201_CREATED
  /\ let w' := (CreateUserFeedbackView.create (Authenticated alice) praise t_0915
                  sample_world).2 in
     exists row,
       views.data (mk_response (FeedbackData praise_attrs) HTTP_201_CREATED)
       = FeedbackData (UserFeedbackCreateSerializer.to_representation row)
       /\ feedback (db w') = feedback (db sample_world) ++ [row]
       /\ forall k,
            summary_of k (feedback_summary (UserFeedbackAnalyticsView.compute (db w')))
            = if bool_decide (k = category row)
              then Some {| summary_category := k;
                           total_feedbacks :=
                             S (length (feedback_of k (feedback (db sample_world))));
                           ratings := (rating <$> feedback_of k (feedback (db sample_world)))
                                      ++ [rating row] |}
              else summary_of k
                     (feedback_summary (UserFeedbackAnalyticsView.compute (db sample_world))).
Proof.
  assert ((CreateUserFeedbackView.create (Authenticated alice) praise t_0915 sample_world).1
          = Respond (mk_response (FeedbackData praise_attrs) HTTP_201_CREATED)) as Hr
    by (vm_compute; reflexivity).
  split; [exact Hr|]. split; [reflexivity|].
  exact (created_feedback_counts_in_its_category alice praise t_0915 sample_world _ Hr
           eq_refl).
Defined.

Lemma rating_is_kept_in_tenths_witness :
  scalar_str (JStr "-7") = Some "-7"
  /\ (String.length (Py.strip "-7") <= MAX_STRING_LENGTH)%nat
  /\ PyDecimal.of_str (Py.strip "-7") = Some (PyDecimal.Finite true 7 0)
  /\ ((0 = 0 /\ (7 < 10)%N) \/ (0 = -1 /\ (7 < 100)%N) ->
      DecimalField_to_internal_value UserFeedbackCreateSerializer.max_digits
        UserFeedbackCreateSerializer.decimal_places (JStr "-7")
      = Ok (Ok (PyDecimal.Finite true (if 0 =? 0 then (7 * 10)%N else 7%N) (-1))))
  /\ (~ ((0 = 0 /\ (7 < 10)%N) \/ (0 = -1 /\ (7 < 100)%N)) ->
      exists errs,
        DecimalField_to_internal_value UserFeedbackCreateSerializer.max_digits
          UserFeedbackCreateSerializer.decimal_places (JStr "-7")
        = Ok (Raise errs)).
Proof.
  assert ((String.length (Py.strip "-7") <= MAX_STRING_LENGTH)%nat) as Hlen
    by (vm_compute; lia).
  assert (PyDecimal.of_str (Py.strip "-7") = Some (PyDecimal.Finite true 7 0)) as Hd
    by (vm_compute; reflexivity).
  split; [reflexivity|]. split; [exact Hlen|]. split; [exact Hd|].
  exact (rating_is_kept_in_tenths (JStr "-7") "-7" true 7%N 0 eq_refl Hlen Hd).
Defined.
